(** * Valoritario backend

    A shallow embedding of the request handlers of the price-comparison
    backend: the shopping-list resolver ([shoppingListController]), the
    cheapest-listing query of [inventoryController], and the catalogue
    mutations of [productController] and [supermarketController].

    The handlers are Express callbacks over a Prisma client, behind the
    [authGuard] middleware that sets [req.user].  Here a handler is a
    function from the stored tables, [req.user] and the request to a
    response, and for mutating handlers also to the tables afterwards.  A
    handler's [catch] block answers 500 when a Prisma call rejects; the
    calls that only read are total on the tables, the calls that write are
    modelled with their rejections.  JavaScript numbers are IEEE 754
    binary64 values, taken from the standard library's executable
    specification ([SpecFloat]). *)

From Stdlib Require Import ZArith List String Bool Lia QArith Qround Qabs Lqa.
From Stdlib Require Import Permutation.
From Stdlib Require Import Floats.SpecFloat.
Import ListNotations.

Local Open Scope Z_scope.

(** ** JavaScript numbers *)

Module JS.

Definition prec : Z := 53.
Definition emax : Z := 1024.

(** A JavaScript [Number]. *)
Definition Number : Type := spec_float.

(** The literal [0]. *)
Definition zero : Number := S754_zero false.

(** [x * y] and [x + y] on numbers. *)
Definition mul (x y : Number) : Number := SFmul prec emax x y.
Definition add (x y : Number) : Number := SFadd prec emax x y.

(** The number denoted by the decimal literal [n / d] (or its negation):
    the binary64 value nearest to it, ties to even. *)
Definition literal (neg : bool) (n d : positive) : Number :=
  SFdiv prec emax (S754_finite neg n 0) (S754_finite false d 0).

(** The exact magnitude [m * 2^e] of a finite number. *)
Definition magnitude (m : positive) (e : Z) : Q :=
  match e with
  | Zneg p => Zpos m # (2 ^ p)%positive
  | _ => inject_Z (Zpos m * 2 ^ e)
  end.

(** The exact value of a number; zero stands in for the non-finite ones. *)
Definition value (x : Number) : Q :=
  match x with
  | S754_finite s m e => if s then Qopp (magnitude m e) else magnitude m e
  | _ => 0%Q
  end.


(** [x > 0]. *)
Definition positive (x : Number) : bool :=
  match x with
  | S754_finite false _ _ | S754_infinity false => true
  | _ => false
  end.

(** [Number.isFinite]. *)
Definition isFinite (x : Number) : bool :=
  match x with
  | S754_zero _ | S754_finite _ _ _ => true
  | _ => false
  end.

(** The mantissa and exponent are those of a binary64 number. *)
Definition valid (x : Number) : bool := valid_binary prec emax x.

(** The value of a valid number counted in units of [2^-1074], the smallest
    positive binary64 number. *)
Definition units (x : Number) : Z :=
  match x with
  | S754_finite s m e =>
      if s then - (Zpos m * 2 ^ (e + 1074)) else Zpos m * 2 ^ (e + 1074)
  | _ => 0
  end.

(** What [Number.prototype.toFixed(2)] returns: either a sign and the
    digits of an integer [n] with the point before its last two digits, or
    the text [ToString] gives for the number itself. *)
Inductive FixedText : Type :=
| FixedDigits (neg : bool) (n : Z)
| NumberText (x : Number).

(** ECMAScript, [Number.prototype.toFixed], step 10.a with [f = 2]: "let n
    be an integer for which n / 10^f - x is as close to zero as possible;
    if there are two such n, pick the larger n". *)
Definition nearest_cents (x : Q) : Z := Qfloor (100 * x + (1 # 2))%Q.

Definition ten_pow_21 : Q := inject_Z (10 ^ 21).

(** [x.toFixed(2)]: non-finite numbers and magnitudes from [10^21] on are
    printed by [ToString]; otherwise the sign is split off and the
    magnitude is rounded to an integer number of hundredths. *)
Definition toFixed2 (x : Number) : FixedText :=
  match x with
  | S754_nan | S754_infinity _ => NumberText x
  | S754_zero _ => FixedDigits false 0
  | S754_finite s m e =>
      if Qle_bool ten_pow_21 (magnitude m e) then NumberText x
      else FixedDigits s (nearest_cents (magnitude m e))
  end.

(** [parseFloat] on such a text: the number nearest to the decimal read.
    [ToString] round-trips, so a [NumberText] reads back as the number it
    was printed from. *)
Definition parseFloat (t : FixedText) : Number :=
  match t with
  | FixedDigits neg (Zpos n) => literal neg n 100
  | FixedDigits neg _ => S754_zero neg
  | NumberText x => x
  end.

(** [parseFloat(x.toFixed(2))], the rounding both the subtotal and the
    total go through. *)
Definition round2 (x : Number) : Number := parseFloat (toFixed2 x).

(** [l.reduce((a, b) => a + b, 0)]. *)
Definition sum (l : list Number) : Number := fold_left add l zero.

(** An integer literal. *)
Definition int (z : Z) : Number :=
  match z with
  | Z0 => zero
  | Zpos p => literal false p 1
  | Zneg p => literal true p 1
  end.

(** A number of hundredths written with two decimals, as a number. *)
Definition cents (c : Z) : Number :=
  match c with
  | Z0 => zero
  | Zpos p => literal false p 100
  | Zneg p => literal true p 100
  end.

(** JavaScript truthiness of an optional string: [undefined] and the empty
    string are falsy. *)
Definition truthy (s : option string) : bool :=
  match s with
  | Some EmptyString | None => false
  | Some _ => true
  end.

End JS.

Local Open Scope string_scope.

(** ** The stored tables

    The Prisma schema ([schema.prisma]) is not among the sources.  The
    records follow the data model of the specification and carry the fields
    the handlers read and write, under the names the handlers use.
    Identifiers are strings (route parameters are compared with them as they
    arrive), timestamps are integers. *)

Module User.
(** Modelled from the spec: the [User] model of the missing schema, "id,
    email (unique), password hash, role in {BASIC, VERIFIED, ADMIN}"; the
    role is kept as the string the handlers compare. *)
Record t : Type := mk {
  userId : string;
  email : string;
  role : string
}.
End User.

Module Product.
(** Modelled from the spec: the [Product] model of the missing schema, "id,
    name (unique), category (enum, closed set), comments, createdBy,
    updatedBy (both User refs)", with the update time the [select] of the
    PATCH route reads. *)
Record t : Type := mk {
  productId : string;
  productName : string;
  productCategory : string;
  productComments : option string;
  createdById : string;
  updatedById : string;
  updatedAt : Z
}.
End Product.

Module Supermarket.
(** Modelled from the spec: the [Supermarket] model of the missing schema,
    "id, name, comments, city (free text), createdBy, updatedBy". *)
Record t : Type := mk {
  supermarketId : string;
  supermarketName : string;
  supermarketComments : option string;
  city : string;
  createdById : string;
  updatedById : string
}.
End Supermarket.

Module Inventory.
(** Modelled from the spec: the [Inventory] model of the missing schema,
    "composite key (supermarketId, productId), price, inStock (boolean),
    updatedAt, createdBy/updatedBy".  The price is an operand of the
    JavaScript [*] in the resolver, hence a number.  A row is kept with the
    rows its required relations point to, the shape in which [include] and
    [select] hand it to the handlers ([inventoryItem.product.productName],
    [inventoryItem.supermarket.supermarketName]). *)
Record t : Type := mk {
  supermarketId : string;
  productId : string;
  price : JS.Number;
  inStock : bool;
  updatedAt : Z;
  updatedBy : User.t;
  supermarket : Supermarket.t;
  product : Product.t
}.
End Inventory.

Record Store : Type := mkStore {
  users : list User.t;
  products : list Product.t;
  supermarkets : list Supermarket.t;
  inventory : list Inventory.t
}.

(** ** Queries of the Prisma client *)

(** The order in which the database sorts a floating-point column: numbers
    by value, the two zeros equal, NaN after everything else. *)
Definition price_le (a b : JS.Number) : bool :=
  match SFcompare a b with
  | Some Gt => false
  | Some _ => true
  | None => match b with S754_nan => true | _ => false end
  end.

Section OrderBy.
Context {A : Type} (key : A -> JS.Number).

Fixpoint insert_asc (x : A) (l : list A) : list A :=
  match l with
  | [] => [x]
  | y :: ys =>
      if price_le (key x) (key y) then x :: y :: ys
      else y :: insert_asc x ys
  end.

(** [orderBy: { <key>: 'asc' }]; rows with equal keys keep their order. *)
Fixpoint orderBy_asc (l : list A) : list A :=
  match l with
  | [] => []
  | x :: xs => insert_asc x (orderBy_asc xs)
  end.
End OrderBy.

(** The [where] clause shared by the resolver and the cheapest-listing
    route: [{ productId, inStock: true, supermarket: { city } }]. *)
Definition offer_where (productId city : string) (r : Inventory.t) : bool :=
  (Inventory.productId r =? productId)
  && Inventory.inStock r
  && (Supermarket.city (Inventory.supermarket r) =? city).

(** [prisma.inventory.findFirst({ where, orderBy: { price: 'asc' } })]: the
    first of the matching rows in ascending order of price.  Among rows of
    equal price the database may return any; the model returns the one that
    comes first in the table. *)
Definition inventory_findFirst (db : Store) (productId city : string)
  : option Inventory.t :=
  hd_error (orderBy_asc Inventory.price
              (filter (offer_where productId city) (inventory db))).

(** ** Responses *)

Module Line.
(** One element of [shoppingItemsWithPrices]. *)
Record t : Type := mk {
  productName : string;
  supermarketName : string;
  quantity : JS.Number;
  lowestPrice : JS.Number;
  subtotal : JS.Number
}.
End Line.

Module ShoppingList.
Record t : Type := mk {
  userEmail : string;
  currentDate : Z;
  city : string;
  shoppingItems : list Line.t;
  total : JS.Number
}.
End ShoppingList.

Module Listing.
(** What the [select] of the cheapest-listing route returns.  A field the
    [select] leaves out is [None]. *)
Record t : Type := mk {
  price : JS.Number;
  inStock : bool;
  updatedAt : option Z;
  updatedBy : option (string * string);  (* { email, userId } *)
  supermarketName : string;              (* supermarket.supermarketName *)
  productName : string                   (* product.productName *)
}.
End Listing.

Module UpdatedProduct.
(** What the [select] of [PATCH /products/:id] returns. *)
Record t : Type := mk {
  productId : string;
  productName : string;
  productCategory : string;
  productComments : option string;
  updatedAt : Z;
  updatedBy : string * string            (* { userId, email } *)
}.
End UpdatedProduct.

Inductive Body : Type :=
| Message (message : string)
| Error (error : string)
| ProductBody (p : Product.t)
| UpdatedProductBody (p : UpdatedProduct.t)
| SupermarketBody (s : Supermarket.t)
| ListingBody (l : Listing.t)
| ShoppingListBody (l : ShoppingList.t).

Record Response : Type := mkResponse {
  status : Z;
  body : Body
}.

(** [res.status(c).json(b)], and [res.json(b)] which answers 200. *)
Definition respond (c : Z) (b : Body) : Response := mkResponse c b.
Definition json (b : Body) : Response := mkResponse 200 b.

(** ** [shoppingListController]: [POST /shoppingList] *)

Module Item.
(** One element of [req.body.shoppingItems]. *)
Record t : Type := mk {
  productId : string;
  quantity : JS.Number
}.
End Item.

(** The body of the [for] loop: the line pushed for one item. *)
Definition resolve_item (db : Store) (city : string) (item : Item.t) : Line.t :=
  match inventory_findFirst db (Item.productId item) city with
  | Some inventoryItem =>
      Line.mk
        (Product.productName (Inventory.product inventoryItem))
        (Supermarket.supermarketName (Inventory.supermarket inventoryItem))
        (Item.quantity item)
        (Inventory.price inventoryItem)
        (JS.parseFloat
           (JS.toFixed2 (JS.mul (Inventory.price inventoryItem) (Item.quantity item))))
  | None =>
      Line.mk
        ("Product with ID " ++ Item.productId item ++ " not found in " ++ city)
        "N/A"
        (Item.quantity item)
        JS.zero
        JS.zero
  end.

(** The loop: lines are pushed in the order the items are visited. *)
Definition resolve_items (db : Store) (city : string) (items : list Item.t)
  : list Line.t :=
  fold_left (fun shoppingItemsWithPrices item =>
               (shoppingItemsWithPrices ++ [resolve_item db city item])%list)
            items [].

(** [shoppingItemsWithPrices.reduce((acc, cur) => acc + cur.subtotal, 0)]. *)
Definition sum_subtotals (lines : list Line.t) : JS.Number :=
  fold_left (fun accumulator currentItem =>
               JS.add accumulator (Line.subtotal currentItem))
            lines JS.zero.

Definition list_total (lines : list Line.t) : JS.Number :=
  JS.parseFloat (JS.toFixed2 (sum_subtotals lines)).

(** The handler.  [now] is [new Date()].  The body is taken well-formed: a
    city and a list of items, each with a product identifier and a number as
    quantity. *)
Definition post_shoppingList (db : Store) (user : User.t) (now : Z)
    (city : string) (shoppingItems : list Item.t) : Response :=
  let shoppingItemsWithPrices := resolve_items db city shoppingItems in
  let total := list_total shoppingItemsWithPrices in
  respond 201
    (ShoppingListBody
       (ShoppingList.mk (User.email user) now city shoppingItemsWithPrices total)).

(** ** [inventoryController]: [GET /inventory/cheapest/:productId/:city] *)

Definition allowedRoles : list string := ["BASIC"; "VERIFIED"; "ADMIN"].

Definition includes (l : list string) (s : string) : bool :=
  existsb (String.eqb s) l.

(** The [select] of the route, which depends on the caller's role. *)
Definition cheapest_select (role : string) (r : Inventory.t) : Listing.t :=
  Listing.mk
    (Inventory.price r)
    (Inventory.inStock r)
    (if role =? "ADMIN" then Some (Inventory.updatedAt r) else None)
    (if role =? "ADMIN"
     then Some (User.email (Inventory.updatedBy r), User.userId (Inventory.updatedBy r))
     else None)
    (Supermarket.supermarketName (Inventory.supermarket r))
    (Product.productName (Inventory.product r)).

Definition get_cheapest (db : Store) (user : User.t) (productId city : string)
  : Response :=
  if negb (includes allowedRoles (User.role user)) then
    respond 403 (Message "Insufficient permissions.")
  else
    match inventory_findFirst db productId city with
    | None =>
        respond 404 (Message "No listing found for the given product and city.")
    | Some r => json (ListingBody (cheapest_select (User.role user) r))
    end.

(** ** Mutations of the Prisma client

    A Prisma call either resolves or rejects; a rejection lands in the
    handler's [catch] block. *)

Inductive Result (A : Type) : Type :=
| Ok (a : A)
| Rejected.
Arguments Ok {A} a.
Arguments Rejected {A}.

Fixpoint replace_first {A : Type} (test : A -> bool) (new : A) (l : list A)
  : list A :=
  match l with
  | [] => []
  | x :: xs => if test x then new :: xs else x :: replace_first test new xs
  end.

Definition or_else {A : Type} (o : option A) (d : A) : A :=
  match o with
  | Some a => a
  | None => d
  end.

Definition find_user (db : Store) (userId : string) : option User.t :=
  find (fun u => User.userId u =? userId) (users db).

Definition find_product (db : Store) (productId : string) : option Product.t :=
  find (fun p => Product.productId p =? productId) (products db).

Definition find_supermarket (db : Store) (supermarketId : string)
  : option Supermarket.t :=
  find (fun s => Supermarket.supermarketId s =? supermarketId) (supermarkets db).

Definition set_products (db : Store) (ps : list Product.t) : Store :=
  mkStore (users db) ps (supermarkets db) (inventory db).

Definition set_supermarkets (db : Store) (ss : list Supermarket.t) : Store :=
  mkStore (users db) (products db) ss (inventory db).

(** An inventory row is kept with the product and the supermarket it is
    joined to.  The join reads the live rows, so an update of a product or
    of a supermarket shows in every inventory row that refers to it: the
    copy the row is kept with is replaced by the updated row. *)
Definition join_product (p : Product.t) (r : Inventory.t) : Inventory.t :=
  if Inventory.productId r =? Product.productId p then
    Inventory.mk (Inventory.supermarketId r) (Inventory.productId r)
      (Inventory.price r) (Inventory.inStock r) (Inventory.updatedAt r)
      (Inventory.updatedBy r) (Inventory.supermarket r) p
  else r.

Definition join_supermarket (s : Supermarket.t) (r : Inventory.t) : Inventory.t :=
  if Inventory.supermarketId r =? Supermarket.supermarketId s then
    Inventory.mk (Inventory.supermarketId r) (Inventory.productId r)
      (Inventory.price r) (Inventory.inStock r) (Inventory.updatedAt r)
      (Inventory.updatedBy r) s (Inventory.product r)
  else r.

(** [prisma.product.findUnique({ where: { productName } })]; without a name
    the client refuses the query. *)
Definition product_findUnique_name (db : Store) (productName : option string)
  : Result (option Product.t) :=
  match productName with
  | None => Rejected
  | Some n => Ok (find (fun p => Product.productName p =? n) (products db))
  end.

(** The [data] of [prisma.product.update]: the columns to set, and the user
    [updatedBy] is connected to.  [None] leaves a column as it is. *)
Module ProductData.
Record t : Type := mk {
  productName : option string;
  productCategory : option string;
  productComments : option string;
  updatedBy : string
}.
End ProductData.

Module SupermarketData.
Record t : Type := mk {
  supermarketName : option string;
  supermarketComments : option string;
  city : option string;
  updatedBy : string
}.
End SupermarketData.

(** [prisma.supermarket.update({ where: { supermarketId: id }, data })]:
    rejected when no row has the id or the user to connect does not exist;
    a column whose value is [undefined] stays as it is. *)
Definition supermarket_update (db : Store) (id : string) (data : SupermarketData.t)
  : Result (Supermarket.t * Store) :=
  match find_supermarket db id, find_user db (SupermarketData.updatedBy data) with
  | Some s, Some u =>
      let s' :=
        Supermarket.mk
          (Supermarket.supermarketId s)
          (or_else (SupermarketData.supermarketName data) (Supermarket.supermarketName s))
          (match SupermarketData.supermarketComments data with
           | Some c => Some c
           | None => Supermarket.supermarketComments s
           end)
          (or_else (SupermarketData.city data) (Supermarket.city s))
          (Supermarket.createdById s)
          (User.userId u) in
      Ok (s', mkStore (users db) (products db)
                (replace_first (fun x => Supermarket.supermarketId x =? id) s'
                   (supermarkets db))
                (map (join_supermarket s') (inventory db)))
  | _, _ => Rejected
  end.

(** [req.body] of the product routes; an absent property is [None]. *)
Module ProductFields.
Record t : Type := mk {
  productName : option string;
  productCategory : option string;
  productComments : option string
}.
End ProductFields.

Section Catalogue.

(** The values of the Prisma enum [ProductCategory], declared in the missing
    schema. *)
Variable ProductCategory : list string.

Definition valid_category (c : option string) : bool :=
  match c with
  | Some c => includes ProductCategory c
  | None => true
  end.

(** Another row than [id] already carries the name. *)
Definition name_taken (db : Store) (id : string) (n : option string) : bool :=
  match n with
  | Some n =>
      existsb (fun q => negb (Product.productId q =? id)
                        && (Product.productName q =? n)) (products db)
  | None => false
  end.

(** Modelled from the spec: the constraints of the missing schema on
    [prisma.product.create({ data })], "name unique across all products" and
    "category (enum, closed set)".  Both relations are connected to
    [userId]; [newId] is the identifier the database generates.  The call is
    rejected on a missing name or category, an unknown category, a taken
    name or identifier, or an unknown user. *)
Definition product_create (db : Store)
    (productName productCategory productComments : option string)
    (userId newId : string) (now : Z) : Result (Product.t * Store) :=
  match productName, productCategory, find_user db userId with
  | Some n, Some c, Some u =>
      if includes ProductCategory c
         && negb (existsb (fun q => Product.productName q =? n) (products db))
         && negb (existsb (fun q => Product.productId q =? newId) (products db))
      then
        let p := Product.mk newId n c productComments
                   (User.userId u) (User.userId u) now in
        Ok (p, set_products db (products db ++ [p])%list)
      else Rejected
  | _, _, _ => Rejected
  end.

(** Modelled from the spec: the constraints of the missing schema on
    [prisma.product.update({ where: { productId: id }, data })], "name unique
    across all products", "category (enum, closed set)" and updates that
    "stamp updatedBy/updatedAt".  The call returns the row with the connected
    user for the [select]; it is rejected when no row has the id, the user
    does not exist, the new name is another product's or the new category is
    unknown.  [now] is written to [updatedAt]. *)
Definition product_update (db : Store) (id : string) (data : ProductData.t)
    (now : Z) : Result (Product.t * User.t * Store) :=
  match find_product db id, find_user db (ProductData.updatedBy data) with
  | Some p, Some u =>
      if negb (name_taken db id (ProductData.productName data))
         && valid_category (ProductData.productCategory data)
      then
        let p' :=
          Product.mk
            (Product.productId p)
            (or_else (ProductData.productName data) (Product.productName p))
            (or_else (ProductData.productCategory data) (Product.productCategory p))
            (match ProductData.productComments data with
             | Some c => Some c
             | None => Product.productComments p
             end)
            (Product.createdById p)
            (User.userId u)
            now in
        Ok (p', u, mkStore (users db)
                     (replace_first (fun x => Product.productId x =? id) p'
                        (products db))
                     (supermarkets db)
                     (map (join_product p') (inventory db)))
      else Rejected
  | _, _ => Rejected
  end.

(** *** [productController]: [POST /products] *)

Definition already_exists : string :=
  "The product you entered already exists in the database. If you want to update the price, please use the 'update' feature.".

Definition post_product (db : Store) (user : User.t) (reqBody : ProductFields.t)
    (newId : string) (now : Z) : Response * Store :=
  if negb (User.role user =? "VERIFIED") && negb (User.role user =? "ADMIN") then
    (respond 403 (Message "Insufficient permissions."), db)
  else
    match product_findUnique_name db (ProductFields.productName reqBody) with
    | Ok (Some existingProduct) => (respond 400 (Message already_exists), db)
    | Ok None =>
        match product_create db
                (ProductFields.productName reqBody)
                (ProductFields.productCategory reqBody)
                (ProductFields.productComments reqBody)
                (User.userId user) newId now with
        | Ok (newProduct, db') => (respond 201 (ProductBody newProduct), db')
        | Rejected =>
            (respond 500 (Error "An error occurred while creating the product."), db)
        end
    | Rejected =>
        (respond 500 (Error "An error occurred while creating the product."), db)
    end.

(** *** [productController]: [PATCH /products/:id] *)

(** [updateData]: [updatedBy] always, the three columns only for an ADMIN
    and only when the body carries a truthy value. *)
Definition updateData (user : User.t) (reqBody : ProductFields.t) : ProductData.t :=
  let admin := User.role user =? "ADMIN" in
  let pick (v : option string) : option string :=
    if admin && JS.truthy v then v else None in
  ProductData.mk
    (pick (ProductFields.productName reqBody))
    (pick (ProductFields.productCategory reqBody))
    (pick (ProductFields.productComments reqBody))
    (User.userId user).

Definition patch_product (db : Store) (user : User.t) (id : string)
    (reqBody : ProductFields.t) (now : Z) : Response * Store :=
  if negb (User.role user =? "VERIFIED") && negb (User.role user =? "ADMIN") then
    (respond 403 (Message "Insufficient permissions."), db)
  else
    match product_update db id (updateData user reqBody) now with
    | Ok (p, u, db') =>
        (json (UpdatedProductBody
                 (UpdatedProduct.mk
                    (Product.productId p) (Product.productName p)
                    (Product.productCategory p) (Product.productComments p)
                    (Product.updatedAt p)
                    (User.userId u, User.email u))), db')
    | Rejected =>
        (respond 500 (Error "An error occurred while updating the product."), db)
    end.

End Catalogue.

(** ** [supermarketController]: [PATCH /supermarket/:id] *)

Module SupermarketPatch.
Record t : Type := mk {
  supermarketName : option string;
  supermarketComments : option string;
  city : option string
}.
End SupermarketPatch.

Definition patch_supermarket (db : Store) (user : User.t) (id : string)
    (reqBody : SupermarketPatch.t) : Response * Store :=
  if negb (User.role user =? "ADMIN") then
    (respond 403 (Message "Insufficient permissions."), db)
  else
    match supermarket_update db id
            (SupermarketData.mk
               (SupermarketPatch.supermarketName reqBody)
               (SupermarketPatch.supermarketComments reqBody)
               (SupermarketPatch.city reqBody)
               (User.userId user)) with
    | Ok (updatedSupermarket, db') => (json (SupermarketBody updatedSupermarket), db')
    | Rejected =>
        (respond 500 (Error "An error occurred while updating the supermarket."), db)
    end.

(** * The other routes of the controllers

    The remaining handlers of [productController], [supermarketController]
    and [inventoryController] answer with data of their own shape.  A reply
    is [res.status(code).json(payload)], where the payload is the data, a
    [{ message }] object or an [{ error }] object. *)

Inductive Payload (A : Type) : Type :=
| Data (a : A)
| Notice (message : string)
| Failure (error : string).
Arguments Data {A} a.
Arguments Notice {A} message.
Arguments Failure {A} error.

Record Reply (A : Type) : Type := mkReply {
  code : Z;
  payload : Payload A
}.
Arguments mkReply {A} code payload.
Arguments code {A} r.
Arguments payload {A} r.

(** [res.status(c).json(p)], and [res.json(p)] which answers 200. *)
Definition send {A : Type} (c : Z) (p : Payload A) : Reply A := mkReply c p.
Definition send_json {A : Type} (p : Payload A) : Reply A := mkReply 200 p.

Fixpoint remove_first {A : Type} (test : A -> bool) (l : list A) : list A :=
  match l with
  | [] => []
  | x :: xs => if test x then xs else x :: remove_first test xs
  end.

Definition set_inventory (db : Store) (inv : list Inventory.t) : Store :=
  mkStore (users db) (products db) (supermarkets db) inv.

(** The rows of the inventory that belong to a product, to a supermarket,
    and the row of a (supermarket, product) pair, which the code addresses
    as [supermarketId_productId]. *)
Definition of_product (productId : string) (r : Inventory.t) : bool :=
  Inventory.productId r =? productId.

Definition of_supermarket (supermarketId : string) (r : Inventory.t) : bool :=
  Inventory.supermarketId r =? supermarketId.

Definition of_pair (supermarketId productId : string) (r : Inventory.t) : bool :=
  (Inventory.supermarketId r =? supermarketId)
  && (Inventory.productId r =? productId).

Definition find_inventory (db : Store) (supermarketId productId : string)
  : option Inventory.t :=
  find (of_pair supermarketId productId) (inventory db).

(** What the database does with the inventory rows of a product or a
    supermarket that is deleted. *)
Inductive ReferentialAction : Type :=
| Cascade
| Restrict.

(** The [select] of [GET /products] and [GET /products/:id]. *)
Module ProductSummary.
Record t : Type := mk {
  productId : string;
  productName : string;
  productCategory : string;
  productComments : option string
}.
End ProductSummary.

Definition product_summary (p : Product.t) : ProductSummary.t :=
  ProductSummary.mk (Product.productId p) (Product.productName p)
    (Product.productCategory p) (Product.productComments p).

(** The [select] of [GET /supermarket] and [GET /supermarket/:id]. *)
Module SupermarketSummary.
Record t : Type := mk {
  supermarketId : string;
  supermarketName : string;
  city : string
}.
End SupermarketSummary.

Definition supermarket_summary (s : Supermarket.t) : SupermarketSummary.t :=
  SupermarketSummary.mk (Supermarket.supermarketId s)
    (Supermarket.supermarketName s) (Supermarket.city s).

(** The [select] of [POST /supermarket]. *)
Module CreatedSupermarket.
Record t : Type := mk {
  supermarketId : string;
  supermarketName : string;
  supermarketComments : option string;
  city : string;
  createdAt : Z;
  createdBy : string * string            (* { userId, email } *)
}.
End CreatedSupermarket.

(** [req.body] of [POST /inventory] and of [PATCH /inventory/...]. *)
Module NewInventory.
Record t : Type := mk {
  price : option JS.Number;
  productId : option string;
  supermarketId : option string
}.
End NewInventory.

Module InventoryPatch.
Record t : Type := mk {
  price : option JS.Number;
  inStock : option bool
}.
End InventoryPatch.

(** What [POST /inventory] answers: the created row with its [product] and
    [supermarket], and their names once more at the top. *)
Module CreatedInventory.
Record t : Type := mk {
  newInventory : Inventory.t;
  createdById : string;
  productName : string;
  supermarketName : string
}.
End CreatedInventory.

(** An element of [GET /inventory] and of
    [GET /inventory/supermarket/:supermarketId]. *)
Module InventoryView.
Record t : Type := mk {
  productName : string;
  supermarketName : string;
  price : JS.Number;
  inStock : bool;
  updatedAt : Z
}.
End InventoryView.

Definition inventory_view (r : Inventory.t) : InventoryView.t :=
  InventoryView.mk
    (Product.productName (Inventory.product r))
    (Supermarket.supermarketName (Inventory.supermarket r))
    (Inventory.price r) (Inventory.inStock r) (Inventory.updatedAt r).

(** An element of [GET /inventory/category/:city/:productCategory]: a
    product name with the selected inventory rows, each a price and a
    supermarket name. *)
Module CategoryEntry.
Record t : Type := mk {
  productName : string;
  inventory : list (JS.Number * string)
}.
End CategoryEntry.

(** [findMany] without [orderBy] returns the rows in an order the database
    chooses.  A [RowOrder] is such a choice: what a scan makes of the rows of
    a table; [keeps_rows] says that it returns each row once. *)
Definition RowOrder : Type := forall A : Type, list A -> list A.

Definition keeps_rows (scan : RowOrder) : Prop :=
  forall (A : Type) (l : list A), Permutation (scan A l) l.

(** *** [productController]: [GET /products], [GET /products/:id] *)

Definition get_products (scan : RowOrder) (db : Store)
  : Reply (list ProductSummary.t) :=
  send_json (Data (map product_summary (scan _ (products db)))).

Definition get_product (db : Store) (id : string) : Reply ProductSummary.t :=
  match find_product db id with
  | Some product => send_json (Data (product_summary product))
  | None => send 404 (Notice "Product not found.")
  end.

(** *** [supermarketController]: [GET /supermarket], [GET /supermarket/:id] *)

Definition get_supermarkets (scan : RowOrder) (db : Store) (user : User.t)
  : Reply (list SupermarketSummary.t) :=
  if negb (includes ["BASIC"; "VERIFIED"; "ADMIN"] (User.role user)) then
    send 403 (Notice "Insufficient permissions.")
  else send_json (Data (map supermarket_summary (scan _ (supermarkets db)))).

Definition get_supermarket (db : Store) (user : User.t) (id : string)
  : Reply SupermarketSummary.t :=
  if negb (includes ["BASIC"; "VERIFIED"; "ADMIN"] (User.role user)) then
    send 403 (Notice "Insufficient permissions.")
  else
    match find_supermarket db id with
    | None => send 404 (Notice "Supermarket not found.")
    | Some supermarket => send_json (Data (supermarket_summary supermarket))
    end.

(** [prisma.supermarket.create({ data, select })] with both relations
    connected to [userId]; [newId] is the identifier the database generates.
    Rejected on a missing name or city, a taken identifier or an unknown
    user. *)
Definition supermarket_create (db : Store)
    (supermarketName supermarketComments city : option string)
    (userId newId : string) : Result (Supermarket.t * User.t * Store) :=
  match supermarketName, city, find_user db userId with
  | Some n, Some c, Some u =>
      if existsb (fun s => Supermarket.supermarketId s =? newId) (supermarkets db)
      then Rejected
      else
        let s := Supermarket.mk newId n supermarketComments c
                   (User.userId u) (User.userId u) in
        Ok (s, u, set_supermarkets db (supermarkets db ++ [s])%list)
  | _, _, _ => Rejected
  end.

(** *** [supermarketController]: [POST /supermarket] *)

Definition post_supermarket (db : Store) (user : User.t)
    (reqBody : SupermarketPatch.t) (newId : string) (now : Z)
  : Reply CreatedSupermarket.t * Store :=
  if negb (User.role user =? "ADMIN") then
    (send 403 (Notice "Insufficient permissions."), db)
  else
    match supermarket_create db
            (SupermarketPatch.supermarketName reqBody)
            (SupermarketPatch.supermarketComments reqBody)
            (SupermarketPatch.city reqBody)
            (User.userId user) newId with
    | Ok (s, u, db') =>
        (send 201
           (Data (CreatedSupermarket.mk
                    (Supermarket.supermarketId s) (Supermarket.supermarketName s)
                    (Supermarket.supermarketComments s) (Supermarket.city s)
                    now (User.userId u, User.email u))), db')
    | Rejected =>
        (send 500 (Failure "An error occurred while creating the supermarket."), db)
    end.

(** *** [inventoryController]: the reading routes *)

(** [toProductCategory], over the values of the enum. *)
Definition toProductCategory (ProductCategory : list string) (category : string)
  : option string :=
  if includes ProductCategory category then Some category else None.

(** [GET /inventory]: every row, for any authenticated caller. *)
Definition get_inventory (scan : RowOrder) (db : Store) (user : User.t)
  : Reply (list InventoryView.t) :=
  send_json (Data (map inventory_view (scan _ (inventory db)))).

(** [GET /inventory/supermarket/:supermarketId], which is not behind
    [authGuard]. *)
Definition get_inventory_of_supermarket (scan : RowOrder) (db : Store)
    (supermarketId : string) : Reply (list InventoryView.t) :=
  let itemsInSupermarket :=
    scan _ (filter (of_supermarket supermarketId) (inventory db)) in
  match itemsInSupermarket with
  | [] => send 404 (Notice "No items found in the given supermarket.")
  | _ => send_json (Data (map inventory_view itemsInSupermarket))
  end.

(** The nested [inventory] selection of the category route: the offers of
    the product in the city by ascending price, [take: 1]. *)
Definition cheapest_offers (db : Store) (productId city : string)
  : list (JS.Number * string) :=
  firstn 1
    (map (fun r => (Inventory.price r,
                    Supermarket.supermarketName (Inventory.supermarket r)))
       (orderBy_asc Inventory.price
          (filter (offer_where productId city) (inventory db)))).

(** [GET /inventory/category/:city/:productCategory]: the products of the
    category with some in-stock row in a supermarket of the city, in the
    order the database returns them. *)
Definition get_category (ProductCategory : list string) (scan : RowOrder)
    (db : Store) (user : User.t) (city productCategory : string)
  : Reply (list CategoryEntry.t) :=
  if negb (User.role user =? "ADMIN") && negb (User.role user =? "VERIFIED") then
    send 403 (Notice "Insufficient permissions.")
  else
    let categoryEnum := toProductCategory ProductCategory productCategory in
    if negb (JS.truthy categoryEnum) then
      send 400 (Notice "Invalid product category.")
    else
      let productList :=
        scan _
          (filter (fun p =>
                     (Product.productCategory p =? or_else categoryEnum "")
                     && existsb (offer_where (Product.productId p) city)
                          (inventory db))
                  (products db)) in
      send_json
        (Data (map (fun p =>
                      CategoryEntry.mk (Product.productName p)
                        (cheapest_offers db (Product.productId p) city))
                   productList)).

(** *** The writing routes

    The schema is not among the sources.  Two of its choices show in what
    the writing routes do and are taken as parameters: what happens to the
    inventory rows of a deleted product or supermarket, and the value
    [inStock] takes when a row is created without one. *)

Section Writes.

Variable product_onDelete : ReferentialAction.
Variable supermarket_onDelete : ReferentialAction.
Variable inStock_default : bool.

(** [prisma.product.delete({ where: { productId: id } })]: rejected when no
    row has the id, or when inventory rows refer to it and the relation
    restricts. *)
Definition product_delete (db : Store) (id : string)
  : Result (Product.t * Store) :=
  match find_product db id with
  | None => Rejected
  | Some p =>
      let ps := remove_first (fun x => Product.productId x =? id) (products db) in
      match product_onDelete with
      | Restrict =>
          if existsb (of_product id) (inventory db) then Rejected
          else Ok (p, set_products db ps)
      | Cascade =>
          Ok (p, mkStore (users db) ps (supermarkets db)
                   (filter (fun r => negb (of_product id r)) (inventory db)))
      end
  end.

(** [prisma.supermarket.delete({ where: { supermarketId: id } })]. *)
Definition supermarket_delete (db : Store) (id : string)
  : Result (Supermarket.t * Store) :=
  match find_supermarket db id with
  | None => Rejected
  | Some s =>
      let ss := remove_first (fun x => Supermarket.supermarketId x =? id)
                  (supermarkets db) in
      match supermarket_onDelete with
      | Restrict =>
          if existsb (of_supermarket id) (inventory db) then Rejected
          else Ok (s, set_supermarkets db ss)
      | Cascade =>
          Ok (s, mkStore (users db) (products db) ss
                   (filter (fun r => negb (of_supermarket id r)) (inventory db)))
      end
  end.

(** [prisma.inventory.create({ data, include })]: the product, the
    supermarket and the user are connected by their identifiers, so each
    must exist; the pair (supermarket, product) must be new.  [now] is the
    default of [updatedAt]. *)
Definition inventory_create (db : Store) (price : option JS.Number)
    (productId supermarketId : option string) (userId : string) (now : Z)
  : Result (Inventory.t * Store) :=
  match price, productId, supermarketId with
  | Some price, Some productId, Some supermarketId =>
      match find_product db productId, find_supermarket db supermarketId,
            find_user db userId with
      | Some p, Some s, Some u =>
          if existsb (of_pair supermarketId productId) (inventory db)
          then Rejected
          else
            let r := Inventory.mk (Supermarket.supermarketId s)
                       (Product.productId p) price inStock_default now u s p in
            Ok (r, set_inventory db (inventory db ++ [r])%list)
      | _, _, _ => Rejected
      end
  | _, _, _ => Rejected
  end.

(** [prisma.inventory.update({ where: { supermarketId_productId }, data })]:
    rejected when no row has the pair or the user does not exist; a column
    whose value is [undefined] stays as it is. *)
Definition inventory_update (db : Store) (supermarketId productId : string)
    (price : option JS.Number) (inStock : option bool) (updatedAt : Z)
    (userId : string) : Result (Inventory.t * Store) :=
  match find_inventory db supermarketId productId, find_user db userId with
  | Some r, Some u =>
      let r' := Inventory.mk (Inventory.supermarketId r) (Inventory.productId r)
                  (or_else price (Inventory.price r))
                  (or_else inStock (Inventory.inStock r))
                  updatedAt u (Inventory.supermarket r) (Inventory.product r) in
      Ok (r', set_inventory db
                (replace_first (of_pair supermarketId productId) r'
                   (inventory db)))
  | _, _ => Rejected
  end.

(** [prisma.inventory.delete({ where: { supermarketId_productId } })]. *)
Definition inventory_delete (db : Store) (supermarketId productId : string)
  : Result Store :=
  match find_inventory db supermarketId productId with
  | Some _ =>
      Ok (set_inventory db
            (remove_first (of_pair supermarketId productId) (inventory db)))
  | None => Rejected
  end.

(** *** [productController]: [DELETE /products/:id] *)

Definition delete_product (db : Store) (user : User.t) (id : string)
  : Reply (string * Product.t) * Store :=
  if negb (User.role user =? "ADMIN") then
    (send 403 (Notice "Insufficient permissions."), db)
  else
    match product_delete db id with
    | Ok (deletedProduct, db') =>
        (send_json (Data ("Product deleted successfully.", deletedProduct)), db')
    | Rejected =>
        (send 500 (Failure "An error occurred while deleting the product."), db)
    end.

(** *** [supermarketController]: [DELETE /supermarket/:id] *)

Definition delete_supermarket (db : Store) (user : User.t) (id : string)
  : Reply (string * Supermarket.t) * Store :=
  if negb (User.role user =? "ADMIN") then
    (send 403 (Notice "Insufficient permissions."), db)
  else
    match supermarket_delete db id with
    | Ok (deletedSupermarket, db') =>
        (send_json (Data ("Supermarket deleted successfully.", deletedSupermarket)),
         db')
    | Rejected =>
        (send 500 (Failure "An error occurred while deleting the supermarket."), db)
    end.

(** *** [inventoryController]: [POST /inventory] *)

Definition post_inventory (db : Store) (user : User.t) (reqBody : NewInventory.t)
    (now : Z) : Reply CreatedInventory.t * Store :=
  if negb (User.role user =? "VERIFIED") && negb (User.role user =? "ADMIN") then
    (send 403 (Notice "Insufficient permissions."), db)
  else
    match inventory_create db (NewInventory.price reqBody)
            (NewInventory.productId reqBody) (NewInventory.supermarketId reqBody)
            (User.userId user) now with
    | Ok (newInventory, db') =>
        (send 201
           (Data (CreatedInventory.mk newInventory (User.userId user)
                    (Product.productName (Inventory.product newInventory))
                    (Supermarket.supermarketName
                       (Inventory.supermarket newInventory)))), db')
    | Rejected =>
        (send 500
           (Failure "An error occurred while creating the inventory entry."), db)
    end.

(** *** [inventoryController]: [PATCH /inventory/:supermarketId/:productId] *)

Definition patch_inventory (db : Store) (user : User.t)
    (supermarketId productId : string) (reqBody : InventoryPatch.t) (now : Z)
  : Reply Inventory.t * Store :=
  if negb (User.role user =? "ADMIN") && negb (User.role user =? "VERIFIED") then
    (send 403 (Notice "Insufficient permissions."), db)
  else
    match inventory_update db supermarketId productId
            (InventoryPatch.price reqBody) (InventoryPatch.inStock reqBody)
            now (User.userId user) with
    | Ok (updatedInventory, db') => (send_json (Data updatedInventory), db')
    | Rejected =>
        (send 500
           (Failure "An error occurred while updating the inventory entry."), db)
    end.

(** *** [inventoryController]: [DELETE /inventory/:supermarketId/:productId] *)

Definition delete_inventory (db : Store) (user : User.t)
    (supermarketId productId : string) : Reply unit * Store :=
  if negb (User.role user =? "ADMIN") then
    (send 403 (Notice "Insufficient permissions."), db)
  else
    match inventory_delete db supermarketId productId with
    | Ok db' => (send 204 (Notice "Inventory entry deleted successfully."), db')
    | Rejected =>
        (send 500
           (Failure "An error occurred while deleting the inventory entry."), db)
    end.

End Writes.

(** ** Vocabulary of the statements *)

(** An offer for a product in a city: an in-stock row of that product whose
    supermarket is in the city. *)
Definition is_offer (db : Store) (productId city : string) (r : Inventory.t)
  : Prop :=
  In r (inventory db)
  /\ Inventory.productId r = productId
  /\ Inventory.inStock r = true
  /\ Supermarket.city (Inventory.supermarket r) = city.

(** Round-half-up to two places of the exact product of a price and a
    quantity, as the number written with those two decimals. *)
Definition half_up_subtotal (price quantity : JS.Number) : JS.Number :=
  JS.cents (Qfloor (100 * (JS.value price * JS.value quantity) + (1 # 2))%Q).

(** The total in the words of the specification, with the decimal rounding
    it names for the subtotal: [round(x, 2)] is the multiple of 0.01 nearest
    to the exact [x], a half rounded up.  A line with an offer contributes
    [round(price * quantity, 2)], a line without one contributes 0, and the
    total is [round] of the exact sum, as the number written with those two
    decimals. *)
Definition half_up (x : Q) : Q := (inject_Z (Qfloor (100 * x + (1 # 2))) / 100)%Q.

Definition half_up_contribution (db : Store) (city : string) (item : Item.t)
  : Q :=
  match inventory_findFirst db (Item.productId item) city with
  | Some r => half_up (JS.value (Inventory.price r) * JS.value (Item.quantity item))
  | None => 0%Q
  end.

Definition half_up_total (db : Store) (city : string) (items : list Item.t)
  : JS.Number :=
  JS.cents
    (Qfloor (100 * half_up (fold_right Qplus 0%Q
                              (map (half_up_contribution db city) items)))%Q).

(** Two product rows with the same name, category and comments, the three
    fields only an ADMIN may write. *)
Definition same_fields (p p' : Product.t) : Prop :=
  Product.productName p' = Product.productName p
  /\ Product.productCategory p' = Product.productCategory p
  /\ Product.productComments p' = Product.productComments p.

(** Two inventory rows that agree on everything but [updatedAt] and
    [updatedBy]. *)
Definition same_but_audit (r r' : Inventory.t) : Prop :=
  Inventory.supermarketId r = Inventory.supermarketId r'
  /\ Inventory.productId r = Inventory.productId r'
  /\ Inventory.price r = Inventory.price r'
  /\ Inventory.inStock r = Inventory.inStock r'
  /\ Inventory.supermarket r = Inventory.supermarket r'
  /\ Inventory.product r = Inventory.product r'.

(** Two stores that differ only in the audit fields of their inventory. *)
Definition audit_variant (db db' : Store) : Prop :=
  users db = users db'
  /\ products db = products db'
  /\ supermarkets db = supermarkets db'
  /\ Forall2 same_but_audit (inventory db) (inventory db').

(** ** Vocabulary of the further statements *)

(** The item resolves to an offer. *)
Definition has_offer (db : Store) (city : string) (item : Item.t) : bool :=
  match inventory_findFirst db (Item.productId item) city with
  | Some _ => true
  | None => false
  end.

(** The total of the response to a shopping list, and 0 when the response is
    not a list. *)
Definition total_of (r : Response) : JS.Number :=
  match body r with
  | ShoppingListBody l => ShoppingList.total l
  | _ => JS.zero
  end.

(** Two numbers that are equal, or both a zero of either sign. *)
Definition same_number (a b : JS.Number) : Prop :=
  a = b \/ exists s t, a = S754_zero s /\ b = S754_zero t.

(** The (supermarket, product) pair an inventory row belongs to. *)
Definition pair_of (r : Inventory.t) : string * string :=
  (Inventory.supermarketId r, Inventory.productId r).

(** No two products share an identifier or a name; no two supermarkets share
    an identifier; no two inventory rows share a pair. *)
Definition products_unique (db : Store) : Prop :=
  NoDup (map Product.productId (products db))
  /\ NoDup (map Product.productName (products db)).

Definition supermarkets_unique (db : Store) : Prop :=
  NoDup (map Supermarket.supermarketId (supermarkets db)).

Definition pairs_unique (db : Store) : Prop :=
  NoDup (map pair_of (inventory db)).

(** Nothing was removed between two stores: the users and supermarkets are
    the same, and every product identifier and inventory pair that was found
    is still found. *)
Definition nothing_removed (db db' : Store) : Prop :=
  users db' = users db
  /\ supermarkets db' = supermarkets db
  /\ (forall id, find_product db id <> None -> find_product db' id <> None)
  /\ (forall supermarketId productId,
        find_inventory db supermarketId productId <> None ->
        find_inventory db' supermarketId productId <> None).

(** ** A sample store *)

Module Sample.

Definition alice : User.t := User.mk "u-alice" "alice@example.com" "ADMIN".
Definition bob : User.t := User.mk "u-bob" "bob@example.com" "VERIFIED".
Definition carol : User.t := User.mk "u-carol" "carol@example.com" "BASIC".

Definition categories : list string := ["DAIRY"; "BAKERY"; "PANTRY"].

Definition milk : Product.t :=
  Product.mk "P1" "Milk" "DAIRY" None "u-alice" "u-alice" 1000.
Definition bread : Product.t :=
  Product.mk "P2" "Bread" "BAKERY" (Some "sliced") "u-alice" "u-bob" 1000.
Definition rice : Product.t :=
  Product.mk "P3" "Rice" "PANTRY" None "u-bob" "u-bob" 1000.
Definition cheese : Product.t :=
  Product.mk "P4" "Cheese" "DAIRY" None "u-bob" "u-alice" 1000.

Definition fresh_mart : Supermarket.t :=
  Supermarket.mk "S1" "Fresh Mart" None "New York" "u-alice" "u-alice".
Definition budget_foods : Supermarket.t :=
  Supermarket.mk "S2" "Budget Foods" None "New York" "u-alice" "u-alice".
Definition lakeside : Supermarket.t :=
  Supermarket.mk "S3" "Lakeside" None "Chicago" "u-alice" "u-alice".

Definition row (s : Supermarket.t) (p : Product.t) (n d : positive)
    (inStock : bool) (by_ : User.t) : Inventory.t :=
  Inventory.mk (Supermarket.supermarketId s) (Product.productId p)
    (JS.literal false n d) inStock 2000 by_ s p.

Definition db : Store :=
  mkStore
    [alice; bob; carol]
    [milk; bread; rice; cheese]
    [fresh_mart; budget_foods; lakeside]
    [ row budget_foods milk 320 100 false bob;     (* 3.20, out of stock *)
      row fresh_mart milk 350 100 true bob;        (* 3.50 *)
      row lakeside milk 290 100 true alice;        (* 2.90, Chicago *)
      row lakeside bread 199 100 true alice;       (* 1.99, Chicago *)
      row budget_foods rice 1004 1000 true bob;    (* 1.004 *)
      row budget_foods cheese 120 100 true bob;    (* 1.20 *)
      row fresh_mart cheese 1155 1000 true alice   (* 1.155 *) ].

(** The same store after other users touched the inventory rows. *)
Definition db_touched : Store :=
  mkStore (users db) (products db) (supermarkets db)
    (map (fun r =>
            Inventory.mk (Inventory.supermarketId r) (Inventory.productId r)
              (Inventory.price r) (Inventory.inStock r) 9999 carol
              (Inventory.supermarket r) (Inventory.product r))
         (inventory db)).

Definition item (productId : string) (quantity : Z) : Item.t :=
  Item.mk productId (JS.int quantity).

(** A database that returns the rows of a scan newest first. *)
Definition newest_first : RowOrder := fun A l => rev l.

End Sample.

(** * Properties *)

(** ** The column order *)

Lemma pos_compare_cont_spec (m n : positive) :
  CompareSpec (m = n) (m < n)%positive (n < m)%positive (Pos.compare_cont Eq m n).
Proof. exact (Pos.compare_spec m n). Qed.

Ltac order_cases :=
  repeat match goal with
    | |- context [Z.compare ?a ?b] =>
        destruct (Z.compare_spec a b); simpl; subst
    | |- context [Pos.compare_cont Eq ?a ?b] =>
        destruct (pos_compare_cont_spec a b); simpl; subst
    | H : context [Z.compare ?a ?b] |- _ =>
        destruct (Z.compare_spec a b); simpl in H; subst
    | H : context [Pos.compare_cont Eq ?a ?b] |- _ =>
        destruct (pos_compare_cont_spec a b); simpl in H; subst
    end.

Lemma price_le_total (a b : JS.Number) :
  price_le a b = true \/ price_le b a = true.
Proof.
  unfold price_le, SFcompare.
  destruct a as [sa|sa| |sa ma ea], b as [sb|sb| |sb mb eb];
    try destruct sa; try destruct sb; simpl; auto;
    order_cases; auto; lia.
Qed.

Lemma price_le_trans (a b c : JS.Number) :
  price_le a b = true -> price_le b c = true -> price_le a c = true.
Proof.
  unfold price_le, SFcompare.
  destruct a as [sa|sa| |sa ma ea], b as [sb|sb| |sb mb eb],
           c as [sc|sc| |sc mc ec];
    try destruct sa; try destruct sb; try destruct sc; simpl;
    try reflexivity; try discriminate;
    intros Hab Hbc;
    order_cases; try reflexivity; try discriminate; try lia.
Qed.

(** On binary64 numbers the column order is the order of the exact values. *)

Lemma digits2_pos_bounds (m : positive) :
  2 ^ (Zpos (digits2_pos m) - 1) <= Zpos m < 2 ^ Zpos (digits2_pos m).
Proof.
  induction m as [m IH|m IH|]; simpl digits2_pos.
  - rewrite Pos2Z.inj_succ.
    replace (Z.succ (Zpos (digits2_pos m)) - 1) with (Z.succ (Zpos (digits2_pos m) - 1)) by lia.
    rewrite !Z.pow_succ_r by lia. lia.
  - rewrite Pos2Z.inj_succ.
    replace (Z.succ (Zpos (digits2_pos m)) - 1) with (Z.succ (Zpos (digits2_pos m) - 1)) by lia.
    rewrite !Z.pow_succ_r by lia. lia.
  - simpl. lia.
Qed.

Lemma canonical_bounds (m : positive) (e : Z) :
  canonical_mantissa JS.prec JS.emax m e = true ->
  -1074 <= e /\ Zpos m < 2 ^ 53 /\ (-1074 < e -> 2 ^ 52 <= Zpos m).
Proof.
  unfold canonical_mantissa, fexp, emin, JS.prec, JS.emax. intros H.
  apply Z.eqb_eq in H.
  pose proof (digits2_pos_bounds m) as [Hlo Hhi].
  set (d := Zpos (digits2_pos m)) in *.
  assert (Hd : 0 < d) by (unfold d; lia).
  split; [lia|]. split.
  - assert (d <= 53) by lia.
    eapply Z.lt_le_trans; [exact Hhi|]. apply Z.pow_le_mono_r; lia.
  - intros He. assert (d = 53) by lia.
    replace 52 with (d - 1) by lia. exact Hlo.
Qed.

Lemma units_lt_exp (m1 m2 : positive) (e1 e2 : Z) :
  canonical_mantissa JS.prec JS.emax m1 e1 = true ->
  canonical_mantissa JS.prec JS.emax m2 e2 = true ->
  e1 < e2 ->
  Zpos m1 * 2 ^ (e1 + 1074) < Zpos m2 * 2 ^ (e2 + 1074).
Proof.
  intros H1 H2 Hlt.
  apply canonical_bounds in H1, H2.
  destruct H1 as (He1 & Hm1 & _), H2 as (He2 & _ & Hm2).
  assert (Hx : -1074 < e2) by lia. specialize (Hm2 Hx).
  replace (e2 + 1074) with ((e1 + 1074) + 1 + (e2 - e1 - 1)) by lia.
  rewrite (Z.pow_add_r 2 (e1 + 1074 + 1) (e2 - e1 - 1)) by lia.
  rewrite (Z.pow_add_r 2 (e1 + 1074) 1) by lia.
  assert (0 < 2 ^ (e1 + 1074)) by (apply Z.pow_pos_nonneg; lia).
  assert (1 <= 2 ^ (e2 - e1 - 1)) by (apply (Z.pow_le_mono_r 2 0); lia).
  change (2 ^ 1) with 2. change (2^53) with (2 * 2^52) in Hm1.
  set (A := 2 ^ (e1 + 1074)) in *. set (B := 2 ^ (e2 - e1 - 1)) in *.
  set (C := 2 ^ 52) in *.
  assert (Z.pos m1 * A < 2 * C * A) by nia.
  assert (2 * C * A <= 2 * Z.pos m2 * A) by nia.
  assert (0 <= Z.pos m2 * A * (B - 1)) by (apply Z.mul_nonneg_nonneg; nia).
  nia.
Qed.

Lemma price_le_units (a b : JS.Number) :
  JS.valid a = true -> JS.valid b = true ->
  JS.isFinite a = true -> JS.isFinite b = true ->
  price_le a b = (JS.units a <=? JS.units b)%Z.
Proof.
  unfold JS.valid, valid_binary, bounded, price_le, SFcompare.
  destruct a as [sa|sa| |sa ma ea], b as [sb|sb| |sb mb eb];
    cbn -[Z.mul Z.pow Z.leb Z.add Z.opp Z.compare Pos.compare_cont];
    try discriminate; intros Ha Hb _ _.
  - reflexivity.
  - apply andb_true_iff in Hb. destruct Hb as [Hb _].
    apply canonical_bounds in Hb. destruct Hb as (Hb & _).
    assert (0 < 2 ^ (eb + 1074)) by (apply Z.pow_pos_nonneg; lia).
    destruct sb; symmetry; [apply Z.leb_gt|apply Z.leb_le]; nia.
  - apply andb_true_iff in Ha. destruct Ha as [Ha _].
    apply canonical_bounds in Ha. destruct Ha as (Ha & _).
    assert (0 < 2 ^ (ea + 1074)) by (apply Z.pow_pos_nonneg; lia).
    destruct sa; symmetry; [apply Z.leb_le|apply Z.leb_gt]; nia.
  - apply andb_true_iff in Ha, Hb. destruct Ha as [Ha _], Hb as [Hb _].
    pose proof (canonical_bounds _ _ Ha) as (Hea & _).
    pose proof (canonical_bounds _ _ Hb) as (Heb & _).
    assert (0 < 2 ^ (ea + 1074)) by (apply Z.pow_pos_nonneg; lia).
    assert (0 < 2 ^ (eb + 1074)) by (apply Z.pow_pos_nonneg; lia).
    pose proof (units_lt_exp ma mb ea eb Ha Hb) as Hab.
    pose proof (units_lt_exp mb ma eb ea Hb Ha) as Hba.
    pose proof (Pos.compare_spec ma mb) as Hm.
    change (Pos.compare ma mb) with (Pos.compare_cont Eq ma mb) in Hm.
    destruct sa, sb;
      destruct (Z.compare_spec ea eb) as [Heq|Hlt|Hgt];
      try subst eb; try destruct Hm as [Hm|Hm|Hm]; try subst mb;
      cbn -[Z.mul Z.pow Z.leb Z.add Z.opp];
      symmetry; first [apply Z.leb_le; nia | apply Z.leb_gt; nia].
Qed.

Lemma magnitude_units (m : positive) (e : Z) :
  -1074 <= e ->
  (JS.magnitude m e == (Zpos m * 2 ^ (e + 1074)) # (2 ^ 1074)%positive)%Q.
Proof.
  intros He. unfold JS.magnitude, Qeq.
  destruct e as [|p|p]; cbn -[Z.mul Z.pow Z.add Pos.pow].
  - rewrite !Pos2Z.inj_pow. lia.
  - rewrite !Pos2Z.inj_pow, Z.pow_add_r by lia. lia.
  - rewrite !Pos2Z.inj_pow.
    replace (2 ^ 1074) with (2 ^ (Z.neg p + 1074) * 2 ^ Z.pos p).
    + lia.
    + rewrite <- Z.pow_add_r by lia. f_equal. lia.
Qed.

Lemma value_units (x : JS.Number) :
  JS.valid x = true ->
  (JS.value x == JS.units x # (2 ^ 1074)%positive)%Q.
Proof.
  destruct x as [s|s| |s m e]; try reflexivity.
  unfold JS.valid, valid_binary, bounded. intros H.
  apply andb_true_iff in H. destruct H as [H _].
  apply canonical_bounds in H. destruct H as (He & _).
  unfold JS.value, JS.units. destruct s.
  - rewrite (magnitude_units m e He). reflexivity.
  - apply magnitude_units, He.
Qed.

Lemma price_le_numeric (a b : JS.Number) :
  JS.valid a = true -> JS.valid b = true ->
  JS.isFinite a = true -> JS.isFinite b = true ->
  price_le a b = true <-> (JS.value a <= JS.value b)%Q.
Proof.
  intros Ha Hb Fa Fb.
  rewrite (price_le_units a b Ha Hb Fa Fb), Z.leb_le.
  rewrite (value_units a Ha), (value_units b Hb).
  unfold Qle. simpl Qnum. simpl Qden.
  split; intros H; nia.
Qed.

Lemma price_le_refl (a : JS.Number) : price_le a a = true.
Proof. destruct (price_le_total a a); assumption. Qed.

(** ** Ordered queries *)

Section OrderByFacts.
Context {A : Type} (key : A -> JS.Number).

Lemma insert_asc_In (x y : A) (l : list A) :
  In y (insert_asc key x l) <-> y = x \/ In y l.
Proof.
  induction l as [|z l IH]; simpl.
  - intuition congruence.
  - destruct (price_le (key x) (key z)); simpl; [intuition congruence|].
    rewrite IH. intuition congruence.
Qed.

Lemma orderBy_asc_In (y : A) (l : list A) :
  In y (orderBy_asc key l) <-> In y l.
Proof.
  induction l as [|x l IH]; simpl; [tauto|].
  rewrite insert_asc_In, IH. intuition congruence.
Qed.

(** The first row of an ascending order is below every row. *)
Lemma orderBy_asc_first (l : list A) (r : A) :
  hd_error (orderBy_asc key l) = Some r ->
  In r l /\ forall r', In r' l -> price_le (key r) (key r') = true.
Proof.
  revert r. induction l as [|x l IH]; simpl; intros r Hhd; [discriminate|].
  destruct (orderBy_asc key l) as [|y ys] eqn:Hsorted; simpl in Hhd.
  - injection Hhd as <-. split; [now left|].
    intros r' [<-|Hin]; [apply price_le_refl|].
    apply orderBy_asc_In in Hin. rewrite Hsorted in Hin. destruct Hin.
  - destruct (IH y eq_refl) as [Hy Hmin].
    destruct (price_le (key x) (key y)) eqn:Hxy; simpl in Hhd;
      injection Hhd as <-.
    + split; [now left|].
      intros r' [<-|Hin]; [apply price_le_refl|].
      eapply price_le_trans; [exact Hxy|]. now apply Hmin.
    + split; [now right|].
      intros r' [<-|Hin]; [|now apply Hmin].
      destruct (price_le_total (key y) (key x)) as [H|H];
        [exact H|congruence].
Qed.

Lemma orderBy_asc_none (l : list A) :
  hd_error (orderBy_asc key l) = None -> l = [].
Proof.
  destruct l as [|x l]; [reflexivity|]. simpl.
  destruct (orderBy_asc key l) as [|y ys]; simpl; [discriminate|].
  destruct (price_le (key x) (key y)); discriminate.
Qed.
End OrderByFacts.

Lemma offer_where_spec (productId city : string) (r : Inventory.t) :
  offer_where productId city r = true <->
  Inventory.productId r = productId
  /\ Inventory.inStock r = true
  /\ Supermarket.city (Inventory.supermarket r) = city.
Proof.
  unfold offer_where. rewrite !andb_true_iff, !String.eqb_eq. tauto.
Qed.

Lemma findFirst_some (db : Store) (productId city : string) (r : Inventory.t) :
  inventory_findFirst db productId city = Some r ->
  is_offer db productId city r
  /\ forall r', is_offer db productId city r' ->
                price_le (Inventory.price r) (Inventory.price r') = true.
Proof.
  unfold inventory_findFirst, is_offer. intros H.
  apply orderBy_asc_first in H. destruct H as [Hin Hmin].
  apply filter_In in Hin. destruct Hin as [Hin Hw].
  apply offer_where_spec in Hw. split; [tauto|].
  intros r' [Hin' Hw']. apply Hmin, filter_In. split; [exact Hin'|].
  now apply offer_where_spec.
Qed.

Lemma findFirst_none (db : Store) (productId city : string) :
  inventory_findFirst db productId city = None <->
  forall r, ~ is_offer db productId city r.
Proof.
  unfold inventory_findFirst, is_offer. split.
  - intros H r [Hin Hw]. apply orderBy_asc_none in H.
    assert (Hf : In r (filter (offer_where productId city) (inventory db))).
    { apply filter_In. split; [exact Hin|]. now apply offer_where_spec. }
    rewrite H in Hf. destruct Hf.
  - intros H.
    destruct (hd_error _) as [r|] eqn:Hhd; [|reflexivity].
    apply orderBy_asc_first in Hhd. destruct Hhd as [Hin _].
    apply filter_In in Hin. destruct Hin as [Hin Hw].
    apply offer_where_spec in Hw. exfalso. apply (H r). tauto.
Qed.

(** ** The resolver loop *)

Lemma resolve_items_app (db : Store) (city : string) (items : list Item.t)
    (acc : list Line.t) :
  fold_left (fun lines item => (lines ++ [resolve_item db city item])%list)
            items acc
  = (acc ++ map (resolve_item db city) items)%list.
Proof.
  revert acc. induction items as [|item items IH]; intros acc; simpl.
  - now rewrite app_nil_r.
  - rewrite IH, <- app_assoc. reflexivity.
Qed.

Lemma resolve_items_map (db : Store) (city : string) (items : list Item.t) :
  resolve_items db city items = map (resolve_item db city) items.
Proof. unfold resolve_items. now rewrite resolve_items_app. Qed.

Lemma resolve_item_no_offer (db : Store) (city : string) (item : Item.t) :
  (forall r, ~ is_offer db (Item.productId item) city r) ->
  resolve_item db city item
  = Line.mk ("Product with ID " ++ Item.productId item ++ " not found in " ++ city)
            "N/A" (Item.quantity item) JS.zero JS.zero.
Proof.
  intros H. apply findFirst_none in H. unfold resolve_item. now rewrite H.
Qed.

(** ** Rounding to two decimals *)

(** The integer [toFixed(2)] picks is the magnitude in hundredths rounded
    half up. *)
Lemma nearest_cents_half_up (x : Q) :
  (inject_Z (JS.nearest_cents x) - (1 # 2) <= 100 * x
   /\ 100 * x < inject_Z (JS.nearest_cents x) + (1 # 2))%Q.
Proof.
  unfold JS.nearest_cents.
  pose proof (Qfloor_le (100 * x + (1 # 2))) as Hle.
  pose proof (Qlt_floor (100 * x + (1 # 2))) as Hlt.
  rewrite inject_Z_plus in Hlt. change (inject_Z 1) with 1%Q in Hlt.
  split; lra.
Qed.

(** It is the integer the ECMAScript text asks for: none is closer to the
    magnitude in hundredths, and of two equally close ones it is the larger. *)
Lemma nearest_cents_closest (x : Q) (k : Z) :
  (Qabs (inject_Z (JS.nearest_cents x) - 100 * x)
   <= Qabs (inject_Z k - 100 * x))%Q
  /\ ((Qabs (inject_Z (JS.nearest_cents x) - 100 * x)
       == Qabs (inject_Z k - 100 * x))%Q
      -> k <= JS.nearest_cents x).
Proof.
  destruct (nearest_cents_half_up x) as [Hlo Hhi].
  set (n := JS.nearest_cents x) in *.
  assert (Hk : k + 1 <= n \/ k = n \/ n + 1 <= k) by lia.
  destruct Hk as [Hk | [Hk | Hk]].
  - assert (Hq : (inject_Z k + 1 <= inject_Z n)%Q).
    { rewrite Zle_Qle in Hk. rewrite inject_Z_plus in Hk. exact Hk. }
    split.
    + apply Qabs_case; intros; apply Qabs_case; intros; lra.
    + intros _. lia.
  - subst k. split; [apply Qle_refl|lia].
  - assert (Hq : (inject_Z n + 1 <= inject_Z k)%Q).
    { rewrite Zle_Qle in Hk. rewrite inject_Z_plus in Hk. exact Hk. }
    split.
    + apply Qabs_case; intros; apply Qabs_case; intros; lra.
    + intros Heq. exfalso. revert Heq.
      apply Qabs_case; intros; revert Heq; apply Qabs_case; intros; lra.
Qed.

Example sample_prices :
  forallb (fun r => JS.valid (Inventory.price r) && JS.isFinite (Inventory.price r))
    (inventory Sample.db) = true
  /\ JS.literal false 350 100 = S754_finite false 7881299347898368 (-51)
  /\ JS.literal false 1155 1000 = S754_finite false 5201657569612923 (-52)
  /\ JS.round2 (JS.mul (JS.literal false 350 100) (JS.int 2)) = JS.int 7
  /\ JS.round2 (JS.literal false 125 1000) = JS.literal false 13 100
  /\ JS.round2 (JS.literal false 1005 1000) = JS.int 1.
Proof. vm_compute. repeat split. Qed.

Lemma sum_subtotals_map (lines : list Line.t) :
  sum_subtotals lines = JS.sum (map Line.subtotal lines).
Proof.
  unfold sum_subtotals, JS.sum. generalize JS.zero.
  induction lines as [|line lines IH]; intros acc; simpl; [reflexivity|].
  apply IH.
Qed.

Lemma resolve_item_subtotal (db : Store) (city : string) (item : Item.t) :
  Line.subtotal (resolve_item db city item)
  = match inventory_findFirst db (Item.productId item) city with
    | Some r => JS.round2 (JS.mul (Inventory.price r) (Item.quantity item))
    | None => JS.zero
    end.
Proof.
  unfold resolve_item.
  destruct (inventory_findFirst db (Item.productId item) city); reflexivity.
Qed.


Lemma resolved_lines_by_position
    (db : Store) (user : User.t) (now : Z) (city : string)
    (items : list Item.t) :
  exists l,
    post_shoppingList db user now city items = respond 201 (ShoppingListBody l)
    /\ forall i item,
         nth_error items i = Some item ->
         nth_error (ShoppingList.shoppingItems l) i
         = Some (resolve_item db city item).
Proof.
  unfold post_shoppingList. eexists. split; [reflexivity|]. simpl.
  rewrite resolve_items_map. intros i item Hi. now apply map_nth_error.
Qed.

(** ** The shopping-list resolver *)

(** C1.  Whatever the city and the items, the resolver answers 201 with as
    many lines as there are items, and the line at each position is the one
    resolved from the item at that position alone: the lines come in the
    order of the items, and an item without an in-stock offer in the city
    (whose line is then the placeholder of [resolve_item]) leaves the lines
    of the other items as they are. *)
Theorem shopping_list_lines_follow_items
    (db : Store) (user : User.t) (now : Z) (city : string)
    (items : list Item.t) :
  exists l,
    post_shoppingList db user now city items = respond 201 (ShoppingListBody l)
    /\ List.length (ShoppingList.shoppingItems l) = List.length items
    /\ forall i item,
         nth_error items i = Some item ->
         nth_error (ShoppingList.shoppingItems l) i
         = Some (resolve_item db city item).
Proof.
  unfold post_shoppingList. eexists. split; [reflexivity|]. simpl.
  rewrite resolve_items_map. split; [apply length_map|].
  intros i item Hi. now apply map_nth_error.
Qed.

(** C3, as the code has it.  The total is [parseFloat] of [toFixed(2)] of
    the JavaScript sum of the lines' subtotals, added one after the other
    to 0 in the order of the lines; a line with an offer carries
    [parseFloat] of [toFixed(2)] of the JavaScript product
    [price * quantity] and a line without one carries 0.  The sum is a
    binary64 number; when it is finite and below 10^21 in magnitude, the
    total is the number written [n / 100] with the sign of the sum, where
    [n] is the magnitude of that binary64 sum in hundredths rounded half up.
    The subtotals are rounded before they are added: on two lines of four
    units at 1.004 the total is 8.04, where rounding the sum of the
    unrounded products gives 8.03. *)
Theorem total_rounds_the_binary64_sum_of_rounded_subtotals :
  (forall db user now city items,
      exists l,
        post_shoppingList db user now city items
        = respond 201 (ShoppingListBody l)
        /\ List.length (ShoppingList.shoppingItems l) = List.length items
        /\ (forall i item,
              nth_error items i = Some item ->
              exists line,
                nth_error (ShoppingList.shoppingItems l) i = Some line
                /\ (forall r,
                      inventory_findFirst db (Item.productId item) city = Some r ->
                      Line.subtotal line
                      = JS.round2 (JS.mul (Inventory.price r) (Item.quantity item)))
                /\ ((forall r, ~ is_offer db (Item.productId item) city r) ->
                    Line.subtotal line = JS.zero))
        /\ ShoppingList.total l
           = JS.round2 (JS.sum (map Line.subtotal (ShoppingList.shoppingItems l)))
        /\ (forall s m e,
              JS.sum (map Line.subtotal (ShoppingList.shoppingItems l))
              = S754_finite s m e ->
              (JS.magnitude m e < JS.ten_pow_21)%Q ->
              exists n,
                ShoppingList.total l = JS.parseFloat (JS.FixedDigits s n)
                /\ (inject_Z n - (1 # 2) <= 100 * JS.magnitude m e)%Q
                /\ (100 * JS.magnitude m e < inject_Z n + (1 # 2))%Q))
  /\ (exists l,
        post_shoppingList Sample.db Sample.carol 0 "New York"
          [Sample.item "P3" 4; Sample.item "P3" 4]
        = respond 201 (ShoppingListBody l)
        /\ map Line.subtotal (ShoppingList.shoppingItems l)
           = [JS.cents 402; JS.cents 402]
        /\ ShoppingList.total l = JS.cents 804
        /\ JS.round2 (JS.sum [JS.mul (JS.literal false 1004 1000) (JS.int 4);
                              JS.mul (JS.literal false 1004 1000) (JS.int 4)])
           = JS.cents 803
        /\ ShoppingList.total l
           <> JS.round2 (JS.sum [JS.mul (JS.literal false 1004 1000) (JS.int 4);
                                 JS.mul (JS.literal false 1004 1000) (JS.int 4)])).
Proof.
  split.
  - intros db user now city items. unfold post_shoppingList.
    eexists. split; [reflexivity|].
    cbn [ShoppingList.shoppingItems ShoppingList.total].
    rewrite resolve_items_map. split; [apply length_map|].
    split; [|split].
    + intros i item Hi. exists (resolve_item db city item).
      split; [now apply map_nth_error|].
      rewrite resolve_item_subtotal. split.
      * intros r Hfound. now rewrite Hfound.
      * intros Hnone. apply findFirst_none in Hnone. now rewrite Hnone.
    + unfold list_total. now rewrite sum_subtotals_map.
    + intros s m e Hsum Hsmall. unfold list_total.
      rewrite sum_subtotals_map, Hsum. simpl.
      destruct (Qle_bool JS.ten_pow_21 (JS.magnitude m e)) eqn:Hbig.
      * apply Qle_bool_iff in Hbig. exfalso. lra.
      * exists (JS.nearest_cents (JS.magnitude m e)).
        split; [reflexivity|]. apply nearest_cents_half_up.
  - eexists. split; [reflexivity|]. vm_compute.
    repeat split. discriminate.
Qed.

Lemma total_rounds_the_binary64_sum_of_rounded_subtotals_witness :
  exists l,
    post_shoppingList Sample.db Sample.carol 0 "New York"
      [Sample.item "P4" 3; Sample.item "P3" 4]
    = respond 201 (ShoppingListBody l)
    /\ map Line.subtotal (ShoppingList.shoppingItems l)
       = [JS.cents 346; JS.cents 402]
    /\ JS.sum (map Line.subtotal (ShoppingList.shoppingItems l))
       = S754_finite false 8421731303182827 (-50)
    /\ ShoppingList.total l = JS.cents 748
    /\ exists n,
         ShoppingList.total l = JS.parseFloat (JS.FixedDigits false n)
         /\ (inject_Z n - (1 # 2) <= 100 * JS.magnitude 8421731303182827 (-50))%Q
         /\ (100 * JS.magnitude 8421731303182827 (-50) < inject_Z n + (1 # 2))%Q.
Proof.
  destruct (proj1 total_rounds_the_binary64_sum_of_rounded_subtotals
              Sample.db Sample.carol 0 "New York"
              [Sample.item "P4" 3; Sample.item "P3" 4])
    as (l & Hresp & _ & _ & Htotal & Hcents).
  exists l. split; [exact Hresp|].
  unfold post_shoppingList, respond in Hresp. injection Hresp as Hl.
  rewrite <- Hl in Htotal, Hcents |- *.
  split; [vm_compute; reflexivity|]. split; [vm_compute; reflexivity|].
  split; [vm_compute; reflexivity|].
  apply (Hcents false 8421731303182827%positive (-50)); reflexivity.
Defined.

(** C3, as stated, fails.  Three units of the cheapest cheese at 1.155: the
    exact product 3.465 rounds half up to 3.47, and so does the exact
    product of the stored binary64 price by 3, so the total of the
    specification is 3.47; the JavaScript product lies below 3.465, the
    subtotal is 3.46 and so is the total. *)
Lemma total_is_not_the_half_up_sum_of_half_up_subtotals :
  post_shoppingList Sample.db Sample.carol 0 "New York" [Sample.item "P4" 3]
  = respond 201
      (ShoppingListBody
         (ShoppingList.mk "carol@example.com" 0 "New York"
            [ Line.mk "Cheese" "Fresh Mart" (JS.int 3)
                (JS.literal false 1155 1000) (JS.cents 346) ]
            (JS.cents 346)))
  /\ (half_up ((1155 # 1000) * 3) == 347 # 100)%Q
  /\ (half_up_contribution Sample.db "New York" (Sample.item "P4" 3)
      == 347 # 100)%Q
  /\ half_up_total Sample.db "New York" [Sample.item "P4" 3] = JS.cents 347
  /\ total_of (post_shoppingList Sample.db Sample.carol 0 "New York"
                 [Sample.item "P4" 3])
     <> half_up_total Sample.db "New York" [Sample.item "P4" 3].
Proof.
  vm_compute. repeat split; discriminate.
Qed.

(** C5.  An item whose product has no in-stock offer in the city resolves,
    at its position in a 201 response, to the line with the placeholder name
    "Product with ID <productId> not found in <city>", supermarket "N/A",
    the requested quantity, and 0 for both [lowestPrice] and [subtotal]. *)
Theorem line_without_offer_is_placeholder
    (db : Store) (user : User.t) (now : Z) (city : string)
    (items : list Item.t) (i : nat) (item : Item.t) :
  nth_error items i = Some item ->
  (forall r, ~ is_offer db (Item.productId item) city r) ->
  exists l,
    post_shoppingList db user now city items = respond 201 (ShoppingListBody l)
    /\ nth_error (ShoppingList.shoppingItems l) i
       = Some (Line.mk
                 ("Product with ID " ++ Item.productId item
                    ++ " not found in " ++ city)
                 "N/A" (Item.quantity item) JS.zero JS.zero).
Proof.
  intros Hi Hnone.
  destruct (resolved_lines_by_position db user now city items)
    as [l [Hresp Hlines]].
  exists l. split; [exact Hresp|].
  rewrite (Hlines i item Hi). now rewrite resolve_item_no_offer.
Qed.

Lemma line_without_offer_is_placeholder_witness :
  exists l,
    post_shoppingList Sample.db Sample.carol 0 "New York"
      [Sample.item "P1" 2; Sample.item "P2" 5]
    = respond 201 (ShoppingListBody l)
    /\ nth_error (ShoppingList.shoppingItems l) 1
       = Some (Line.mk "Product with ID P2 not found in New York"
                 "N/A" (JS.int 5) JS.zero JS.zero).
Proof.
  apply (line_without_offer_is_placeholder Sample.db Sample.carol 0 "New York"
           [Sample.item "P1" 2; Sample.item "P2" 5] 1 (Sample.item "P2" 5)).
  - reflexivity.
  - apply findFirst_none. reflexivity.
Defined.

(** C4, as the code has it.  When the product has an offer, the subtotal is
    [parseFloat] of [toFixed(2)] of the JavaScript product
    [price * quantity].  That product is the binary64 number nearest to the
    exact one; when it is finite and below 10^21 in magnitude, the subtotal
    is the number written [n / 100] with the sign of the product, where [n]
    is the magnitude of the binary64 product in hundredths rounded half up
    ([n - 1/2 <= 100 |x| < n + 1/2]). *)
Theorem subtotal_rounds_the_binary64_product
    (db : Store) (city : string) (item : Item.t) (r : Inventory.t) :
  inventory_findFirst db (Item.productId item) city = Some r ->
  Line.lowestPrice (resolve_item db city item) = Inventory.price r
  /\ Line.subtotal (resolve_item db city item)
     = JS.round2 (JS.mul (Inventory.price r) (Item.quantity item))
  /\ forall s m e,
       JS.mul (Inventory.price r) (Item.quantity item) = S754_finite s m e ->
       (JS.magnitude m e < JS.ten_pow_21)%Q ->
       exists n,
         Line.subtotal (resolve_item db city item)
         = JS.parseFloat (JS.FixedDigits s n)
         /\ (inject_Z n - (1 # 2) <= 100 * JS.magnitude m e)%Q
         /\ (100 * JS.magnitude m e < inject_Z n + (1 # 2))%Q.
Proof.
  intros Hfound. unfold resolve_item. rewrite Hfound. simpl.
  split; [reflexivity|]. split; [reflexivity|].
  intros s m e Hx Hsmall. rewrite Hx. simpl.
  destruct (Qle_bool JS.ten_pow_21 (JS.magnitude m e)) eqn:Hbig.
  - apply Qle_bool_iff in Hbig. exfalso. lra.
  - exists (JS.nearest_cents (JS.magnitude m e)).
    split; [reflexivity|]. apply nearest_cents_half_up.
Qed.

Lemma subtotal_rounds_the_binary64_product_witness :
  Line.lowestPrice (resolve_item Sample.db "New York" (Sample.item "P4" 3))
  = JS.literal false 1155 1000
  /\ Line.subtotal (resolve_item Sample.db "New York" (Sample.item "P4" 3))
     = JS.cents 346
  /\ exists n,
       Line.subtotal (resolve_item Sample.db "New York" (Sample.item "P4" 3))
       = JS.parseFloat (JS.FixedDigits false n)
       /\ (inject_Z n - (1 # 2) <= 100 * JS.magnitude 7802486354419384 (-51))%Q
       /\ (100 * JS.magnitude 7802486354419384 (-51) < inject_Z n + (1 # 2))%Q.
Proof.
  destruct (subtotal_rounds_the_binary64_product Sample.db "New York"
              (Sample.item "P4" 3)
              (Sample.row Sample.fresh_mart Sample.cheese 1155 1000 true
                 Sample.alice) eq_refl) as [Hprice [Hsub Hcents]].
  split; [exact Hprice|]. split; [rewrite Hsub; reflexivity|].
  apply (Hcents false 7802486354419384%positive (-51)); reflexivity.
Defined.

(** C4, as stated, fails.  Three units at 1.155: the exact product 3.465
    rounds half up to 3.47, and so does the exact product of the stored
    binary64 price by 3; the JavaScript product is a binary64 number just
    below 3.465, and the subtotal is 3.46. *)
Lemma subtotal_is_not_half_up_of_the_exact_product :
  Line.lowestPrice (resolve_item Sample.db "New York" (Sample.item "P4" 3))
  = JS.literal false 1155 1000
  /\ JS.nearest_cents ((1155 # 1000) * 3) = 347
  /\ half_up_subtotal (JS.literal false 1155 1000) (JS.int 3) = JS.cents 347
  /\ Line.subtotal (resolve_item Sample.db "New York" (Sample.item "P4" 3))
     = JS.cents 346
  /\ Line.subtotal (resolve_item Sample.db "New York" (Sample.item "P4" 3))
     <> half_up_subtotal
          (Line.lowestPrice (resolve_item Sample.db "New York" (Sample.item "P4" 3)))
          (Line.quantity (resolve_item Sample.db "New York" (Sample.item "P4" 3))).
Proof.
  vm_compute. repeat split. discriminate.
Qed.

(** A negative factor does not give a positive subtotal. *)






(** ** The cheapest listing *)

(** C2.  For a caller with one of the three roles, the route answers either
    200 with the selection of an inventory row that is in stock, belongs to
    the product, sits in a supermarket of the city, and whose price is not
    above the price of any other such row (in the order of the column, which
    for finite binary64 prices is the order of their exact values); or, when
    there is no such row, 404 "No listing found for the given product and
    city.". *)
Theorem cheapest_is_the_minimum_offer_or_404
    (db : Store) (user : User.t) (productId city : string) :
  includes allowedRoles (User.role user) = true ->
  (exists r,
      is_offer db productId city r
      /\ (forall r', is_offer db productId city r' ->
                     price_le (Inventory.price r) (Inventory.price r') = true)
      /\ (forall r', is_offer db productId city r' ->
                     JS.valid (Inventory.price r) = true ->
                     JS.isFinite (Inventory.price r) = true ->
                     JS.valid (Inventory.price r') = true ->
                     JS.isFinite (Inventory.price r') = true ->
                     (JS.value (Inventory.price r)
                      <= JS.value (Inventory.price r'))%Q)
      /\ get_cheapest db user productId city
         = json (ListingBody (cheapest_select (User.role user) r))
      /\ Listing.price (cheapest_select (User.role user) r) = Inventory.price r
      /\ Listing.inStock (cheapest_select (User.role user) r) = true)
  \/ ((forall r, ~ is_offer db productId city r)
      /\ get_cheapest db user productId city
         = respond 404
             (Message "No listing found for the given product and city.")).
Proof.
  intros Hrole. unfold get_cheapest. rewrite Hrole. simpl.
  destruct (inventory_findFirst db productId city) as [r|] eqn:Hfound.
  - left. exists r. destruct (findFirst_some _ _ _ _ Hfound) as [Hoffer Hmin].
    split; [exact Hoffer|]. split; [exact Hmin|].
    split.
    { intros r' Hr' Hv Hf Hv' Hf'.
      apply (price_le_numeric _ _ Hv Hv' Hf Hf'). now apply Hmin. }
    split; [reflexivity|].
    split; [reflexivity|]. simpl. apply Hoffer.
  - right. split; [|reflexivity]. now apply findFirst_none.
Qed.

Lemma cheapest_is_the_minimum_offer_or_404_witness :
  (exists r,
      is_offer Sample.db "P4" "New York" r
      /\ (forall r', is_offer Sample.db "P4" "New York" r' ->
                     price_le (Inventory.price r) (Inventory.price r') = true)
      /\ (forall r', is_offer Sample.db "P4" "New York" r' ->
                     JS.valid (Inventory.price r) = true ->
                     JS.isFinite (Inventory.price r) = true ->
                     JS.valid (Inventory.price r') = true ->
                     JS.isFinite (Inventory.price r') = true ->
                     (JS.value (Inventory.price r)
                      <= JS.value (Inventory.price r'))%Q)
      /\ get_cheapest Sample.db Sample.carol "P4" "New York"
         = json (ListingBody (cheapest_select "BASIC" r))
      /\ Listing.price (cheapest_select "BASIC" r) = Inventory.price r
      /\ Listing.inStock (cheapest_select "BASIC" r) = true)
  \/ ((forall r, ~ is_offer Sample.db "P4" "New York" r)
      /\ get_cheapest Sample.db Sample.carol "P4" "New York"
         = respond 404
             (Message "No listing found for the given product and city.")).
Proof.
  apply (cheapest_is_the_minimum_offer_or_404 Sample.db Sample.carol
           "P4" "New York").
  reflexivity.
Defined.

Example cheapest_samples :
  get_cheapest Sample.db Sample.carol "P4" "New York"
  = json (ListingBody
            (Listing.mk (JS.literal false 1155 1000) true None None
               "Fresh Mart" "Cheese"))
  /\ get_cheapest Sample.db Sample.alice "P1" "New York"
     = json (ListingBody
               (Listing.mk (JS.literal false 350 100) true (Some 2000)
                  (Some ("bob@example.com", "u-bob")) "Fresh Mart" "Milk"))
  /\ get_cheapest Sample.db Sample.bob "P2" "New York"
     = respond 404 (Message "No listing found for the given product and city.")
  /\ get_cheapest Sample.db (User.mk "u-x" "x@example.com" "GUEST") "P1" "New York"
     = respond 403 (Message "Insufficient permissions.").
Proof. vm_compute. repeat split. Qed.

Section AuditVariant.
Variables (productId city : string).

Lemma same_but_audit_where (r r' : Inventory.t) :
  same_but_audit r r' ->
  offer_where productId city r = offer_where productId city r'.
Proof.
  intros (_ & Hp & _ & Hs & Hm & _). unfold offer_where.
  now rewrite Hp, Hs, Hm.
Qed.

Lemma same_but_audit_filter (l l' : list Inventory.t) :
  Forall2 same_but_audit l l' ->
  Forall2 same_but_audit (filter (offer_where productId city) l)
                         (filter (offer_where productId city) l').
Proof.
  induction 1 as [|r r' l l' Hr Hl IH]; simpl; [constructor|].
  rewrite (same_but_audit_where r r' Hr).
  destruct (offer_where productId city r'); [constructor|]; assumption.
Qed.

Lemma same_but_audit_insert (r r' : Inventory.t) (l l' : list Inventory.t) :
  same_but_audit r r' ->
  Forall2 same_but_audit l l' ->
  Forall2 same_but_audit (insert_asc Inventory.price r l)
                         (insert_asc Inventory.price r' l').
Proof.
  intros Hr. induction 1 as [|x x' l l' Hx Hl IH]; simpl.
  - constructor; [exact Hr|constructor].
  - assert (Hk : price_le (Inventory.price r) (Inventory.price x)
                 = price_le (Inventory.price r') (Inventory.price x')).
    { destruct Hr as (_ & _ & -> & _), Hx as (_ & _ & -> & _). reflexivity. }
    rewrite Hk.
    destruct (price_le (Inventory.price r') (Inventory.price x')).
    + constructor; [exact Hr|]. constructor; assumption.
    + constructor; assumption.
Qed.

Lemma same_but_audit_orderBy (l l' : list Inventory.t) :
  Forall2 same_but_audit l l' ->
  Forall2 same_but_audit (orderBy_asc Inventory.price l)
                         (orderBy_asc Inventory.price l').
Proof.
  induction 1 as [|r r' l l' Hr Hl IH]; simpl; [constructor|].
  now apply same_but_audit_insert.
Qed.

Lemma same_but_audit_select (role : string) (r r' : Inventory.t) :
  role <> "ADMIN" -> same_but_audit r r' ->
  cheapest_select role r = cheapest_select role r'.
Proof.
  intros Hrole (_ & _ & Hp & Hs & Hm & Hq). unfold cheapest_select.
  apply String.eqb_neq in Hrole. rewrite Hrole, Hp, Hs, Hm, Hq. reflexivity.
Qed.
End AuditVariant.

(** C9.  A 200 answer of the cheapest-listing route carries [updatedAt] and
    [updatedBy] (the e-mail and the identifier of the last modifier of the
    row found) when the caller is an ADMIN, and neither of them otherwise.
    For a caller who is not an ADMIN the whole response is the same on two
    stores that differ only in the [updatedAt] and [updatedBy] of their
    inventory rows. *)
Theorem audit_fields_only_for_admin :
  (forall db user productId city l,
      get_cheapest db user productId city = json (ListingBody l) ->
      (User.role user = "ADMIN"
       /\ exists r,
            inventory_findFirst db productId city = Some r
            /\ Listing.updatedAt l = Some (Inventory.updatedAt r)
            /\ Listing.updatedBy l
               = Some (User.email (Inventory.updatedBy r),
                       User.userId (Inventory.updatedBy r)))
      \/ (User.role user <> "ADMIN"
          /\ Listing.updatedAt l = None
          /\ Listing.updatedBy l = None))
  /\ (forall db db' user productId city,
        User.role user <> "ADMIN" ->
        audit_variant db db' ->
        get_cheapest db user productId city
        = get_cheapest db' user productId city).
Proof.
  split.
  - intros db user productId city l. unfold get_cheapest.
    destruct (negb (includes allowedRoles (User.role user))); [discriminate|].
    destruct (inventory_findFirst db productId city) as [r|]; [|discriminate].
    intros H. injection H as <-. unfold cheapest_select. simpl.
    destruct (User.role user =? "ADMIN") eqn:Hadmin.
    + left. apply String.eqb_eq in Hadmin. split; [exact Hadmin|].
      exists r. repeat split.
    + right. apply String.eqb_neq in Hadmin. repeat split. exact Hadmin.
  - intros db db' user productId city Hrole (_ & _ & _ & Hinv).
    unfold get_cheapest, inventory_findFirst.
    destruct (negb (includes allowedRoles (User.role user))); [reflexivity|].
    pose proof (same_but_audit_orderBy _ _
                  (same_but_audit_filter productId city _ _ Hinv)) as Hsorted.
    inversion Hsorted as [|r r' l l' Hr Hl Heq Heq']; simpl; [reflexivity|].
    now rewrite (same_but_audit_select (User.role user) r r' Hrole Hr).
Qed.

Lemma audit_fields_only_for_admin_witness :
  (exists l,
      get_cheapest Sample.db Sample.bob "P1" "New York" = json (ListingBody l)
      /\ Listing.updatedAt l = None
      /\ Listing.updatedBy l = None)
  /\ (exists l,
        get_cheapest Sample.db Sample.alice "P1" "New York" = json (ListingBody l)
        /\ Listing.updatedAt l = Some 2000
        /\ Listing.updatedBy l = Some ("bob@example.com", "u-bob"))
  /\ get_cheapest Sample.db Sample.bob "P1" "New York"
     = get_cheapest Sample.db_touched Sample.bob "P1" "New York".
Proof.
  split; [|split].
  - eexists. split; [reflexivity|].
    destruct (proj1 audit_fields_only_for_admin Sample.db Sample.bob
                "P1" "New York" _ eq_refl) as [[Hadmin _]|[_ Hnone]].
    + discriminate Hadmin.
    + exact Hnone.
  - eexists. split; [reflexivity|].
    destruct (proj1 audit_fields_only_for_admin Sample.db Sample.alice
                "P1" "New York" _ eq_refl)
      as [[_ [r [Hr [Hat Hby]]]]|[Hother _]].
    + vm_compute in Hr. injection Hr as <-. split; [exact Hat|exact Hby].
    + exfalso. apply Hother. reflexivity.
  - apply (proj2 audit_fields_only_for_admin Sample.db Sample.db_touched
             Sample.bob "P1" "New York").
    + discriminate.
    + unfold audit_variant. repeat split.
      simpl. repeat constructor.
Defined.

(** ** The catalogue *)

Lemma find_In_some {A : Type} (f : A -> bool) (l : list A) (x : A) :
  In x l -> f x = true -> exists y, find f l = Some y.
Proof.
  intros Hin Hf. destruct (find f l) as [y|] eqn:Hfind; [now exists y|].
  pose proof (find_none f l Hfind x Hin). congruence.
Qed.

Lemma find_replace_first {A : Type} (f : A -> bool) (l : list A) (x new : A) :
  find f l = Some x -> f new = true ->
  find f (replace_first f new l) = Some new.
Proof.
  intros Hfind Hnew. induction l as [|y l IH]; simpl in *; [discriminate|].
  destruct (f y) eqn:Hy; simpl.
  - now rewrite Hnew.
  - rewrite Hy. now apply IH.
Qed.

Lemma find_user_id (db : Store) (userId : string) (u : User.t) :
  find_user db userId = Some u -> User.userId u = userId.
Proof.
  unfold find_user. intros H. apply find_some in H.
  now apply String.eqb_eq.
Qed.

(** C6.  When a VERIFIED or ADMIN caller posts a product whose name a stored
    product already carries, the answer is the refusal the handler keeps for
    that case (status 400, "The product you entered already exists in the
    database. ...") and the store afterwards is the store before: no row is
    added. *)
Theorem duplicate_product_name_is_refused
    (ProductCategory : list string) (db : Store) (user : User.t)
    (reqBody : ProductFields.t) (newId : string) (now : Z)
    (name : string) (existing : Product.t) :
  User.role user = "VERIFIED" \/ User.role user = "ADMIN" ->
  ProductFields.productName reqBody = Some name ->
  In existing (products db) ->
  Product.productName existing = name ->
  post_product ProductCategory db user reqBody newId now
  = (respond 400 (Message already_exists), db).
Proof.
  intros Hrole Hname Hin Hsame. unfold post_product.
  assert (Hrole_ok : negb (User.role user =? "VERIFIED")
                  && negb (User.role user =? "ADMIN") = false).
  { destruct Hrole as [-> | ->]; reflexivity. }
  rewrite Hrole_ok, Hname. simpl.
  destruct (find_In_some (fun p => Product.productName p =? name)
              (products db) existing Hin) as [y Hy].
  { now apply String.eqb_eq. }
  now rewrite Hy.
Qed.

Lemma duplicate_product_name_is_refused_witness :
  post_product Sample.categories Sample.db Sample.bob
    (ProductFields.mk (Some "Milk") (Some "DAIRY") None) "P9" 3000
  = (respond 400 (Message already_exists), Sample.db).
Proof.
  apply (duplicate_product_name_is_refused Sample.categories Sample.db
           Sample.bob (ProductFields.mk (Some "Milk") (Some "DAIRY") None)
           "P9" 3000 "Milk" Sample.milk).
  - left. reflexivity.
  - reflexivity.
  - simpl. tauto.
  - reflexivity.
Defined.

Example post_product_samples :
  post_product Sample.categories Sample.db Sample.bob
    (ProductFields.mk (Some "Butter") (Some "DAIRY") None) "P9" 3000
  = (respond 201
       (ProductBody (Product.mk "P9" "Butter" "DAIRY" None "u-bob" "u-bob" 3000)),
     set_products Sample.db
       (products Sample.db
          ++ [Product.mk "P9" "Butter" "DAIRY" None "u-bob" "u-bob" 3000])%list)
  /\ fst (post_product Sample.categories Sample.db Sample.carol
            (ProductFields.mk (Some "Butter") (Some "DAIRY") None) "P9" 3000)
     = respond 403 (Message "Insufficient permissions.")
  /\ fst (post_product Sample.categories Sample.db Sample.bob
            (ProductFields.mk (Some "Butter") (Some "FROZEN") None) "P9" 3000)
     = respond 500 (Error "An error occurred while creating the product.").
Proof. vm_compute. repeat split. Qed.

(** C7.  A PATCH of a supermarket by a caller whose role is BASIC is answered
    403 "Insufficient permissions." and leaves the store as it was; the
    supermarket the request names is found afterwards exactly as before,
    [updatedById] included. *)
Theorem basic_cannot_patch_supermarket
    (db : Store) (user : User.t) (id : string) (reqBody : SupermarketPatch.t) :
  User.role user = "BASIC" ->
  fst (patch_supermarket db user id reqBody)
  = respond 403 (Message "Insufficient permissions.")
  /\ snd (patch_supermarket db user id reqBody) = db
  /\ find_supermarket (snd (patch_supermarket db user id reqBody)) id
     = find_supermarket db id.
Proof.
  intros Hrole. unfold patch_supermarket. rewrite Hrole. simpl.
  repeat split.
Qed.

Lemma basic_cannot_patch_supermarket_witness :
  fst (patch_supermarket Sample.db Sample.carol "S1"
         (SupermarketPatch.mk (Some "Carol's") None (Some "Boston")))
  = respond 403 (Message "Insufficient permissions.")
  /\ snd (patch_supermarket Sample.db Sample.carol "S1"
            (SupermarketPatch.mk (Some "Carol's") None (Some "Boston")))
     = Sample.db
  /\ find_supermarket
       (snd (patch_supermarket Sample.db Sample.carol "S1"
               (SupermarketPatch.mk (Some "Carol's") None (Some "Boston"))))
       "S1"
     = find_supermarket Sample.db "S1".
Proof.
  apply (basic_cannot_patch_supermarket Sample.db Sample.carol "S1"
           (SupermarketPatch.mk (Some "Carol's") None (Some "Boston"))).
  reflexivity.
Defined.

(** An ADMIN moves Fresh Mart to Boston under a new name: the row is
    rewritten, and the inventory rows of the supermarket are offers in
    Boston from then on, no longer in New York. *)
Example patch_supermarket_by_admin :
  fst (patch_supermarket Sample.db Sample.alice "S1"
         (SupermarketPatch.mk (Some "Fresher Mart") None (Some "Boston")))
  = json (SupermarketBody
            (Supermarket.mk "S1" "Fresher Mart" None "Boston" "u-alice" "u-alice"))
  /\ supermarkets
       (snd (patch_supermarket Sample.db Sample.alice "S1"
               (SupermarketPatch.mk (Some "Fresher Mart") None (Some "Boston"))))
     = [Supermarket.mk "S1" "Fresher Mart" None "Boston" "u-alice" "u-alice";
        Sample.budget_foods; Sample.lakeside]
  /\ get_cheapest
       (snd (patch_supermarket Sample.db Sample.alice "S1"
               (SupermarketPatch.mk (Some "Fresher Mart") None (Some "Boston"))))
       Sample.carol "P1" "Boston"
     = json (ListingBody
               (Listing.mk (JS.literal false 350 100) true None None
                  "Fresher Mart" "Milk"))
  /\ get_cheapest
       (snd (patch_supermarket Sample.db Sample.alice "S1"
               (SupermarketPatch.mk (Some "Fresher Mart") None (Some "Boston"))))
       Sample.carol "P1" "New York"
     = respond 404 (Message "No listing found for the given product and city.").
Proof. vm_compute. repeat split. Qed.

Lemma product_update_accepted
    (ProductCategory : list string) (db : Store) (id : string)
    (data : ProductData.t) (now : Z) (p : Product.t) (u : User.t) :
  find_product db id = Some p ->
  find_user db (ProductData.updatedBy data) = Some u ->
  name_taken db id (ProductData.productName data) = false ->
  valid_category ProductCategory (ProductData.productCategory data) = true ->
  exists p' db',
    product_update ProductCategory db id data now = Ok (p', u, db')
    /\ find_product db' id = Some p'
    /\ Product.productName p'
       = or_else (ProductData.productName data) (Product.productName p)
    /\ Product.productCategory p'
       = or_else (ProductData.productCategory data) (Product.productCategory p)
    /\ Product.productComments p'
       = match ProductData.productComments data with
         | Some c => Some c
         | None => Product.productComments p
         end
    /\ Product.updatedById p' = ProductData.updatedBy data.
Proof.
  intros Hp Hu Hname Hcat. unfold product_update.
  rewrite Hp, Hu, Hname, Hcat. simpl.
  eexists. eexists. split; [reflexivity|]. simpl.
  split; [|repeat split; now apply find_user_id in Hu].
  unfold find_product in *. simpl.
  apply (find_replace_first _ _ p); [exact Hp|]. simpl.
  apply find_some in Hp. apply Hp.
Qed.

Lemma find_replace_first_other {A : Type} (R : A -> A -> Prop)
    (f g : A -> bool) (l : list A) (x new : A) :
  (forall y, R y y) ->
  find f l = Some x -> g new = g x -> R x new ->
  forall q, find g l = Some q ->
            exists q', find g (replace_first f new l) = Some q' /\ R q q'.
Proof.
  intros Hrefl Hfind Hg Hnew. induction l as [|y l IH]; simpl in *;
    intros q Hq; [discriminate|].
  destruct (f y) eqn:Hy.
  - injection Hfind as ->. simpl. rewrite Hg.
    destruct (g x).
    + injection Hq as <-. now exists new.
    + exists q. split; [exact Hq|apply Hrefl].
  - simpl. destruct (g y).
    + injection Hq as <-. exists y. split; [reflexivity|apply Hrefl].
    + now apply IH.
Qed.

(** C8.  Whatever a VERIFIED caller sends to PATCH a product, every stored
    product has afterwards the name, category and comments it had before.
    For a stored product and a caller the users table knows ([authGuard]
    refuses a credential whose user no longer exists): the PATCH of a
    VERIFIED caller is answered 200 and sets the product's [updatedById] to
    the caller; the PATCH of an ADMIN that the store accepts (the new name is
    not another product's, the new category is one of the enum) is answered
    200, writes each of the three fields for which the body carries a truthy
    value, and sets [updatedById] to the caller as well. *)
Theorem product_patch_respects_role
    (ProductCategory : list string) (db : Store) (user : User.t) (id : string)
    (reqBody : ProductFields.t) (now : Z) :
  (User.role user = "VERIFIED" ->
   forall id' q,
     find_product db id' = Some q ->
     exists q',
       find_product
         (snd (patch_product ProductCategory db user id reqBody now)) id'
       = Some q'
       /\ same_fields q q')
  /\ (forall p u,
        find_product db id = Some p ->
        find_user db (User.userId user) = Some u ->
        (User.role user = "VERIFIED" ->
         exists sel db' p',
           patch_product ProductCategory db user id reqBody now
           = (json (UpdatedProductBody sel), db')
           /\ find_product db' id = Some p'
           /\ same_fields p p'
           /\ Product.updatedById p' = User.userId user)
        /\ (User.role user = "ADMIN" ->
            name_taken db id
              (ProductData.productName (updateData user reqBody)) = false ->
            valid_category ProductCategory
              (ProductData.productCategory (updateData user reqBody)) = true ->
            exists sel db' p',
              patch_product ProductCategory db user id reqBody now
              = (json (UpdatedProductBody sel), db')
              /\ find_product db' id = Some p'
              /\ Product.productName p'
                 = (if JS.truthy (ProductFields.productName reqBody)
                    then or_else (ProductFields.productName reqBody)
                           (Product.productName p)
                    else Product.productName p)
              /\ Product.productCategory p'
                 = (if JS.truthy (ProductFields.productCategory reqBody)
                    then or_else (ProductFields.productCategory reqBody)
                           (Product.productCategory p)
                    else Product.productCategory p)
              /\ Product.productComments p'
                 = (if JS.truthy (ProductFields.productComments reqBody)
                    then ProductFields.productComments reqBody
                    else Product.productComments p)
              /\ Product.updatedById p' = User.userId user)).
Proof.
  split.
  - intros Hrole id' q Hq. unfold patch_product. rewrite Hrole. simpl.
    destruct (product_update ProductCategory db id (updateData user reqBody) now)
      as [[[p' u] db']|] eqn:Hupd; simpl;
      [|exists q; split; [exact Hq|repeat split]].
    unfold product_update in Hupd.
    destruct (find_product db id) as [p|] eqn:Hp; [|discriminate].
    destruct (find_user db (ProductData.updatedBy (updateData user reqBody)));
      [|discriminate].
    destruct (negb (name_taken db id (ProductData.productName (updateData user reqBody)))
              && valid_category ProductCategory
                   (ProductData.productCategory (updateData user reqBody)));
      [|discriminate].
    injection Hupd as <- _ <-.
    unfold find_product in *. simpl.
    apply (find_replace_first_other same_fields _ _ _ p); try assumption.
    + intros y. repeat split.
    + reflexivity.
    + unfold updateData. rewrite Hrole. repeat split.
  - intros p u Hp Hu. split.
    + intros Hrole.
      destruct (product_update_accepted ProductCategory db id
                  (updateData user reqBody) now p u Hp Hu)
        as (p' & db' & Hupd & Hfind & Hn & Hc & Hm & Hby).
      { unfold updateData. rewrite Hrole. reflexivity. }
      { unfold updateData. rewrite Hrole. reflexivity. }
      unfold patch_product. rewrite Hrole, Hupd. simpl.
      eexists. exists db', p'. split; [reflexivity|].
      unfold updateData in Hn, Hc, Hm, Hby. rewrite Hrole in Hn, Hc, Hm.
      simpl in *. unfold same_fields. auto.
    + intros Hrole Hname Hcat.
      destruct (product_update_accepted ProductCategory db id
                  (updateData user reqBody) now p u Hp Hu Hname Hcat)
        as (p' & db' & Hupd & Hfind & Hn & Hc & Hm & Hby).
      unfold patch_product. rewrite Hrole, Hupd. simpl.
      eexists. exists db', p'. split; [reflexivity|].
      unfold updateData in Hn, Hc, Hm, Hby. rewrite Hrole in Hn, Hc, Hm.
      simpl in *. split; [exact Hfind|].
      rewrite Hn, Hc, Hm.
      destruct (JS.truthy (ProductFields.productName reqBody)),
               (JS.truthy (ProductFields.productCategory reqBody)),
               (JS.truthy (ProductFields.productComments reqBody)) eqn:Hcom;
        repeat split; try exact Hby;
        destruct (ProductFields.productComments reqBody) as [[|c cs]|];
        try reflexivity; discriminate.
Qed.

Lemma product_patch_respects_role_witness :
  (exists q',
      find_product
        (snd (patch_product Sample.categories Sample.db Sample.bob "P2"
                (ProductFields.mk (Some "Baguette") (Some "DAIRY") (Some "fresh"))
                3000)) "P2"
      = Some q'
      /\ same_fields Sample.bread q')
  /\ (exists sel db' p',
        patch_product Sample.categories Sample.db Sample.bob "P2"
          (ProductFields.mk (Some "Baguette") (Some "DAIRY") (Some "fresh")) 3000
        = (json (UpdatedProductBody sel), db')
        /\ find_product db' "P2" = Some p'
        /\ same_fields Sample.bread p'
        /\ Product.updatedById p' = "u-bob")
  /\ (exists sel db' p',
        patch_product Sample.categories Sample.db Sample.alice "P2"
          (ProductFields.mk (Some "Baguette") None (Some "")) 3000
        = (json (UpdatedProductBody sel), db')
        /\ find_product db' "P2" = Some p'
        /\ Product.productName p' = "Baguette"
        /\ Product.productCategory p' = "BAKERY"
        /\ Product.productComments p' = Some "sliced"
        /\ Product.updatedById p' = "u-alice").
Proof.
  split; [|split].
  - apply (proj1 (product_patch_respects_role Sample.categories Sample.db
                    Sample.bob "P2"
                    (ProductFields.mk (Some "Baguette") (Some "DAIRY") (Some "fresh"))
                    3000) eq_refl "P2" Sample.bread eq_refl).
  - apply (proj1 (proj2 (product_patch_respects_role Sample.categories
                           Sample.db Sample.bob "P2"
                           (ProductFields.mk (Some "Baguette") (Some "DAIRY")
                              (Some "fresh")) 3000)
                    Sample.bread Sample.bob eq_refl eq_refl)).
    reflexivity.
  - apply (proj2 (proj2 (product_patch_respects_role Sample.categories
                           Sample.db Sample.alice "P2"
                           (ProductFields.mk (Some "Baguette") None (Some ""))
                           3000)
                    Sample.bread Sample.alice eq_refl eq_refl));
      reflexivity.
Defined.

(** An ADMIN renames the bread: the row is rewritten, and the shopping list
    names the product by its new name. *)
Example patch_product_samples :
  fst (patch_product Sample.categories Sample.db Sample.alice "P2"
         (ProductFields.mk (Some "Baguette") None (Some "")) 3000)
  = json (UpdatedProductBody
            (UpdatedProduct.mk "P2" "Baguette" "BAKERY" (Some "sliced") 3000
               ("u-alice", "alice@example.com")))
  /\ products
       (snd (patch_product Sample.categories Sample.db Sample.alice "P2"
               (ProductFields.mk (Some "Baguette") None (Some "")) 3000))
     = [Sample.milk;
        Product.mk "P2" "Baguette" "BAKERY" (Some "sliced") "u-alice" "u-alice" 3000;
        Sample.rice; Sample.cheese]
  /\ Line.productName
       (resolve_item
          (snd (patch_product Sample.categories Sample.db Sample.alice "P2"
                  (ProductFields.mk (Some "Baguette") None (Some "")) 3000))
          "Chicago" (Sample.item "P2" 1))
     = "Baguette"
  /\ fst (patch_product Sample.categories Sample.db Sample.alice "P2"
            (ProductFields.mk (Some "Milk") None None) 3000)
     = respond 500 (Error "An error occurred while updating the product.")
  /\ fst (patch_product Sample.categories Sample.db Sample.bob "P7"
            (ProductFields.mk None None None) 3000)
     = respond 500 (Error "An error occurred while updating the product.")
  /\ fst (patch_product Sample.categories Sample.db Sample.carol "P2"
            (ProductFields.mk None None None) 3000)
     = respond 403 (Message "Insufficient permissions.").
Proof. vm_compute. repeat split. Qed.

(** * Further properties *)

(** ** The resolver and the cheapest listing *)

(** X1.  The line the resolver returns for an item and the answer of the
    cheapest-listing route for the item's product in the same city agree:
    either the route answers 200 and the line carries the listing's price,
    supermarket name and product name, or the route answers 404 and the line
    is the placeholder. *)
Theorem shopping_line_agrees_with_cheapest
    (db : Store) (user caller : User.t) (now : Z) (city : string)
    (items : list Item.t) (i : nat) (item : Item.t) :
  includes allowedRoles (User.role caller) = true ->
  nth_error items i = Some item ->
  exists l line,
    post_shoppingList db user now city items = respond 201 (ShoppingListBody l)
    /\ nth_error (ShoppingList.shoppingItems l) i = Some line
    /\ ((exists listing,
           get_cheapest db caller (Item.productId item) city
           = json (ListingBody listing)
           /\ Line.lowestPrice line = Listing.price listing
           /\ Line.supermarketName line = Listing.supermarketName listing
           /\ Line.productName line = Listing.productName listing)
        \/ (get_cheapest db caller (Item.productId item) city
            = respond 404
                (Message "No listing found for the given product and city.")
            /\ Line.supermarketName line = "N/A"
            /\ Line.lowestPrice line = JS.zero
            /\ Line.subtotal line = JS.zero)).
Proof.
  intros Hrole Hi.
  destruct (resolved_lines_by_position db user now city items)
    as [l [Hresp Hlines]].
  exists l, (resolve_item db city item).
  split; [exact Hresp|]. split; [now apply Hlines|].
  unfold get_cheapest, resolve_item. rewrite Hrole. simpl.
  destruct (inventory_findFirst db (Item.productId item) city) as [r|].
  - left. eexists. split; [reflexivity|]. repeat split.
  - right. repeat split.
Qed.

Lemma shopping_line_agrees_with_cheapest_witness :
  exists l line,
    post_shoppingList Sample.db Sample.bob 0 "New York" [Sample.item "P4" 3]
    = respond 201 (ShoppingListBody l)
    /\ nth_error (ShoppingList.shoppingItems l) 0 = Some line
    /\ ((exists listing,
           get_cheapest Sample.db Sample.carol "P4" "New York"
           = json (ListingBody listing)
           /\ Line.lowestPrice line = Listing.price listing
           /\ Line.supermarketName line = Listing.supermarketName listing
           /\ Line.productName line = Listing.productName listing)
        \/ (get_cheapest Sample.db Sample.carol "P4" "New York"
            = respond 404
                (Message "No listing found for the given product and city.")
            /\ Line.supermarketName line = "N/A"
            /\ Line.lowestPrice line = JS.zero
            /\ Line.subtotal line = JS.zero)).
Proof.
  apply (shopping_line_agrees_with_cheapest Sample.db Sample.bob Sample.carol
           0 "New York" [Sample.item "P4" 3] 0 (Sample.item "P4" 3));
    reflexivity.
Defined.

Lemma findFirst_without_row (db : Store) (l1 l2 : list Inventory.t)
    (r : Inventory.t) (productId city : string) :
  inventory db = (l1 ++ r :: l2)%list ->
  offer_where productId city r = false ->
  inventory_findFirst db productId city
  = inventory_findFirst (set_inventory db (l1 ++ l2)%list) productId city.
Proof.
  intros Hinv Hr. unfold inventory_findFirst. simpl. rewrite Hinv.
  rewrite !filter_app. simpl. now rewrite Hr.
Qed.

(** X2.  An inventory row that is out of stock, or whose supermarket is in
    another city, has no influence on what is resolved for a city: with the
    row taken out of the table, wherever it stands, the resolver gives the
    same response and the cheapest-listing route the same answer for every
    product. *)
Theorem rows_that_are_no_offer_do_not_matter
    (db : Store) (l1 l2 : list Inventory.t) (r : Inventory.t)
    (user : User.t) (now : Z) (city : string) (items : list Item.t) :
  inventory db = (l1 ++ r :: l2)%list ->
  Inventory.inStock r = false
  \/ Supermarket.city (Inventory.supermarket r) <> city ->
  post_shoppingList db user now city items
  = post_shoppingList (set_inventory db (l1 ++ l2)%list) user now city items
  /\ forall productId,
       get_cheapest db user productId city
       = get_cheapest (set_inventory db (l1 ++ l2)%list) user productId city.
Proof.
  intros Hinv Hr.
  assert (Hno : forall productId, offer_where productId city r = false).
  { intros productId. unfold offer_where. destruct Hr as [Hr|Hr].
    - rewrite Hr. now rewrite andb_false_r.
    - apply String.eqb_neq in Hr. rewrite Hr. now rewrite andb_false_r. }
  assert (Hfind : forall productId,
             inventory_findFirst db productId city
             = inventory_findFirst (set_inventory db (l1 ++ l2)%list)
                 productId city).
  { intros productId. now apply (findFirst_without_row db l1 l2 r). }
  split.
  - unfold post_shoppingList. rewrite !resolve_items_map.
    assert (Hmap : map (resolve_item db city) items
                   = map (resolve_item (set_inventory db (l1 ++ l2)%list) city)
                       items).
    { apply map_ext. intros item. unfold resolve_item. now rewrite Hfind. }
    now rewrite Hmap.
  - intros productId. unfold get_cheapest. now rewrite Hfind.
Qed.

Lemma rows_that_are_no_offer_do_not_matter_witness :
  post_shoppingList Sample.db Sample.carol 0 "New York"
    [Sample.item "P1" 2; Sample.item "P4" 1]
  = post_shoppingList
      (set_inventory Sample.db
         (tl (inventory Sample.db)))
      Sample.carol 0 "New York" [Sample.item "P1" 2; Sample.item "P4" 1]
  /\ forall productId,
       get_cheapest Sample.db Sample.carol productId "New York"
       = get_cheapest (set_inventory Sample.db (tl (inventory Sample.db)))
           Sample.carol productId "New York".
Proof.
  apply (rows_that_are_no_offer_do_not_matter Sample.db []
           (tl (inventory Sample.db))
           (Sample.row Sample.budget_foods Sample.milk 320 100 false Sample.bob)
           Sample.carol 0 "New York"
           [Sample.item "P1" 2; Sample.item "P4" 1]).
  - reflexivity.
  - left. reflexivity.
Defined.

(** ** Lines that add nothing *)

Lemma same_number_refl (a : JS.Number) : same_number a a.
Proof. now left. Qed.

Lemma add_same_number (a b y : JS.Number) :
  same_number a b -> same_number (JS.add a y) (JS.add b y).
Proof.
  intros [->|(s & t & -> & ->)]; [apply same_number_refl|].
  destruct y as [sy|sy| |sy my ey]; simpl.
  - right. destruct s, t, sy; simpl; eauto.
  - now left.
  - now left.
  - now left.
Qed.

Lemma add_zero_same_number (a : JS.Number) :
  same_number (JS.add a JS.zero) a.
Proof.
  destruct a as [s|s| |s m e]; simpl.
  - right. destruct s; simpl; eauto.
  - now left.
  - now left.
  - now left.
Qed.

Lemma same_number_trans (a b c : JS.Number) :
  same_number a b -> same_number b c -> same_number a c.
Proof.
  intros [->|(s & t & -> & ->)] [<-|(s' & t' & Hb & ->)].
  - now left.
  - right. eauto.
  - right. eauto.
  - right. eauto.
Qed.

Lemma round2_same_number (a b : JS.Number) :
  same_number a b -> JS.round2 a = JS.round2 b.
Proof. intros [->|(s & t & -> & ->)]; reflexivity. Qed.

Lemma sum_without_unresolved (db : Store) (city : string)
    (items : list Item.t) (acc acc' : JS.Number) :
  same_number acc acc' ->
  same_number
    (fold_left JS.add
       (map (fun item => Line.subtotal (resolve_item db city item)) items) acc)
    (fold_left JS.add
       (map (fun item => Line.subtotal (resolve_item db city item))
          (filter (has_offer db city) items)) acc').
Proof.
  revert acc acc'. induction items as [|item items IH]; intros acc acc' Hacc;
    simpl; [exact Hacc|].
  destruct (has_offer db city item) eqn:Hoffer.
  - simpl. apply IH. now apply add_same_number.
  - assert (Hzero : Line.subtotal (resolve_item db city item) = JS.zero).
    { unfold has_offer in Hoffer. rewrite resolve_item_subtotal.
      destruct (inventory_findFirst db (Item.productId item) city);
        [discriminate|reflexivity]. }
    rewrite Hzero. apply IH.
    eapply same_number_trans; [apply add_zero_same_number|exact Hacc].
Qed.

Lemma total_of_post (db : Store) (user : User.t) (now : Z) (city : string)
    (items : list Item.t) :
  total_of (post_shoppingList db user now city items)
  = JS.round2
      (JS.sum (map (fun item => Line.subtotal (resolve_item db city item)) items)).
Proof.
  unfold total_of, post_shoppingList. simpl. unfold list_total.
  now rewrite sum_subtotals_map, resolve_items_map, map_map.
Qed.

(** X3.  Items that resolve to no offer add nothing: the total of a shopping
    list is the total of the list with those items left out.  In particular
    a list none of whose items has an offer, the empty list included, totals
    0 whatever the quantities are. *)
Theorem unresolved_items_do_not_change_the_total
    (db : Store) (user : User.t) (now : Z) (city : string)
    (items : list Item.t) :
  total_of (post_shoppingList db user now city items)
  = total_of (post_shoppingList db user now city
                (filter (has_offer db city) items))
  /\ ((forall item, In item items ->
                    forall r, ~ is_offer db (Item.productId item) city r) ->
      total_of (post_shoppingList db user now city items) = JS.zero).
Proof.
  assert (Hdrop : total_of (post_shoppingList db user now city items)
                  = total_of (post_shoppingList db user now city
                                (filter (has_offer db city) items))).
  { rewrite !total_of_post. apply round2_same_number.
    apply sum_without_unresolved, same_number_refl. }
  split; [exact Hdrop|].
  intros Hnone. rewrite Hdrop.
  assert (Hnil : filter (has_offer db city) items = []).
  { clear Hdrop. induction items as [|item items IH]; [reflexivity|]. simpl.
    assert (Hf : has_offer db city item = false).
    { unfold has_offer.
      assert (Hn : inventory_findFirst db (Item.productId item) city = None).
      { apply findFirst_none. apply Hnone. now left. }
      now rewrite Hn. }
    rewrite Hf. apply IH. intros x Hx. apply Hnone. now right. }
  rewrite Hnil. reflexivity.
Qed.

Lemma unresolved_items_do_not_change_the_total_witness :
  total_of (post_shoppingList Sample.db Sample.carol 0 "Chicago"
              [Sample.item "P3" 4; Sample.item "P4" 2])
  = JS.zero.
Proof.
  apply (proj2 (unresolved_items_do_not_change_the_total Sample.db Sample.carol
                  0 "Chicago" [Sample.item "P3" 4; Sample.item "P4" 2])).
  intros item Hin. apply findFirst_none.
  destruct Hin as [<-|[<-|[]]]; reflexivity.
Defined.

(** ** Lists of rows *)

Lemma existsb_false_In {A : Type} (f : A -> bool) (l : list A) :
  existsb f l = false -> forall x, In x l -> f x = false.
Proof.
  intros H x Hin. destruct (f x) eqn:Hx; [|reflexivity].
  assert (Ht : existsb f l = true) by (apply existsb_exists; eauto).
  congruence.
Qed.

Lemma find_app_fresh {A : Type} (f : A -> bool) (l : list A) (x : A) :
  existsb f l = false -> f x = true -> find f (l ++ [x]) = Some x.
Proof.
  intros Hl Hx. induction l as [|y l IH]; simpl in *.
  - now rewrite Hx.
  - apply orb_false_iff in Hl. destruct Hl as [Hy Hl]. rewrite Hy. now apply IH.
Qed.

Lemma find_app_other {A : Type} (f : A -> bool) (l : list A) (x : A) :
  f x = false -> find f (l ++ [x]) = find f l.
Proof.
  intros Hx. induction l as [|y l IH]; simpl.
  - now rewrite Hx.
  - destruct (f y); [reflexivity|exact IH].
Qed.

Lemma In_remove_first {A : Type} (f : A -> bool) (l : list A) (x : A) :
  In x (remove_first f l) -> In x l.
Proof.
  induction l as [|y l IH]; simpl; [tauto|].
  destruct (f y); simpl; [tauto|]. intros [H|H]; [now left|right; now apply IH].
Qed.

Lemma In_replace_first {A : Type} (f : A -> bool) (new : A) (l : list A) (x : A) :
  In x (replace_first f new l) -> x = new \/ In x l.
Proof.
  induction l as [|y l IH]; simpl; [tauto|].
  destruct (f y); simpl.
  - intros [H|H]; [now left|right; now right].
  - intros [H|H]; [right; now left|]. destruct (IH H); [now left|right; now right].
Qed.

Lemma In_new_replace_first {A : Type} (f : A -> bool) (new : A) (l : list A)
    (x : A) :
  find f l = Some x -> In new (replace_first f new l).
Proof.
  induction l as [|y l IH]; simpl; [discriminate|].
  destruct (f y); simpl; [now left|]. intros H. right. now apply IH.
Qed.

Lemma NoDup_map_remove_first {A B : Type} (f : A -> bool) (g : A -> B)
    (l : list A) :
  NoDup (map g l) -> NoDup (map g (remove_first f l)).
Proof.
  induction l as [|y l IH]; simpl; intros H; [constructor|].
  inversion H as [|? ? Hnot Hrest]; subst.
  destruct (f y); simpl; [exact Hrest|].
  constructor; [|now apply IH].
  intros Hin. apply Hnot. apply in_map_iff in Hin.
  destruct Hin as (q & Hq & Hin). apply in_map_iff. exists q.
  split; [exact Hq|]. now apply In_remove_first in Hin.
Qed.

Lemma map_replace_first_same {A B : Type} (f : A -> bool) (g : A -> B)
    (new : A) (l : list A) :
  (forall x, In x l -> f x = true -> g x = g new) ->
  map g (replace_first f new l) = map g l.
Proof.
  induction l as [|y l IH]; simpl; intros H; [reflexivity|].
  destruct (f y) eqn:Hy; simpl.
  - f_equal. symmetry. apply H; [now left|exact Hy].
  - f_equal. apply IH. intros x Hx. apply H. now right.
Qed.

Lemma NoDup_map_app_fresh {A B : Type} (g : A -> B) (l : list A) (x : A) :
  NoDup (map g l) -> ~ In (g x) (map g l) -> NoDup (map g (l ++ [x])).
Proof.
  intros Hl Hx. rewrite map_app. simpl.
  apply NoDup_app; [exact Hl|repeat constructor; tauto|].
  intros b Hb [<-|[]]. now apply Hx.
Qed.

Lemma find_remove_first_other {A : Type} (f g : A -> bool) (l : list A) :
  (forall x, In x l -> f x = true -> g x = false) ->
  find g (remove_first f l) = find g l.
Proof.
  induction l as [|y l IH]; simpl; intros H; [reflexivity|].
  destruct (f y) eqn:Hy; simpl.
  - rewrite (H y); [reflexivity|now left|exact Hy].
  - destruct (g y); [reflexivity|]. apply IH. intros x Hx. apply H. now right.
Qed.

Lemma filter_remove_first_other {A : Type} (f g : A -> bool) (l : list A) :
  (forall x, In x l -> f x = true -> g x = false) ->
  filter g (remove_first f l) = filter g l.
Proof.
  induction l as [|y l IH]; simpl; intros H; [reflexivity|].
  destruct (f y) eqn:Hy; simpl.
  - rewrite (H y); [reflexivity|now left|exact Hy].
  - destruct (g y); [f_equal|]; apply IH; intros x Hx; apply H; now right.
Qed.

Lemma filter_replace_first_other {A : Type} (f g : A -> bool) (new : A)
    (l : list A) :
  g new = false ->
  (forall x, In x l -> f x = true -> g x = false) ->
  filter g (replace_first f new l) = filter g l.
Proof.
  intros Hnew. induction l as [|y l IH]; simpl; intros H; [reflexivity|].
  destruct (f y) eqn:Hy; simpl.
  - rewrite Hnew, (H y); [reflexivity|now left|exact Hy].
  - destruct (g y); [f_equal|]; apply IH; intros x Hx; apply H; now right.
Qed.

Lemma find_replace_first_frame {A : Type} (f g : A -> bool) (new : A)
    (l : list A) :
  g new = false ->
  (forall x, In x l -> f x = true -> g x = false) ->
  find g (replace_first f new l) = find g l.
Proof.
  intros Hnew. induction l as [|y l IH]; simpl; intros H; [reflexivity|].
  destruct (f y) eqn:Hy; simpl.
  - rewrite Hnew, (H y); [reflexivity|now left|exact Hy].
  - destruct (g y); [reflexivity|]. apply IH. intros x Hx. apply H. now right.
Qed.

Lemma string_key_not_in {A : Type} (k : A -> string) (c : string) (l : list A) :
  existsb (fun x => k x =? c) l = false -> ~ In c (map k l).
Proof.
  intros H Hin. apply in_map_iff in Hin. destruct Hin as (x & Hx & Hin).
  pose proof (existsb_false_In _ _ H x Hin) as Hf. simpl in Hf.
  apply String.eqb_neq in Hf. congruence.
Qed.

Lemma find_key_remove_first {A : Type} (k : A -> string) (c : string)
    (l : list A) :
  NoDup (map k l) ->
  find (fun x => k x =? c) (remove_first (fun x => k x =? c) l) = None.
Proof.
  induction l as [|y l IH]; simpl; intros H; [reflexivity|].
  inversion H as [|? ? Hnot Hrest]; subst.
  destruct (k y =? c) eqn:Hy; simpl.
  - apply String.eqb_eq in Hy. subst c.
    destruct (find (fun x => k x =? k y) l) as [q|] eqn:Hq; [|reflexivity].
    apply find_some in Hq. destruct Hq as [Hin Heq].
    apply String.eqb_eq in Heq. exfalso. apply Hnot. rewrite <- Heq.
    now apply in_map.
  - rewrite Hy. now apply IH.
Qed.

Lemma NoDup_map_injective_on {A B : Type} (g : A -> B) (l : list A) (a b : A) :
  NoDup (map g l) -> In a l -> In b l -> g a = g b -> a = b.
Proof.
  induction l as [|y l IH]; simpl; intros H Ha Hb Hg; [destruct Ha|].
  inversion H as [|? ? Hnot Hrest]; subst.
  destruct Ha as [<-|Ha], Hb as [<-|Hb].
  - reflexivity.
  - exfalso. apply Hnot. rewrite Hg. now apply in_map.
  - exfalso. apply Hnot. rewrite <- Hg. now apply in_map.
  - now apply IH.
Qed.

(** ** The order of a scan *)

Lemma newest_first_keeps_rows : keeps_rows Sample.newest_first.
Proof. intros A l. apply Permutation_sym, Permutation_rev. Qed.

Lemma scan_In (scan : RowOrder) (A : Type) (l : list A) (x : A) :
  keeps_rows scan -> (In x (scan A l) <-> In x l).
Proof.
  intros Hscan. split; apply Permutation_in;
    [apply Hscan|apply Permutation_sym, Hscan].
Qed.

Lemma scan_nil (scan : RowOrder) (A : Type) (l : list A) :
  keeps_rows scan -> (scan A l = [] <-> l = []).
Proof.
  intros Hscan. split; intros H.
  - apply Permutation_nil. rewrite <- H. apply Hscan.
  - subst l. apply Permutation_nil, Permutation_sym, Hscan.
Qed.

Lemma scan_added (scan : RowOrder) (A B : Type) (f : A -> B) (l : list A) (x : A) :
  keeps_rows scan ->
  Permutation (map f (scan A (l ++ [x])%list)) (f x :: map f (scan A l)).
Proof.
  intros Hscan.
  transitivity (map f (l ++ [x])%list); [apply Permutation_map, Hscan|].
  rewrite map_app. simpl.
  transitivity (f x :: map f l);
    [apply Permutation_sym, Permutation_cons_append|].
  constructor. apply Permutation_map, Permutation_sym, Hscan.
Qed.

(** ** Products: writing and reading back *)

Lemma post_product_created
    (ProductCategory : list string) (db : Store) (user : User.t)
    (reqBody : ProductFields.t) (newId : string) (now : Z)
    (p : Product.t) (db' : Store) :
  post_product ProductCategory db user reqBody newId now
  = (respond 201 (ProductBody p), db') ->
  product_create ProductCategory db
    (ProductFields.productName reqBody) (ProductFields.productCategory reqBody)
    (ProductFields.productComments reqBody) (User.userId user) newId now
  = Ok (p, db').
Proof.
  unfold post_product.
  destruct (negb (User.role user =? "VERIFIED") && negb (User.role user =? "ADMIN"));
    [discriminate|].
  destruct (product_findUnique_name db (ProductFields.productName reqBody))
    as [[existing|]|]; try discriminate.
  destruct (product_create _ _ _ _ _ _ _ _) as [[q db'']|]; [|discriminate].
  intros H. injection H as -> ->. reflexivity.
Qed.

(** X4.  A product that [POST /products] answers 201 for can be read back:
    [GET /products/:id] with the new identifier returns its name, category
    and comments as posted, every other identifier reads as before, and the
    row names the caller as creator and last modifier.  [GET /products]
    lists the new product and the products it listed before, in whatever
    order the database returns them. *)
Theorem posted_product_is_read_back
    (ProductCategory : list string) (scan : RowOrder) (db : Store)
    (user : User.t) (reqBody : ProductFields.t) (newId : string) (now : Z)
    (p : Product.t) (db' : Store) :
  keeps_rows scan ->
  post_product ProductCategory db user reqBody newId now
  = (respond 201 (ProductBody p), db') ->
  get_product db' newId = send_json (Data (product_summary p))
  /\ ProductFields.productName reqBody = Some (Product.productName p)
  /\ ProductFields.productCategory reqBody = Some (Product.productCategory p)
  /\ ProductFields.productComments reqBody = Product.productComments p
  /\ Product.createdById p = User.userId user
  /\ Product.updatedById p = User.userId user
  /\ (exists before after,
        get_products scan db = send_json (Data before)
        /\ get_products scan db' = send_json (Data after)
        /\ Permutation after (product_summary p :: before))
  /\ forall id, id <> newId -> get_product db' id = get_product db id.
Proof.
  intros Hscan Hpost. apply post_product_created in Hpost.
  unfold product_create in Hpost.
  destruct (ProductFields.productName reqBody) as [n|]; [|discriminate].
  destruct (ProductFields.productCategory reqBody) as [c|]; [|discriminate].
  destruct (find_user db (User.userId user)) as [u|] eqn:Hu; [|discriminate].
  destruct (includes ProductCategory c
            && negb (existsb (fun q => Product.productName q =? n) (products db))
            && negb (existsb (fun q => Product.productId q =? newId) (products db)))
    eqn:Hok; [|discriminate].
  injection Hpost as <- <-.
  apply andb_true_iff in Hok. destruct Hok as [_ Hfresh].
  apply negb_true_iff in Hfresh. apply find_user_id in Hu.
  unfold get_product, get_products, find_product. simpl.
  rewrite (find_app_fresh _ _ _ Hfresh) by (simpl; apply String.eqb_refl).
  repeat split; try assumption.
  - eexists _, _. split; [reflexivity|]. split; [reflexivity|].
    now apply scan_added.
  - intros id Hid. rewrite find_app_other; [reflexivity|].
    simpl. apply String.eqb_neq. congruence.
Qed.

Lemma posted_product_is_read_back_witness :
  get_product
    (snd (post_product Sample.categories Sample.db Sample.bob
            (ProductFields.mk (Some "Butter") (Some "DAIRY") None) "P9" 3000))
    "P9"
  = send_json (Data (ProductSummary.mk "P9" "Butter" "DAIRY" None))
  /\ exists before after,
       get_products Sample.newest_first Sample.db = send_json (Data before)
       /\ get_products Sample.newest_first
            (snd (post_product Sample.categories Sample.db Sample.bob
                    (ProductFields.mk (Some "Butter") (Some "DAIRY") None)
                    "P9" 3000))
          = send_json (Data after)
       /\ Permutation after (ProductSummary.mk "P9" "Butter" "DAIRY" None :: before).
Proof.
  destruct (posted_product_is_read_back Sample.categories Sample.newest_first
              Sample.db Sample.bob
              (ProductFields.mk (Some "Butter") (Some "DAIRY") None) "P9" 3000
              (Product.mk "P9" "Butter" "DAIRY" None "u-bob" "u-bob" 3000)
              _ newest_first_keeps_rows eq_refl)
    as (Hread & _ & _ & _ & _ & _ & Hlist & _).
  split; [exact Hread|exact Hlist].
Defined.




(** ** Products: identifiers and names stay unique *)

Lemma replace_first_names_unique (l : list Product.t) (id : string)
    (p' : Product.t) :
  NoDup (map Product.productId l) ->
  NoDup (map Product.productName l) ->
  (forall q, In q l -> Product.productId q <> id ->
             Product.productName q <> Product.productName p') ->
  NoDup (map Product.productName
           (replace_first (fun x => Product.productId x =? id) p' l)).
Proof.
  induction l as [|x l IH]; simpl; intros Hids Hnames Hother; [constructor|].
  inversion Hids as [|? ? Hidx Hids']; subst.
  inversion Hnames as [|? ? Hnamex Hnames']; subst.
  destruct (Product.productId x =? id) eqn:Hx; simpl.
  - apply String.eqb_eq in Hx. constructor; [|exact Hnames'].
    intros Hin. apply in_map_iff in Hin. destruct Hin as (q & Hq & Hin).
    apply (Hother q); [now right| |exact Hq].
    intros Hqid. apply Hidx. rewrite Hx, <- Hqid. now apply in_map.
  - apply String.eqb_neq in Hx. constructor.
    + intros Hin. apply in_map_iff in Hin. destruct Hin as (q & Hq & Hin).
      apply In_replace_first in Hin. destruct Hin as [->|Hin].
      * apply (Hother x); [now left|exact Hx|now symmetry].
      * apply Hnamex. rewrite <- Hq. now apply in_map.
    + apply IH; try assumption. intros q Hq. apply Hother. now right.
Qed.

(** X6.  Whatever a caller sends to the three writing routes of the product
    controller, a table in which no two products share an identifier or a
    name is still such a table afterwards. *)
Theorem product_routes_keep_products_unique
    (ProductCategory : list string) (product_onDelete : ReferentialAction)
    (db : Store) (user : User.t) (id newId : string)
    (reqBody : ProductFields.t) (now : Z) :
  products_unique db ->
  products_unique (snd (post_product ProductCategory db user reqBody newId now))
  /\ products_unique (snd (patch_product ProductCategory db user id reqBody now))
  /\ products_unique (snd (delete_product product_onDelete db user id)).
Proof.
  intros [Hids Hnames]. split; [|split].
  - unfold post_product.
    destruct (negb (User.role user =? "VERIFIED") && negb (User.role user =? "ADMIN"));
      [now split|].
    destruct (product_findUnique_name db (ProductFields.productName reqBody))
      as [[existing|]|]; try (now split).
    unfold product_create.
    destruct (ProductFields.productName reqBody) as [n|]; [|now split].
    destruct (ProductFields.productCategory reqBody) as [c|]; [|now split].
    destruct (find_user db (User.userId user)) as [u|]; [|now split].
    destruct (includes ProductCategory c) ; simpl; [|now split].
    destruct (existsb (fun q => Product.productName q =? n) (products db))
      eqn:Hn; simpl; [now split|].
    destruct (existsb (fun q => Product.productId q =? newId) (products db))
      eqn:Hi; simpl; [now split|].
    split; simpl; apply NoDup_map_app_fresh; try assumption; simpl.
    + now apply string_key_not_in.
    + now apply string_key_not_in.
  - unfold patch_product.
    destruct (negb (User.role user =? "VERIFIED") && negb (User.role user =? "ADMIN"));
      [now split|].
    unfold product_update. remember (updateData user reqBody) as data.
    destruct (find_product db id) as [p|] eqn:Hp; [|now split].
    destruct (find_user db _) as [u|]; [|now split].
    destruct (name_taken db id (ProductData.productName data))
      eqn:Htaken; simpl; [now split|].
    destruct (valid_category ProductCategory _); simpl; [|now split].
    unfold find_product in Hp. pose proof (find_some _ _ Hp) as [Hin Hpid].
    apply String.eqb_eq in Hpid.
    split; simpl.
    + rewrite map_replace_first_same; [exact Hids|].
      intros x _ Hx. apply String.eqb_eq in Hx. simpl. congruence.
    + apply replace_first_names_unique; try assumption. simpl.
      intros q Hq Hqid.
      destruct (ProductData.productName data) as [n|]; simpl.
      * simpl in Htaken.
        pose proof (existsb_false_In _ _ Htaken q Hq) as Hf. simpl in Hf.
        apply String.eqb_neq in Hqid. rewrite Hqid in Hf. simpl in Hf.
        now apply String.eqb_neq.
      * intros Heq. apply Hqid. rewrite <- Hpid. f_equal.
        now apply (NoDup_map_injective_on Product.productName (products db)).
  - unfold delete_product.
    destruct (negb (User.role user =? "ADMIN")); [now split|].
    unfold product_delete.
    destruct (find_product db id) as [p|]; [|now split].
    destruct product_onDelete.
    + split; simpl; now apply NoDup_map_remove_first.
    + destruct (existsb (of_product id) (inventory db)); [now split|].
      split; simpl; now apply NoDup_map_remove_first.
Qed.

Lemma product_routes_keep_products_unique_witness :
  products_unique
    (snd (post_product Sample.categories Sample.db Sample.alice
            (ProductFields.mk (Some "Baguette") (Some "BAKERY") None) "P9" 3000))
  /\ products_unique
       (snd (patch_product Sample.categories Sample.db Sample.alice "P2"
               (ProductFields.mk (Some "Baguette") (Some "BAKERY") None) 3000))
  /\ products_unique (snd (delete_product Cascade Sample.db Sample.alice "P2")).
Proof.
  apply (product_routes_keep_products_unique Sample.categories Cascade
           Sample.db Sample.alice "P2" "P9"
           (ProductFields.mk (Some "Baguette") (Some "BAKERY") None) 3000).
  split; simpl; repeat constructor; simpl; intuition discriminate.
Defined.

(** ** Deleting a product or a supermarket *)

Lemma no_row_of_product_no_offer (db : Store) (id : string) :
  (forall r, In r (inventory db) -> of_product id r = false) ->
  forall city r, ~ is_offer db id city r.
Proof.
  intros H city r (Hin & Hid & _). specialize (H r Hin).
  unfold of_product in H. apply String.eqb_neq in H. contradiction.
Qed.

(** X7.  After [DELETE /products/:id] has answered 200 the product cannot be
    resolved any more, whether the database cascades the deletion to the
    inventory or refuses to delete a product that has inventory rows: no
    offer is left for it in any city, so the cheapest-listing route answers
    404 and the resolver the placeholder; the other products read as before,
    and when identifiers are unique [GET /products/:id] answers 404. *)
Theorem deleted_product_is_gone
    (product_onDelete : ReferentialAction) (db : Store) (user : User.t)
    (id : string) (p : Product.t) (db' : Store) :
  delete_product product_onDelete db user id
  = (send_json (Data ("Product deleted successfully.", p)), db') ->
  User.role user = "ADMIN"
  /\ find_product db id = Some p
  /\ (forall city r, ~ is_offer db' id city r)
  /\ (forall caller city,
        includes allowedRoles (User.role caller) = true ->
        get_cheapest db' caller id city
        = respond 404
            (Message "No listing found for the given product and city."))
  /\ (forall city quantity,
        Line.supermarketName (resolve_item db' city (Item.mk id quantity))
        = "N/A")
  /\ (forall id', id' <> id -> get_product db' id' = get_product db id')
  /\ (NoDup (map Product.productId (products db)) ->
      get_product db' id = send 404 (Notice "Product not found.")).
Proof.
  unfold delete_product.
  destruct (negb (User.role user =? "ADMIN")) eqn:Hrole; [discriminate|].
  apply negb_false_iff, String.eqb_eq in Hrole.
  unfold product_delete.
  destruct (find_product db id) as [p0|] eqn:Hp; [|discriminate].
  intros H.
  assert (Hres : p0 = p
                 /\ products db'
                    = remove_first (fun x => Product.productId x =? id)
                        (products db)
                 /\ forall r, In r (inventory db') -> of_product id r = false).
  { destruct product_onDelete.
    - injection H as <- <-. simpl. repeat split.
      intros r Hr. apply filter_In in Hr. destruct Hr as [_ Hr].
      now apply negb_true_iff in Hr.
    - destruct (existsb (of_product id) (inventory db)) eqn:Hex;
        [discriminate|].
      injection H as <- <-. simpl. repeat split.
      now apply existsb_false_In. }
  destruct Hres as (-> & Hps & Hrows).
  pose proof (no_row_of_product_no_offer db' id Hrows) as Hnone.
  split; [exact Hrole|]. split; [reflexivity|]. split; [exact Hnone|].
  assert (Hfind : forall city, inventory_findFirst db' id city = None).
  { intros city. apply findFirst_none. apply Hnone. }
  split.
  { intros caller city Hcaller. unfold get_cheapest.
    now rewrite Hcaller, Hfind. }
  split.
  { intros city quantity. unfold resolve_item. simpl. now rewrite Hfind. }
  split.
  - intros id' Hid'. unfold get_product, find_product. rewrite Hps.
    rewrite find_remove_first_other; [reflexivity|].
    intros x _ Hx. apply String.eqb_eq in Hx. apply String.eqb_neq. congruence.
  - intros Hunique. unfold get_product, find_product. rewrite Hps.
    now rewrite (find_key_remove_first Product.productId id).
Qed.

Lemma deleted_product_is_gone_witness :
  get_cheapest (snd (delete_product Cascade Sample.db Sample.alice "P1"))
    Sample.carol "P1" "New York"
  = respond 404 (Message "No listing found for the given product and city.")
  /\ get_product (snd (delete_product Cascade Sample.db Sample.alice "P1")) "P1"
     = send 404 (Notice "Product not found.").
Proof.
  destruct (deleted_product_is_gone Cascade Sample.db Sample.alice "P1"
              Sample.milk _ eq_refl)
    as (_ & _ & _ & Hcheap & _ & _ & Hget).
  split.
  - apply Hcheap. reflexivity.
  - apply Hget. simpl. repeat constructor; simpl; intuition discriminate.
Defined.

(** X8.  After [DELETE /supermarket/:id] has answered 200 no inventory row
    of the supermarket is left, under either policy of the database: the
    listing of the supermarket's inventory answers 404, the other
    supermarkets read as before, and when identifiers are unique
    [GET /supermarket/:id] answers 404. *)
Theorem deleted_supermarket_is_gone
    (supermarket_onDelete : ReferentialAction) (db : Store) (user : User.t)
    (id : string) (s : Supermarket.t) (db' : Store) :
  delete_supermarket supermarket_onDelete db user id
  = (send_json (Data ("Supermarket deleted successfully.", s)), db') ->
  User.role user = "ADMIN"
  /\ find_supermarket db id = Some s
  /\ (forall r, In r (inventory db') -> Inventory.supermarketId r <> id)
  /\ (forall scan,
        keeps_rows scan ->
        get_inventory_of_supermarket scan db' id
        = send 404 (Notice "No items found in the given supermarket."))
  /\ (forall caller id',
        id' <> id -> get_supermarket db' caller id' = get_supermarket db caller id')
  /\ (supermarkets_unique db ->
      forall caller,
        includes ["BASIC"; "VERIFIED"; "ADMIN"] (User.role caller) = true ->
        get_supermarket db' caller id
        = send 404 (Notice "Supermarket not found.")).
Proof.
  unfold delete_supermarket.
  destruct (negb (User.role user =? "ADMIN")) eqn:Hrole; [discriminate|].
  apply negb_false_iff, String.eqb_eq in Hrole.
  unfold supermarket_delete.
  destruct (find_supermarket db id) as [s0|] eqn:Hs; [|discriminate].
  intros H.
  assert (Hres : s0 = s
                 /\ supermarkets db'
                    = remove_first (fun x => Supermarket.supermarketId x =? id)
                        (supermarkets db)
                 /\ forall r, In r (inventory db') -> of_supermarket id r = false).
  { destruct supermarket_onDelete.
    - injection H as <- <-. simpl. repeat split.
      intros r Hr. apply filter_In in Hr. destruct Hr as [_ Hr].
      now apply negb_true_iff in Hr.
    - destruct (existsb (of_supermarket id) (inventory db)) eqn:Hex;
        [discriminate|].
      injection H as <- <-. simpl. repeat split.
      now apply existsb_false_In. }
  destruct Hres as (-> & Hss & Hrows).
  split; [exact Hrole|]. split; [reflexivity|]. split.
  { intros r Hr. specialize (Hrows r Hr). unfold of_supermarket in Hrows.
    now apply String.eqb_neq. }
  split.
  { intros scan Hscan. unfold get_inventory_of_supermarket.
    assert (Hnil : filter (of_supermarket id) (inventory db') = []).
    { destruct (filter (of_supermarket id) (inventory db')) as [|r l] eqn:Hf;
        [reflexivity|].
      assert (Hin : In r (filter (of_supermarket id) (inventory db')))
        by (rewrite Hf; now left).
      apply filter_In in Hin. destruct Hin as [Hin Hr].
      rewrite (Hrows r Hin) in Hr. discriminate. }
    rewrite Hnil. now rewrite (proj2 (scan_nil scan _ [] Hscan) eq_refl). }
  split.
  - intros caller id' Hid'. unfold get_supermarket, find_supermarket.
    rewrite Hss. rewrite find_remove_first_other; [reflexivity|].
    intros x _ Hx. apply String.eqb_eq in Hx. apply String.eqb_neq. congruence.
  - intros Hunique caller Hcaller. unfold get_supermarket, find_supermarket.
    rewrite Hcaller, Hss. simpl.
    now rewrite (find_key_remove_first Supermarket.supermarketId id).
Qed.

Lemma deleted_supermarket_is_gone_witness :
  get_inventory_of_supermarket Sample.newest_first
    (snd (delete_supermarket Cascade Sample.db Sample.alice "S3")) "S3"
  = send 404 (Notice "No items found in the given supermarket.")
  /\ get_supermarket (snd (delete_supermarket Cascade Sample.db Sample.alice "S3"))
       Sample.carol "S3"
     = send 404 (Notice "Supermarket not found.").
Proof.
  destruct (deleted_supermarket_is_gone Cascade Sample.db Sample.alice "S3"
              Sample.lakeside _ eq_refl)
    as (_ & _ & _ & Hrows & _ & Hget).
  split; [exact (Hrows _ newest_first_keeps_rows)|]. apply Hget; [|reflexivity].
  unfold supermarkets_unique. simpl.
  repeat constructor; simpl; intuition discriminate.
Defined.

(** ** Supermarkets: writing and reading back *)

(** X9.  A supermarket that [POST /supermarket] answers 201 for can be read
    back by every role: [GET /supermarket/:id] with the identifier of the
    response returns the name and city of the response, which are those of
    the request, and [GET /supermarket] lists the new supermarket and the
    supermarkets it listed before, in whatever order the database returns
    them.  Only an ADMIN gets that answer. *)
Theorem posted_supermarket_is_read_back
    (scan : RowOrder) (db : Store) (user caller : User.t)
    (reqBody : SupermarketPatch.t) (newId : string) (now : Z)
    (c : CreatedSupermarket.t) (db' : Store) :
  keeps_rows scan ->
  post_supermarket db user reqBody newId now = (send 201 (Data c), db') ->
  includes ["BASIC"; "VERIFIED"; "ADMIN"] (User.role caller) = true ->
  User.role user = "ADMIN"
  /\ CreatedSupermarket.supermarketId c = newId
  /\ SupermarketPatch.supermarketName reqBody
     = Some (CreatedSupermarket.supermarketName c)
  /\ SupermarketPatch.city reqBody = Some (CreatedSupermarket.city c)
  /\ fst (CreatedSupermarket.createdBy c) = User.userId user
  /\ get_supermarket db' caller newId
     = send_json
         (Data (SupermarketSummary.mk newId
                  (CreatedSupermarket.supermarketName c)
                  (CreatedSupermarket.city c)))
  /\ exists before after,
       get_supermarkets scan db caller = send_json (Data before)
       /\ get_supermarkets scan db' caller = send_json (Data after)
       /\ Permutation after
            (SupermarketSummary.mk newId
               (CreatedSupermarket.supermarketName c)
               (CreatedSupermarket.city c) :: before).
Proof.
  intros Hscan. unfold post_supermarket.
  destruct (negb (User.role user =? "ADMIN")) eqn:Hrole; [discriminate|].
  apply negb_false_iff, String.eqb_eq in Hrole.
  unfold supermarket_create.
  destruct (SupermarketPatch.supermarketName reqBody) as [n|]; [|discriminate].
  destruct (SupermarketPatch.city reqBody) as [ct|]; [|discriminate].
  destruct (find_user db (User.userId user)) as [u|] eqn:Hu; [|discriminate].
  destruct (existsb (fun s => Supermarket.supermarketId s =? newId)
              (supermarkets db)) eqn:Hfresh; [discriminate|].
  intros H Hcaller. injection H as <- <-.
  apply find_user_id in Hu.
  unfold get_supermarket, get_supermarkets, find_supermarket.
  rewrite Hcaller. simpl.
  rewrite (find_app_fresh _ _ _ Hfresh) by (simpl; apply String.eqb_refl).
  repeat split; try assumption.
  eexists _, _. split; [reflexivity|]. split; [reflexivity|].
  exact (scan_added scan _ _ supermarket_summary (supermarkets db)
           (Supermarket.mk newId n (SupermarketPatch.supermarketComments reqBody)
              ct (User.userId u) (User.userId u)) Hscan).
Qed.

Lemma posted_supermarket_is_read_back_witness :
  get_supermarket
    (snd (post_supermarket Sample.db Sample.alice
            (SupermarketPatch.mk (Some "Corner Shop") None (Some "Chicago"))
            "S9" 5000))
    Sample.carol "S9"
  = send_json (Data (SupermarketSummary.mk "S9" "Corner Shop" "Chicago"))
  /\ exists before after,
       get_supermarkets Sample.newest_first Sample.db Sample.carol
       = send_json (Data before)
       /\ get_supermarkets Sample.newest_first
            (snd (post_supermarket Sample.db Sample.alice
                    (SupermarketPatch.mk (Some "Corner Shop") None (Some "Chicago"))
                    "S9" 5000))
            Sample.carol
          = send_json (Data after)
       /\ Permutation after
            (SupermarketSummary.mk "S9" "Corner Shop" "Chicago" :: before).
Proof.
  destruct (posted_supermarket_is_read_back Sample.newest_first Sample.db
              Sample.alice Sample.carol
              (SupermarketPatch.mk (Some "Corner Shop") None (Some "Chicago"))
              "S9" 5000
              (CreatedSupermarket.mk "S9" "Corner Shop" None "Chicago" 5000
                 ("u-alice", "alice@example.com"))
              _ newest_first_keeps_rows eq_refl eq_refl)
    as (_ & _ & _ & _ & _ & Hread & Hlist).
  split; [exact Hread|exact Hlist].
Defined.

(** X10.  What [PATCH /supermarket/:id] answers with 200 is what is stored:
    a following [GET /supermarket/:id] returns the name and city of the
    PATCH response, a name or city the body carries is the one stored, the
    row names the caller as last modifier, and every other identifier reads
    as before. *)
Theorem patched_supermarket_is_read_back
    (db : Store) (user caller : User.t) (id : string)
    (reqBody : SupermarketPatch.t) (s' : Supermarket.t) (db' : Store) :
  patch_supermarket db user id reqBody = (json (SupermarketBody s'), db') ->
  includes ["BASIC"; "VERIFIED"; "ADMIN"] (User.role caller) = true ->
  User.role user = "ADMIN"
  /\ Supermarket.supermarketId s' = id
  /\ Supermarket.updatedById s' = User.userId user
  /\ (forall n, SupermarketPatch.supermarketName reqBody = Some n ->
                Supermarket.supermarketName s' = n)
  /\ (forall c, SupermarketPatch.city reqBody = Some c ->
                Supermarket.city s' = c)
  /\ get_supermarket db' caller id = send_json (Data (supermarket_summary s'))
  /\ forall id', id' <> id ->
                 get_supermarket db' caller id' = get_supermarket db caller id'.
Proof.
  unfold patch_supermarket.
  destruct (negb (User.role user =? "ADMIN")) eqn:Hrole; [discriminate|].
  apply negb_false_iff, String.eqb_eq in Hrole.
  unfold supermarket_update.
  cbn [SupermarketData.updatedBy SupermarketData.supermarketName
       SupermarketData.supermarketComments SupermarketData.city].
  destruct (find_supermarket db id) as [s|] eqn:Hs; [|discriminate].
  destruct (find_user db (User.userId user)) as [u|] eqn:Hu; [|discriminate].
  intros H Hcaller. injection H as <- <-.
  apply find_user_id in Hu.
  assert (Hid : Supermarket.supermarketId s = id).
  { unfold find_supermarket in Hs. apply find_some in Hs.
    now apply String.eqb_eq. }
  split; [exact Hrole|]. split; [exact Hid|]. split; [exact Hu|].
  split; [now intros n ->|]. split; [now intros c ->|].
  unfold get_supermarket, find_supermarket in *. rewrite Hcaller. simpl. split.
  - rewrite (find_replace_first _ _ s); [reflexivity|exact Hs|].
    simpl. rewrite Hid. apply String.eqb_refl.
  - intros id' Hid'. rewrite find_replace_first_frame; [reflexivity| |].
    + simpl. rewrite Hid. apply String.eqb_neq. congruence.
    + intros x _ Hx. apply String.eqb_eq in Hx. apply String.eqb_neq.
      congruence.
Qed.

Lemma patched_supermarket_is_read_back_witness :
  get_supermarket
    (snd (patch_supermarket Sample.db Sample.alice "S1"
            (SupermarketPatch.mk (Some "Fresher Mart") None (Some "Boston"))))
    Sample.bob "S1"
  = send_json (Data (SupermarketSummary.mk "S1" "Fresher Mart" "Boston")).
Proof.
  apply (patched_supermarket_is_read_back Sample.db Sample.alice Sample.bob "S1"
           (SupermarketPatch.mk (Some "Fresher Mart") None (Some "Boston"))
           (Supermarket.mk "S1" "Fresher Mart" None "Boston" "u-alice" "u-alice"));
    reflexivity.
Defined.

(** ** Inventory rows: writing and resolving *)

Lemma of_pair_spec (supermarketId productId : string) (r : Inventory.t) :
  of_pair supermarketId productId r = true
  <-> pair_of r = (supermarketId, productId).
Proof.
  unfold of_pair, pair_of. rewrite andb_true_iff, !String.eqb_eq.
  split; [intros [-> ->]; reflexivity|intros H; injection H; auto].
Qed.

Lemma pair_not_in (supermarketId productId : string) (l : list Inventory.t) :
  existsb (of_pair supermarketId productId) l = false ->
  ~ In (supermarketId, productId) (map pair_of l).
Proof.
  intros H Hin. apply in_map_iff in Hin. destruct Hin as (x & Hx & Hin).
  apply of_pair_spec in Hx.
  rewrite (existsb_false_In _ _ H x Hin) in Hx. discriminate.
Qed.

Lemma In_replace_first_unique (supermarketId productId : string)
    (new : Inventory.t) (l : list Inventory.t) (x : Inventory.t) :
  NoDup (map pair_of l) ->
  In x (replace_first (of_pair supermarketId productId) new l) ->
  x = new \/ (In x l /\ of_pair supermarketId productId x = false).
Proof.
  induction l as [|y l IH]; simpl; intros Hnd Hin; [destruct Hin|].
  inversion Hnd as [|? ? Hnot Hrest]; subst.
  destruct (of_pair supermarketId productId y) eqn:Hy; simpl in Hin.
  - destruct Hin as [<-|Hin]; [now left|]. right. split; [now right|].
    destruct (of_pair supermarketId productId x) eqn:Hx; [|reflexivity].
    exfalso. apply Hnot. apply of_pair_spec in Hy, Hx. rewrite Hy, <- Hx.
    now apply in_map.
  - destruct Hin as [<-|Hin]; [right; split; [now left|exact Hy]|].
    destruct (IH Hrest Hin) as [->|[Hl Hx]]; [now left|].
    right. split; [now right|exact Hx].
Qed.

Lemma patch_inventory_updated (db : Store) (user : User.t)
    (supermarketId productId : string) (reqBody : InventoryPatch.t) (now : Z)
    (r' : Inventory.t) (db' : Store) :
  patch_inventory db user supermarketId productId reqBody now
  = (send_json (Data r'), db') ->
  exists r u,
    find_inventory db supermarketId productId = Some r
    /\ find_user db (User.userId user) = Some u
    /\ r' = Inventory.mk (Inventory.supermarketId r) (Inventory.productId r)
              (or_else (InventoryPatch.price reqBody) (Inventory.price r))
              (or_else (InventoryPatch.inStock reqBody) (Inventory.inStock r))
              now u (Inventory.supermarket r) (Inventory.product r)
    /\ db' = set_inventory db
               (replace_first (of_pair supermarketId productId) r'
                  (inventory db)).
Proof.
  unfold patch_inventory.
  destruct (negb (User.role user =? "ADMIN") && negb (User.role user =? "VERIFIED"));
    [discriminate|].
  unfold inventory_update.
  destruct (find_inventory db supermarketId productId) as [r|]; [|discriminate].
  destruct (find_user db (User.userId user)) as [u|]; [|discriminate].
  intros H. injection H as <- <-. now exists r, u.
Qed.

Lemma offer_found_below (db : Store) (caller : User.t) (productId city : string)
    (r : Inventory.t) :
  includes allowedRoles (User.role caller) = true ->
  is_offer db productId city r ->
  exists listing,
    get_cheapest db caller productId city = json (ListingBody listing)
    /\ price_le (Listing.price listing) (Inventory.price r) = true.
Proof.
  intros Hcaller Hoffer. unfold get_cheapest. rewrite Hcaller. simpl.
  destruct (inventory_findFirst db productId city) as [r0|] eqn:Hf.
  - eexists. split; [reflexivity|]. simpl.
    now apply (findFirst_some _ _ _ _ Hf).
  - exfalso. apply (proj1 (findFirst_none db productId city) Hf r Hoffer).
Qed.

(** X11.  When [PATCH /inventory/:supermarketId/:productId] answers 200 for
    a body with [inStock: true], the product has an offer in the city of
    that supermarket: the cheapest-listing route answers 200 there, with a
    price that is not above the price of the patched row, which is the price
    of the body when the body carries one. *)
Theorem restocked_row_bounds_the_cheapest
    (db : Store) (user caller : User.t) (supermarketId productId : string)
    (reqBody : InventoryPatch.t) (now : Z) (r' : Inventory.t) (db' : Store) :
  patch_inventory db user supermarketId productId reqBody now
  = (send_json (Data r'), db') ->
  InventoryPatch.inStock reqBody = Some true ->
  includes allowedRoles (User.role caller) = true ->
  (forall price, InventoryPatch.price reqBody = Some price ->
                 Inventory.price r' = price)
  /\ exists listing,
       get_cheapest db' caller productId
         (Supermarket.city (Inventory.supermarket r'))
       = json (ListingBody listing)
       /\ price_le (Listing.price listing) (Inventory.price r') = true.
Proof.
  intros Hpatch Hstock Hcaller. apply patch_inventory_updated in Hpatch.
  destruct Hpatch as (r & u & Hr & Hu & Hr' & ->).
  split.
  { intros price Hprice. rewrite Hr'. simpl. now rewrite Hprice. }
  apply offer_found_below; [exact Hcaller|].
  unfold find_inventory in Hr. pose proof (find_some _ _ Hr) as [_ Hpair].
  apply of_pair_spec in Hpair. injection Hpair as _ Hpid.
  unfold is_offer. simpl. split.
  - exact (In_new_replace_first _ r' _ r Hr).
  - rewrite Hr'. simpl. rewrite Hstock. simpl. now repeat split.
Qed.

Lemma restocked_row_bounds_the_cheapest_witness :
  exists listing,
    get_cheapest
      (snd (patch_inventory Sample.db Sample.bob "S2" "P1"
              (InventoryPatch.mk None (Some true)) 4000))
      Sample.carol "P1" "New York"
    = json (ListingBody listing)
    /\ price_le (Listing.price listing) (JS.literal false 320 100) = true.
Proof.
  apply (restocked_row_bounds_the_cheapest Sample.db Sample.bob Sample.carol
           "S2" "P1" (InventoryPatch.mk None (Some true)) 4000
           (Inventory.mk "S2" "P1" (JS.literal false 320 100) true 4000
              Sample.bob Sample.budget_foods Sample.milk)
           _ eq_refl eq_refl eq_refl).
Defined.

(** X12.  When [PATCH /inventory/:supermarketId/:productId] answers 200 for
    a body with [inStock: false] and the table has one row per pair, the
    supermarket no longer offers the product: every offer of the product
    that is left was an offer before and comes from another supermarket. *)
Theorem row_out_of_stock_is_no_offer
    (db : Store) (user : User.t) (supermarketId productId : string)
    (reqBody : InventoryPatch.t) (now : Z) (r' : Inventory.t) (db' : Store) :
  patch_inventory db user supermarketId productId reqBody now
  = (send_json (Data r'), db') ->
  InventoryPatch.inStock reqBody = Some false ->
  pairs_unique db ->
  forall city r,
    is_offer db' productId city r ->
    Inventory.supermarketId r <> supermarketId
    /\ is_offer db productId city r.
Proof.
  intros Hpatch Hstock Hunique city r (Hin & Hpid & Hin_stock & Hcity).
  apply patch_inventory_updated in Hpatch.
  destruct Hpatch as (r0 & u & Hr0 & Hu & Hr' & ->). simpl in Hin.
  destruct (In_replace_first_unique _ _ _ _ _ Hunique Hin) as [->|[Hl Hpair]].
  - rewrite Hr' in Hin_stock. simpl in Hin_stock. rewrite Hstock in Hin_stock.
    discriminate.
  - split; [|now repeat split].
    intros Hsid. unfold of_pair in Hpair.
    rewrite Hsid, Hpid, !String.eqb_refl in Hpair. discriminate.
Qed.

Lemma row_out_of_stock_is_no_offer_witness :
  Inventory.supermarketId
    (Sample.row Sample.budget_foods Sample.cheese 120 100 true Sample.bob)
  <> "S1"
  /\ is_offer Sample.db "P4" "New York"
       (Sample.row Sample.budget_foods Sample.cheese 120 100 true Sample.bob).
Proof.
  apply (row_out_of_stock_is_no_offer Sample.db Sample.bob "S1" "P4"
           (InventoryPatch.mk None (Some false)) 4000
           (Inventory.mk "S1" "P4" (JS.literal false 1155 1000) false 4000
              Sample.bob Sample.fresh_mart Sample.cheese)
           _ eq_refl eq_refl).
  - unfold pairs_unique. simpl.
    repeat constructor; simpl; intuition discriminate.
  - repeat split. vm_compute. tauto.
Defined.

Lemma NoDup_map_filter {A B : Type} (f : A -> bool) (g : A -> B) (l : list A) :
  NoDup (map g l) -> NoDup (map g (filter f l)).
Proof.
  induction l as [|y l IH]; simpl; intros H; [constructor|].
  inversion H as [|? ? Hnot Hrest]; subst.
  destruct (f y); simpl; [|now apply IH].
  constructor; [|now apply IH].
  intros Hin. apply Hnot. apply in_map_iff in Hin.
  destruct Hin as (q & Hq & Hin). apply in_map_iff. exists q.
  split; [exact Hq|]. apply filter_In in Hin. tauto.
Qed.

(** X13.  A table with one inventory row per (supermarket, product) pair is
    still such a table after any request to the routes that write inventory
    rows, and after the deletion of a product or a supermarket under either
    policy; a POST for a pair that has a row is answered 500 and changes
    nothing. *)
Theorem inventory_pairs_stay_unique
    (product_onDelete supermarket_onDelete : ReferentialAction)
    (inStock_default : bool) (db : Store) (user : User.t)
    (supermarketId productId : string) (reqBody : NewInventory.t)
    (patch : InventoryPatch.t) (now : Z) :
  pairs_unique db ->
  pairs_unique (snd (post_inventory inStock_default db user reqBody now))
  /\ pairs_unique
       (snd (patch_inventory db user supermarketId productId patch now))
  /\ pairs_unique (snd (delete_inventory db user supermarketId productId))
  /\ pairs_unique (snd (delete_product product_onDelete db user productId))
  /\ pairs_unique
       (snd (delete_supermarket supermarket_onDelete db user supermarketId))
  /\ (NewInventory.supermarketId reqBody = Some supermarketId ->
      NewInventory.productId reqBody = Some productId ->
      In (supermarketId, productId) (map pair_of (inventory db)) ->
      User.role user = "VERIFIED" \/ User.role user = "ADMIN" ->
      post_inventory inStock_default db user reqBody now
      = (send 500
           (Failure "An error occurred while creating the inventory entry."),
         db)).
Proof.
  intros Hunique. unfold pairs_unique in *.
  split; [|split; [|split; [|split; [|split]]]].
  - unfold post_inventory.
    destruct (negb (User.role user =? "VERIFIED") && negb (User.role user =? "ADMIN"));
      [exact Hunique|].
    unfold inventory_create.
    destruct (NewInventory.price reqBody) as [price|]; [|exact Hunique].
    destruct (NewInventory.productId reqBody) as [pid|]; [|exact Hunique].
    destruct (NewInventory.supermarketId reqBody) as [sid|]; [|exact Hunique].
    destruct (find_product db pid) as [p|] eqn:Hp; [|exact Hunique].
    destruct (find_supermarket db sid) as [s|] eqn:Hs; [|exact Hunique].
    destruct (find_user db (User.userId user)) as [u|]; [|exact Hunique].
    destruct (existsb (of_pair sid pid) (inventory db)) eqn:Hfresh;
      [exact Hunique|].
    simpl. apply NoDup_map_app_fresh; [exact Hunique|].
    unfold pair_of at 1. simpl.
    unfold find_product in Hp. apply find_some in Hp. destruct Hp as [_ Hp].
    unfold find_supermarket in Hs. apply find_some in Hs. destruct Hs as [_ Hs].
    apply String.eqb_eq in Hp, Hs. rewrite Hp, Hs. now apply pair_not_in.
  - unfold patch_inventory.
    destruct (negb (User.role user =? "ADMIN") && negb (User.role user =? "VERIFIED"));
      [exact Hunique|].
    unfold inventory_update.
    destruct (find_inventory db supermarketId productId) as [r|] eqn:Hr;
      [|exact Hunique].
    destruct (find_user db (User.userId user)) as [u|]; [|exact Hunique].
    simpl. rewrite map_replace_first_same; [exact Hunique|].
    intros x _ Hx. apply of_pair_spec in Hx. rewrite Hx.
    unfold find_inventory in Hr. apply find_some in Hr. destruct Hr as [_ Hr].
    apply of_pair_spec in Hr. exact (eq_sym Hr).
  - unfold delete_inventory.
    destruct (negb (User.role user =? "ADMIN")); [exact Hunique|].
    unfold inventory_delete.
    destruct (find_inventory db supermarketId productId); [|exact Hunique].
    simpl. now apply NoDup_map_remove_first.
  - unfold delete_product.
    destruct (negb (User.role user =? "ADMIN")); [exact Hunique|].
    unfold product_delete.
    destruct (find_product db productId); [|exact Hunique].
    destruct product_onDelete; simpl.
    + now apply NoDup_map_filter.
    + destruct (existsb (of_product productId) (inventory db)); exact Hunique.
  - unfold delete_supermarket.
    destruct (negb (User.role user =? "ADMIN")); [exact Hunique|].
    unfold supermarket_delete.
    destruct (find_supermarket db supermarketId); [|exact Hunique].
    destruct supermarket_onDelete; simpl.
    + now apply NoDup_map_filter.
    + destruct (existsb (of_supermarket supermarketId) (inventory db));
        exact Hunique.
  - intros Hsid Hpid Hin Hrole. unfold post_inventory.
    assert (Hrole_ok : negb (User.role user =? "VERIFIED")
                       && negb (User.role user =? "ADMIN") = false).
    { destruct Hrole as [-> | ->]; reflexivity. }
    rewrite Hrole_ok. unfold inventory_create. rewrite Hsid, Hpid.
    destruct (NewInventory.price reqBody) as [price|]; [|reflexivity].
    destruct (find_product db productId); [|reflexivity].
    destruct (find_supermarket db supermarketId); [|reflexivity].
    destruct (find_user db (User.userId user)); [|reflexivity].
    destruct (existsb (of_pair supermarketId productId) (inventory db))
      eqn:Hfresh; [reflexivity|].
    exfalso. exact (pair_not_in _ _ _ Hfresh Hin).
Qed.

Lemma inventory_pairs_stay_unique_witness :
  pairs_unique
    (snd (post_inventory true Sample.db Sample.alice
            (NewInventory.mk (Some (JS.literal false 249 100)) (Some "P2")
               (Some "S1")) 4000))
  /\ post_inventory true Sample.db Sample.bob
       (NewInventory.mk (Some (JS.literal false 249 100)) (Some "P1") (Some "S1"))
       4000
     = (send 500
          (Failure "An error occurred while creating the inventory entry."),
        Sample.db).
Proof.
  assert (Hunique : pairs_unique Sample.db).
  { unfold pairs_unique. simpl.
    repeat constructor; simpl; intuition discriminate. }
  split.
  - apply (inventory_pairs_stay_unique Cascade Cascade true Sample.db
             Sample.alice "S1" "P2"
             (NewInventory.mk (Some (JS.literal false 249 100)) (Some "P2")
                (Some "S1"))
             (InventoryPatch.mk None None) 4000 Hunique).
  - apply (inventory_pairs_stay_unique Cascade Cascade true Sample.db
             Sample.bob "S1" "P1"
             (NewInventory.mk (Some (JS.literal false 249 100)) (Some "P1")
                (Some "S1"))
             (InventoryPatch.mk None None) 4000 Hunique).
    + reflexivity.
    + reflexivity.
    + simpl. tauto.
    + left. reflexivity.
Defined.

Lemma post_inventory_created (inStock_default : bool) (db : Store)
    (user : User.t) (reqBody : NewInventory.t) (now : Z)
    (c : CreatedInventory.t) (db' : Store) :
  post_inventory inStock_default db user reqBody now = (send 201 (Data c), db') ->
  exists price productId supermarketId p s u,
    NewInventory.price reqBody = Some price
    /\ NewInventory.productId reqBody = Some productId
    /\ NewInventory.supermarketId reqBody = Some supermarketId
    /\ find_product db productId = Some p
    /\ find_supermarket db supermarketId = Some s
    /\ find_user db (User.userId user) = Some u
    /\ existsb (of_pair supermarketId productId) (inventory db) = false
    /\ c = CreatedInventory.mk
             (Inventory.mk supermarketId productId price inStock_default now u s p)
             (User.userId user) (Product.productName p)
             (Supermarket.supermarketName s)
    /\ db' = set_inventory db
               (inventory db
                  ++ [Inventory.mk supermarketId productId price
                        inStock_default now u s p])%list.
Proof.
  unfold post_inventory.
  destruct (negb (User.role user =? "VERIFIED") && negb (User.role user =? "ADMIN"));
    [discriminate|].
  unfold inventory_create.
  destruct (NewInventory.price reqBody) as [price|]; [|discriminate].
  destruct (NewInventory.productId reqBody) as [pid|]; [|discriminate].
  destruct (NewInventory.supermarketId reqBody) as [sid|]; [|discriminate].
  destruct (find_product db pid) as [p|] eqn:Hp; [|discriminate].
  destruct (find_supermarket db sid) as [s|] eqn:Hs; [|discriminate].
  destruct (find_user db (User.userId user)) as [u|] eqn:Hu; [|discriminate].
  destruct (existsb (of_pair sid pid) (inventory db)) eqn:Hfresh;
    [discriminate|].
  intros H. injection H as <- <-.
  pose proof (find_some _ _ Hp) as [_ Hpid].
  pose proof (find_some _ _ Hs) as [_ Hsid].
  apply String.eqb_eq in Hpid, Hsid. simpl in Hpid, Hsid.
  exists price, pid, sid, p, s, u. rewrite Hpid, Hsid.
  repeat split; assumption.
Qed.

(** X14.  An inventory row that [POST /inventory] answers 201 for carries
    the price, product and supermarket of the request and the product and
    supermarket rows stored under those identifiers, whose names the
    response repeats.  It is listed among the rows of its supermarket, and
    when rows are created in stock the cheapest-listing route answers 200
    for the product in the supermarket's city with a price that is not above
    the posted one. *)
Theorem posted_row_is_listed
    (inStock_default : bool) (db : Store) (user caller : User.t)
    (reqBody : NewInventory.t) (now : Z) (c : CreatedInventory.t) (db' : Store) :
  post_inventory inStock_default db user reqBody now = (send 201 (Data c), db') ->
  let r := CreatedInventory.newInventory c in
  NewInventory.price reqBody = Some (Inventory.price r)
  /\ NewInventory.productId reqBody = Some (Inventory.productId r)
  /\ NewInventory.supermarketId reqBody = Some (Inventory.supermarketId r)
  /\ find_product db (Inventory.productId r) = Some (Inventory.product r)
  /\ find_supermarket db (Inventory.supermarketId r)
     = Some (Inventory.supermarket r)
  /\ CreatedInventory.productName c = Product.productName (Inventory.product r)
  /\ CreatedInventory.supermarketName c
     = Supermarket.supermarketName (Inventory.supermarket r)
  /\ Inventory.inStock r = inStock_default
  /\ find_inventory db' (Inventory.supermarketId r) (Inventory.productId r)
     = Some r
  /\ (forall scan,
        keeps_rows scan ->
        exists views,
          get_inventory_of_supermarket scan db' (Inventory.supermarketId r)
          = send_json (Data views)
          /\ In (inventory_view r) views)
  /\ (inStock_default = true ->
      includes allowedRoles (User.role caller) = true ->
      exists listing,
        get_cheapest db' caller (Inventory.productId r)
          (Supermarket.city (Inventory.supermarket r))
        = json (ListingBody listing)
        /\ price_le (Listing.price listing) (Inventory.price r) = true).
Proof.
  intros Hpost. apply post_inventory_created in Hpost.
  destruct Hpost as (price & pid & sid & p & s & u & Hprice & Hpid & Hsid
                     & Hp & Hs & Hu & Hfresh & -> & ->).
  cbv zeta.
  cbn [CreatedInventory.newInventory CreatedInventory.productName
       CreatedInventory.supermarketName Inventory.price Inventory.productId
       Inventory.supermarketId Inventory.product Inventory.supermarket
       Inventory.inStock].
  set (r := Inventory.mk sid pid price inStock_default now u s p).
  assert (Hlast : In r (inventory db ++ [r])%list)
    by (apply in_or_app; right; now left).
  repeat (split; [first [assumption|reflexivity]|]).
  split; [|split].
  - unfold find_inventory. cbn [set_inventory inventory].
    apply find_app_fresh; [exact Hfresh|].
    unfold of_pair, r. cbn [Inventory.supermarketId Inventory.productId].
    now rewrite !String.eqb_refl.
  - intros scan Hscan.
    unfold get_inventory_of_supermarket. cbn [set_inventory inventory].
    assert (Hin : In r (scan _ (filter (of_supermarket sid) (inventory db ++ [r])))).
    { apply scan_In; [exact Hscan|]. apply filter_In. split; [exact Hlast|].
      unfold of_supermarket, r. cbn [Inventory.supermarketId].
      apply String.eqb_refl. }
    destruct (scan _ (filter (of_supermarket sid) (inventory db ++ [r])))
      as [|x l] eqn:Hf; [destruct Hin|].
    eexists. split; [reflexivity|]. now apply in_map.
  - intros Hdefault Hcaller.
    apply (offer_found_below _ caller pid (Supermarket.city s) r Hcaller).
    unfold is_offer. cbn [set_inventory inventory]. split; [exact Hlast|].
    unfold r. cbn [Inventory.productId Inventory.inStock Inventory.supermarket].
    now repeat split.
Qed.

Lemma posted_row_is_listed_witness :
  find_inventory
    (snd (post_inventory true Sample.db Sample.bob
            (NewInventory.mk (Some (JS.literal false 249 100)) (Some "P2")
               (Some "S1")) 4000))
    "S1" "P2"
  = Some (Inventory.mk "S1" "P2" (JS.literal false 249 100) true 4000
            Sample.bob Sample.fresh_mart Sample.bread).
Proof.
  apply (posted_row_is_listed true Sample.db Sample.bob Sample.carol
           (NewInventory.mk (Some (JS.literal false 249 100)) (Some "P2")
              (Some "S1")) 4000
           (CreatedInventory.mk
              (Inventory.mk "S1" "P2" (JS.literal false 249 100) true 4000
                 Sample.bob Sample.fresh_mart Sample.bread)
              "u-bob" "Bread" "Fresh Mart")
           _ eq_refl).
Defined.

Lemma findFirst_same_offers (db db' : Store) (productId city : string) :
  filter (offer_where productId city) (inventory db')
  = filter (offer_where productId city) (inventory db) ->
  inventory_findFirst db' productId city = inventory_findFirst db productId city.
Proof. unfold inventory_findFirst. now intros ->. Qed.

Lemma other_product_no_offer (productId other city : string) (r : Inventory.t) :
  other <> productId -> Inventory.productId r = productId ->
  offer_where other city r = false.
Proof.
  intros Hother Hr. unfold offer_where. rewrite Hr.
  apply String.eqb_neq in Hother. rewrite String.eqb_sym, Hother. reflexivity.
Qed.

(** X15.  Writing the inventory row of one product leaves the other products
    alone: whatever [POST /inventory] for the product and
    [PATCH] or [DELETE /inventory/:supermarketId/:productId] answer, the
    cheapest offer found for any other product in any city is the one found
    before, so the cheapest-listing route and the resolver answer for it as
    before. *)
Theorem inventory_writes_leave_other_products
    (inStock_default : bool) (db : Store) (user caller : User.t)
    (supermarketId productId other city : string)
    (reqBody : NewInventory.t) (patch : InventoryPatch.t) (now : Z)
    (quantity : JS.Number) :
  other <> productId ->
  let unchanged (db' : Store) :=
    get_cheapest db' caller other city = get_cheapest db caller other city
    /\ resolve_item db' city (Item.mk other quantity)
       = resolve_item db city (Item.mk other quantity) in
  (NewInventory.productId reqBody = Some productId ->
   unchanged (snd (post_inventory inStock_default db user reqBody now)))
  /\ unchanged (snd (patch_inventory db user supermarketId productId patch now))
  /\ unchanged (snd (delete_inventory db user supermarketId productId)).
Proof.
  intros Hother unchanged.
  assert (Hfrom : forall db',
             inventory_findFirst db' other city
             = inventory_findFirst db other city -> unchanged db').
  { intros db' H. unfold unchanged, get_cheapest, resolve_item. simpl.
    now rewrite H. }
  assert (Hpair : forall x, of_pair supermarketId productId x = true ->
                            offer_where other city x = false).
  { intros x Hx. apply of_pair_spec in Hx. injection Hx as _ Hx.
    now apply (other_product_no_offer productId). }
  split; [|split].
  - intros Hbody. apply Hfrom. unfold post_inventory.
    destruct (negb (User.role user =? "VERIFIED") && negb (User.role user =? "ADMIN"));
      [reflexivity|].
    unfold inventory_create. rewrite Hbody.
    destruct (NewInventory.price reqBody) as [price|]; [|reflexivity].
    destruct (NewInventory.supermarketId reqBody) as [sid|]; [|reflexivity].
    destruct (find_product db productId) as [p|] eqn:Hp; [|reflexivity].
    destruct (find_supermarket db sid) as [s|]; [|reflexivity].
    destruct (find_user db (User.userId user)) as [u|]; [|reflexivity].
    destruct (existsb (of_pair sid productId) (inventory db)); [reflexivity|].
    apply findFirst_same_offers. cbn [snd set_inventory inventory].
    rewrite filter_app. cbn [filter].
    rewrite (other_product_no_offer productId other city).
    + apply app_nil_r.
    + exact Hother.
    + cbn [Inventory.productId]. pose proof (find_some _ _ Hp) as [_ Hid].
      now apply String.eqb_eq in Hid.
  - apply Hfrom. unfold patch_inventory.
    destruct (negb (User.role user =? "ADMIN") && negb (User.role user =? "VERIFIED"));
      [reflexivity|].
    unfold inventory_update.
    destruct (find_inventory db supermarketId productId) as [r|] eqn:Hr;
      [|reflexivity].
    destruct (find_user db (User.userId user)) as [u|]; [|reflexivity].
    apply findFirst_same_offers. cbn [snd set_inventory inventory].
    apply filter_replace_first_other.
    + apply (other_product_no_offer productId); [exact Hother|].
      cbn [Inventory.productId]. pose proof (find_some _ _ Hr) as [_ Hx].
      apply of_pair_spec in Hx. now injection Hx.
    + intros x _. apply Hpair.
  - apply Hfrom. unfold delete_inventory.
    destruct (negb (User.role user =? "ADMIN")); [reflexivity|].
    unfold inventory_delete.
    destruct (find_inventory db supermarketId productId); [|reflexivity].
    apply findFirst_same_offers. cbn [snd set_inventory inventory].
    apply filter_remove_first_other. intros x _. apply Hpair.
Qed.

Lemma inventory_writes_leave_other_products_witness :
  get_cheapest
    (snd (patch_inventory Sample.db Sample.bob "S1" "P4"
            (InventoryPatch.mk (Some (JS.literal false 99 100)) None) 4000))
    Sample.carol "P1" "New York"
  = get_cheapest Sample.db Sample.carol "P1" "New York"
  /\ get_cheapest (snd (delete_inventory Sample.db Sample.alice "S1" "P4"))
       Sample.carol "P1" "New York"
     = get_cheapest Sample.db Sample.carol "P1" "New York".
Proof.
  split.
  - apply (inventory_writes_leave_other_products true Sample.db Sample.bob
             Sample.carol "S1" "P4" "P1" "New York"
             (NewInventory.mk None None None)
             (InventoryPatch.mk (Some (JS.literal false 99 100)) None) 4000
             JS.zero).
    discriminate.
  - apply (inventory_writes_leave_other_products true Sample.db Sample.alice
             Sample.carol "S1" "P4" "P1" "New York"
             (NewInventory.mk None None None)
             (InventoryPatch.mk None None) 4000 JS.zero).
    discriminate.
Defined.

(** X16.  The listing of a supermarket's inventory answers 404 exactly when
    the supermarket has no row, where the listing of the whole inventory
    answers 200 with an empty list; otherwise it answers 200 with every row
    of the supermarket, in stock or not, and with no row of another
    supermarket. *)
Theorem supermarket_inventory_listing
    (scan : RowOrder) (db : Store) (supermarketId : string) :
  keeps_rows scan ->
  (get_inventory_of_supermarket scan db supermarketId
   = send 404 (Notice "No items found in the given supermarket.")
   <-> forall r, In r (inventory db) ->
                 Inventory.supermarketId r <> supermarketId)
  /\ (forall r,
        In r (inventory db) -> Inventory.supermarketId r = supermarketId ->
        exists views,
          get_inventory_of_supermarket scan db supermarketId
          = send_json (Data views)
          /\ In (inventory_view r) views
          /\ forall v, In v views ->
                       exists r', In r' (inventory db)
                                  /\ Inventory.supermarketId r' = supermarketId
                                  /\ v = inventory_view r')
  /\ (forall user,
        inventory db = [] -> get_inventory scan db user = send_json (Data [])).
Proof.
  intros Hscan.
  assert (Hrows : forall r,
             In r (scan _ (filter (of_supermarket supermarketId) (inventory db)))
             <-> In r (inventory db) /\ Inventory.supermarketId r = supermarketId).
  { intros r. rewrite (scan_In scan _ _ r Hscan), filter_In.
    unfold of_supermarket. now rewrite String.eqb_eq. }
  unfold get_inventory_of_supermarket. split; [|split].
  - destruct (scan _ (filter (of_supermarket supermarketId) (inventory db)))
      as [|x l].
    + split; [|reflexivity]. intros _ r Hin Hr.
      exact (proj2 (Hrows r) (conj Hin Hr)).
    + split; [discriminate|]. intros Hnone. exfalso.
      destruct (proj1 (Hrows x) (or_introl eq_refl)) as [Hin Hx].
      exact (Hnone x Hin Hx).
  - intros r Hin Hr.
    assert (Hx := proj2 (Hrows r) (conj Hin Hr)).
    destruct (scan _ (filter (of_supermarket supermarketId) (inventory db)))
      as [|x l]; [destruct Hx|].
    eexists. split; [reflexivity|]. split; [now apply in_map|].
    intros v Hv. apply in_map_iff in Hv. destruct Hv as (r' & <- & Hr').
    apply Hrows in Hr'. destruct Hr' as [Hr1 Hr2].
    exists r'. now repeat split.
  - intros user Hempty. unfold get_inventory. rewrite Hempty.
    now rewrite (proj2 (scan_nil scan _ [] Hscan) eq_refl).
Qed.

Lemma supermarket_inventory_listing_witness :
  exists views,
    get_inventory_of_supermarket Sample.newest_first Sample.db "S2"
    = send_json (Data views)
    /\ In (inventory_view
             (Sample.row Sample.budget_foods Sample.milk 320 100 false Sample.bob))
          views
    /\ forall v, In v views ->
                 exists r', In r' (inventory Sample.db)
                            /\ Inventory.supermarketId r' = "S2"
                            /\ v = inventory_view r'.
Proof.
  apply (proj1 (proj2 (supermarket_inventory_listing Sample.newest_first
                         Sample.db "S2" newest_first_keeps_rows))).
  - simpl. tauto.
  - reflexivity.
Defined.

(** ** Who may write *)

(** X17.  A caller whose role is neither VERIFIED nor ADMIN, a BASIC caller
    in particular, changes nothing: each of the nine routes that write
    answers 403 "Insufficient permissions." and leaves every table as it
    was, whatever the request carries. *)
Theorem callers_without_write_role_change_nothing
    (ProductCategory : list string)
    (product_onDelete supermarket_onDelete : ReferentialAction)
    (inStock_default : bool) (db : Store) (user : User.t)
    (id supermarketId productId newId : string) (now : Z)
    (product : ProductFields.t) (supermarket : SupermarketPatch.t)
    (row : NewInventory.t) (patch : InventoryPatch.t) :
  User.role user <> "VERIFIED" ->
  User.role user <> "ADMIN" ->
  post_product ProductCategory db user product newId now
  = (respond 403 (Message "Insufficient permissions."), db)
  /\ patch_product ProductCategory db user id product now
     = (respond 403 (Message "Insufficient permissions."), db)
  /\ delete_product product_onDelete db user id
     = (send 403 (Notice "Insufficient permissions."), db)
  /\ post_supermarket db user supermarket newId now
     = (send 403 (Notice "Insufficient permissions."), db)
  /\ patch_supermarket db user id supermarket
     = (respond 403 (Message "Insufficient permissions."), db)
  /\ delete_supermarket supermarket_onDelete db user id
     = (send 403 (Notice "Insufficient permissions."), db)
  /\ post_inventory inStock_default db user row now
     = (send 403 (Notice "Insufficient permissions."), db)
  /\ patch_inventory db user supermarketId productId patch now
     = (send 403 (Notice "Insufficient permissions."), db)
  /\ delete_inventory db user supermarketId productId
     = (send 403 (Notice "Insufficient permissions."), db).
Proof.
  intros Hv Ha. apply String.eqb_neq in Hv, Ha.
  unfold post_product, patch_product, delete_product, post_supermarket,
    patch_supermarket, delete_supermarket, post_inventory, patch_inventory,
    delete_inventory.
  rewrite Hv, Ha. simpl. repeat split.
Qed.

Lemma callers_without_write_role_change_nothing_witness :
  delete_inventory Sample.db Sample.carol "S1" "P1"
  = (send 403 (Notice "Insufficient permissions."), Sample.db).
Proof.
  apply (callers_without_write_role_change_nothing Sample.categories
           Cascade Cascade true Sample.db Sample.carol "P1" "S1" "P1" "P9" 0
           (ProductFields.mk None None None)
           (SupermarketPatch.mk None None None)
           (NewInventory.mk None None None) (InventoryPatch.mk None None));
    discriminate.
Defined.

Lemma find_app_some {A : Type} (f : A -> bool) (l : list A) (x : A) :
  find f l <> None -> find f (l ++ [x]) <> None.
Proof.
  induction l as [|y l IH]; simpl; [congruence|].
  destruct (f y); [congruence|exact IH].
Qed.

Lemma find_replace_first_some {A : Type} (f g : A -> bool) (l : list A)
    (x new : A) :
  find f l = Some x -> g new = g x ->
  find g l <> None -> find g (replace_first f new l) <> None.
Proof.
  intros Hf Hg Hsome.
  destruct (find g l) as [q|] eqn:Hq; [|congruence].
  destruct (find_replace_first_other (fun _ _ => True) f g l x new
              (fun _ => I) Hf Hg I q Hq) as [q' [Hq' _]].
  congruence.
Qed.

Lemma nothing_removed_refl (db : Store) : nothing_removed db db.
Proof. unfold nothing_removed. auto. Qed.

Lemma find_map_some {A : Type} (f : A -> bool) (g : A -> A) (l : list A) :
  (forall x, f (g x) = f x) -> find f l <> None -> find f (map g l) <> None.
Proof.
  intros Hg. induction l as [|y l IH]; simpl; [congruence|].
  rewrite Hg. destruct (f y); [congruence|exact IH].
Qed.

Lemma of_pair_join_product (supermarketId productId : string) (p : Product.t)
    (r : Inventory.t) :
  of_pair supermarketId productId (join_product p r)
  = of_pair supermarketId productId r.
Proof.
  unfold join_product.
  destruct (Inventory.productId r =? Product.productId p); reflexivity.
Qed.

(** X18.  A VERIFIED caller removes nothing and leaves the supermarkets
    alone: the three DELETE routes and the two routes that write
    supermarkets answer 403 and change nothing, and whatever the routes that
    create or update products and inventory rows answer, the users and the
    supermarkets are the same afterwards and every product identifier and
    every inventory pair that was found is still found. *)
Theorem verified_caller_removes_nothing
    (ProductCategory : list string)
    (product_onDelete supermarket_onDelete : ReferentialAction)
    (inStock_default : bool) (db : Store) (user : User.t)
    (id supermarketId productId newId : string) (now : Z)
    (product : ProductFields.t) (supermarket : SupermarketPatch.t)
    (row : NewInventory.t) (patch : InventoryPatch.t) :
  User.role user = "VERIFIED" ->
  delete_product product_onDelete db user id
  = (send 403 (Notice "Insufficient permissions."), db)
  /\ delete_supermarket supermarket_onDelete db user id
     = (send 403 (Notice "Insufficient permissions."), db)
  /\ delete_inventory db user supermarketId productId
     = (send 403 (Notice "Insufficient permissions."), db)
  /\ post_supermarket db user supermarket newId now
     = (send 403 (Notice "Insufficient permissions."), db)
  /\ patch_supermarket db user id supermarket
     = (respond 403 (Message "Insufficient permissions."), db)
  /\ nothing_removed db
       (snd (post_product ProductCategory db user product newId now))
  /\ nothing_removed db
       (snd (patch_product ProductCategory db user id product now))
  /\ nothing_removed db (snd (post_inventory inStock_default db user row now))
  /\ nothing_removed db
       (snd (patch_inventory db user supermarketId productId patch now)).
Proof.
  intros Hrole.
  unfold delete_product, delete_supermarket, delete_inventory,
    post_supermarket, patch_supermarket.
  rewrite Hrole. cbn [String.eqb Ascii.eqb Bool.eqb negb andb].
  repeat (split; [reflexivity|]).
  split; [|split; [|split]].
  - unfold post_product. rewrite Hrole.
    cbn [String.eqb Ascii.eqb Bool.eqb negb andb].
    destruct (product_findUnique_name db (ProductFields.productName product))
      as [[existing|]|]; try apply nothing_removed_refl.
    unfold product_create.
    destruct (ProductFields.productName product); [|apply nothing_removed_refl].
    destruct (ProductFields.productCategory product);
      [|apply nothing_removed_refl].
    destruct (find_user db (User.userId user)); [|apply nothing_removed_refl].
    destruct (_ && _); [|apply nothing_removed_refl].
    unfold nothing_removed, find_product, find_inventory. simpl.
    repeat split; auto. intros id'. apply find_app_some.
  - unfold patch_product. rewrite Hrole.
    cbn [String.eqb Ascii.eqb Bool.eqb negb andb].
    unfold product_update.
    destruct (find_product db id) as [p|] eqn:Hp; [|apply nothing_removed_refl].
    destruct (find_user db _); [|apply nothing_removed_refl].
    destruct (_ && _); [|apply nothing_removed_refl].
    unfold nothing_removed, find_product, find_inventory in *. simpl.
    repeat split; auto.
    + intros id'. now apply (find_replace_first_some _ _ _ p).
    + intros sid' pid'. apply find_map_some. apply of_pair_join_product.
  - unfold post_inventory. rewrite Hrole.
    cbn [String.eqb Ascii.eqb Bool.eqb negb andb].
    unfold inventory_create.
    destruct (NewInventory.price row); [|apply nothing_removed_refl].
    destruct (NewInventory.productId row); [|apply nothing_removed_refl].
    destruct (NewInventory.supermarketId row); [|apply nothing_removed_refl].
    destruct (find_product db _); [|apply nothing_removed_refl].
    destruct (find_supermarket db _); [|apply nothing_removed_refl].
    destruct (find_user db _); [|apply nothing_removed_refl].
    destruct (existsb _ _); [apply nothing_removed_refl|].
    unfold nothing_removed, find_product, find_inventory. simpl.
    repeat split; auto. intros sid' pid'. apply find_app_some.
  - unfold patch_inventory. rewrite Hrole.
    cbn [String.eqb Ascii.eqb Bool.eqb negb andb].
    unfold inventory_update.
    destruct (find_inventory db supermarketId productId) as [r|] eqn:Hr;
      [|apply nothing_removed_refl].
    destruct (find_user db _); [|apply nothing_removed_refl].
    unfold nothing_removed, find_product, find_inventory in *. simpl.
    repeat split; auto. intros sid' pid'.
    now apply (find_replace_first_some _ _ _ r).
Qed.

Lemma verified_caller_removes_nothing_witness :
  delete_product Restrict Sample.db Sample.bob "P1"
  = (send 403 (Notice "Insufficient permissions."), Sample.db)
  /\ nothing_removed Sample.db
       (snd (patch_inventory Sample.db Sample.bob "S1" "P1"
               (InventoryPatch.mk (Some (JS.literal false 1 1)) (Some false))
               4000)).
Proof.
  destruct (verified_caller_removes_nothing Sample.categories Restrict Restrict
              true Sample.db Sample.bob "P1" "S1" "P1" "P9" 4000
              (ProductFields.mk None None None)
              (SupermarketPatch.mk None None None)
              (NewInventory.mk None None None)
              (InventoryPatch.mk (Some (JS.literal false 1 1)) (Some false))
              eq_refl) as (H1 & _ & _ & _ & _ & _ & _ & _ & H9).
  split; [exact H1|exact H9].
Defined.

(** ** The category listing *)

Lemma cheapest_offers_found (db : Store) (productId city : string) :
  cheapest_offers db productId city
  = match inventory_findFirst db productId city with
    | Some r => [(Inventory.price r,
                  Supermarket.supermarketName (Inventory.supermarket r))]
    | None => []
    end.
Proof.
  unfold cheapest_offers, inventory_findFirst.
  destruct (orderBy_asc Inventory.price
              (filter (offer_where productId city) (inventory db)));
    reflexivity.
Qed.

Lemma existsb_offer_found (db : Store) (productId city : string) :
  existsb (offer_where productId city) (inventory db) = true <->
  exists r, inventory_findFirst db productId city = Some r.
Proof.
  split.
  - intros H. apply existsb_exists in H. destruct H as (x & Hin & Hx).
    destruct (inventory_findFirst db productId city) as [r|] eqn:Hf;
      [now exists r|].
    exfalso. apply (proj1 (findFirst_none db productId city) Hf x).
    unfold is_offer. apply offer_where_spec in Hx. tauto.
  - intros [r Hr]. apply findFirst_some in Hr. destruct Hr as [(Hin & Ho) _].
    apply existsb_exists. exists r. split; [exact Hin|].
    now apply offer_where_spec.
Qed.

(** X19.  The category listing refuses every caller who is neither ADMIN nor
    VERIFIED with 403, and answers 400 "Invalid product category." to the
    others when the category is not a value of the enum.  For a value of the
    enum it answers 200 with one entry for each product of the category that
    has an offer in the city and for no other product; an entry carries the
    product's name and exactly one inventory row, the price and supermarket
    name of the offer the cheapest-listing query finds, whose price is not
    above that of any offer of the product in the city. *)
Theorem category_listing_entries
    (ProductCategory : list string) (scan : RowOrder) (db : Store)
    (user : User.t) (city productCategory : string) :
  (User.role user <> "ADMIN" -> User.role user <> "VERIFIED" ->
   get_category ProductCategory scan db user city productCategory
   = send 403 (Notice "Insufficient permissions."))
  /\ (User.role user = "ADMIN" \/ User.role user = "VERIFIED" ->
      includes ProductCategory productCategory = false ->
      get_category ProductCategory scan db user city productCategory
      = send 400 (Notice "Invalid product category."))
  /\ (User.role user = "ADMIN" \/ User.role user = "VERIFIED" ->
      includes ProductCategory productCategory = true ->
      productCategory <> "" ->
      keeps_rows scan ->
      exists entries,
        get_category ProductCategory scan db user city productCategory
        = send_json (Data entries)
        /\ (forall e,
              In e entries ->
              exists p r,
                In p (products db)
                /\ Product.productCategory p = productCategory
                /\ CategoryEntry.productName e = Product.productName p
                /\ inventory_findFirst db (Product.productId p) city = Some r
                /\ CategoryEntry.inventory e
                   = [(Inventory.price r,
                       Supermarket.supermarketName (Inventory.supermarket r))]
                /\ forall r', is_offer db (Product.productId p) city r' ->
                              price_le (Inventory.price r) (Inventory.price r')
                              = true)
        /\ (forall p r,
              In p (products db) ->
              Product.productCategory p = productCategory ->
              is_offer db (Product.productId p) city r ->
              exists e, In e entries
                        /\ CategoryEntry.productName e = Product.productName p)).
Proof.
  unfold get_category. split; [|split].
  - intros Ha Hv. apply String.eqb_neq in Ha, Hv. now rewrite Ha, Hv.
  - intros Hrole Hinvalid.
    assert (Hok : negb (User.role user =? "ADMIN")
                  && negb (User.role user =? "VERIFIED") = false).
    { destruct Hrole as [-> | ->]; reflexivity. }
    rewrite Hok. unfold toProductCategory. now rewrite Hinvalid.
  - intros Hrole Hvalid Hnonempty Hscan.
    assert (Hok : negb (User.role user =? "ADMIN")
                  && negb (User.role user =? "VERIFIED") = false).
    { destruct Hrole as [-> | ->]; reflexivity. }
    rewrite Hok. unfold toProductCategory. rewrite Hvalid.
    assert (Htruthy : JS.truthy (Some productCategory) = true).
    { destruct productCategory; [congruence|reflexivity]. }
    rewrite Htruthy. cbn [negb or_else].
    eexists. split; [reflexivity|]. split.
    + intros e He. apply in_map_iff in He. destruct He as (p & <- & Hp).
      apply (proj1 (scan_In scan _ _ p Hscan)) in Hp.
      apply filter_In in Hp. destruct Hp as [Hin Hp].
      apply andb_true_iff in Hp. destruct Hp as [Hcat Hoffer].
      apply String.eqb_eq in Hcat.
      apply existsb_offer_found in Hoffer. destruct Hoffer as [r Hr].
      exists p, r. rewrite cheapest_offers_found, Hr.
      repeat split; try assumption.
      now apply (findFirst_some _ _ _ _ Hr).
    + intros p r Hin Hcat Hoffer.
      exists (CategoryEntry.mk (Product.productName p)
                (cheapest_offers db (Product.productId p) city)).
      split; [|reflexivity].
      apply in_map_iff. exists p. split; [reflexivity|].
      apply (proj2 (scan_In scan _ _ p Hscan)).
      apply filter_In. split; [exact Hin|].
      apply andb_true_iff. split; [now apply String.eqb_eq|].
      apply existsb_exists. exists r. destruct Hoffer as (Hr & Ho).
      split; [exact Hr|]. now apply offer_where_spec.
Qed.

Lemma category_listing_entries_witness :
  get_category Sample.categories Sample.newest_first Sample.db Sample.carol "New York" "DAIRY"
  = send 403 (Notice "Insufficient permissions.")
  /\ get_category Sample.categories Sample.newest_first Sample.db Sample.bob "New York" "FROZEN"
     = send 400 (Notice "Invalid product category.")
  /\ exists entries,
       get_category Sample.categories Sample.newest_first Sample.db Sample.bob "New York" "DAIRY"
       = send_json (Data entries)
       /\ exists e, In e entries /\ CategoryEntry.productName e = "Milk".
Proof.
  split; [|split].
  - apply (proj1 (category_listing_entries Sample.categories
                    Sample.newest_first Sample.db Sample.carol "New York"
                    "DAIRY")); discriminate.
  - apply (proj1 (proj2 (category_listing_entries Sample.categories
                           Sample.newest_first Sample.db Sample.bob "New York"
                           "FROZEN")));
      [right|]; reflexivity.
  - destruct (proj2 (proj2 (category_listing_entries Sample.categories
                              Sample.newest_first Sample.db Sample.bob
                              "New York" "DAIRY")))
      as (entries & Hreply & _ & Hall).
    + right. reflexivity.
    + reflexivity.
    + discriminate.
    + exact newest_first_keeps_rows.
    + exists entries. split; [exact Hreply|].
      apply (Hall Sample.milk
               (Sample.row Sample.fresh_mart Sample.milk 350 100 true Sample.bob)).
      * simpl. tauto.
      * reflexivity.
      * unfold is_offer. simpl. repeat split. tauto.
Defined.

Lemma find_remove_first_unique {A B : Type} (k : A -> B) (c : B)
    (f : A -> bool) (l : list A) :
  (forall x, f x = true <-> k x = c) ->
  NoDup (map k l) ->
  find f (remove_first f l) = None.
Proof.
  intros Hf. induction l as [|y l IH]; simpl; intros H; [reflexivity|].
  inversion H as [|? ? Hnot Hrest]; subst.
  destruct (f y) eqn:Hy; simpl.
  - destruct (find f l) as [q|] eqn:Hq; [|reflexivity].
    apply find_some in Hq. destruct Hq as [Hin Hq].
    apply Hf in Hy, Hq. exfalso. apply Hnot. rewrite Hy, <- Hq.
    now apply in_map.
  - rewrite Hy. now apply IH.
Qed.

(** X20.  After [DELETE /inventory/:supermarketId/:productId] has answered
    204 the other tables are as they were and every row left was there
    before; when the table had one row per pair, the pair has no row any
    more and the supermarket no longer offers the product in any city. *)
Theorem deleted_row_is_gone
    (db : Store) (user : User.t) (supermarketId productId : string)
    (db' : Store) :
  delete_inventory db user supermarketId productId
  = (send 204 (Notice "Inventory entry deleted successfully."), db') ->
  User.role user = "ADMIN"
  /\ find_inventory db supermarketId productId <> None
  /\ users db' = users db
  /\ products db' = products db
  /\ supermarkets db' = supermarkets db
  /\ (forall r, In r (inventory db') -> In r (inventory db))
  /\ (pairs_unique db ->
      find_inventory db' supermarketId productId = None
      /\ forall city r,
           is_offer db' productId city r ->
           Inventory.supermarketId r <> supermarketId).
Proof.
  unfold delete_inventory.
  destruct (negb (User.role user =? "ADMIN")) eqn:Hrole; [discriminate|].
  apply negb_false_iff, String.eqb_eq in Hrole.
  unfold inventory_delete.
  destruct (find_inventory db supermarketId productId) as [r0|] eqn:Hr0;
    [|discriminate].
  intros H. injection H as <-. cbn [set_inventory users products supermarkets
                                    inventory].
  split; [exact Hrole|]. split; [congruence|].
  repeat (split; [reflexivity|]).
  split; [intros r; apply In_remove_first|].
  intros Hunique.
  assert (Hgone : find_inventory
                    (set_inventory db
                       (remove_first (of_pair supermarketId productId)
                          (inventory db)))
                    supermarketId productId = None).
  { unfold find_inventory. cbn [set_inventory inventory].
    apply (find_remove_first_unique pair_of (supermarketId, productId));
      [|exact Hunique].
    intros x. apply of_pair_spec. }
  split; [exact Hgone|].
  intros city r (Hin & Hpid & _) Hsid.
  unfold find_inventory in Hgone.
  pose proof (find_none _ _ Hgone r Hin) as Hno.
  unfold of_pair in Hno. rewrite Hsid, Hpid, !String.eqb_refl in Hno.
  discriminate.
Qed.

Lemma deleted_row_is_gone_witness :
  find_inventory (snd (delete_inventory Sample.db Sample.alice "S1" "P4"))
    "S1" "P4"
  = None.
Proof.
  destruct (deleted_row_is_gone Sample.db Sample.alice "S1" "P4" _ eq_refl)
    as (_ & _ & _ & _ & _ & _ & Hgone).
  apply Hgone. unfold pairs_unique. simpl.
  repeat constructor; simpl; intuition discriminate.
Defined.
